(** * DebuggerCore (Linux, ptrace): a shallow embedding

    Source: [src/plugins/DebuggerCore/unix/linux/DebuggerCore.cpp].

    The debugger core keeps a table of traced threads, a set of threads
    whose stop has been observed with [waitpid] and not yet consumed by a
    continuation, and talks to the kernel through [ptrace], [waitpid],
    [tgkill], [kill] and [fork].  The kernel is an oracle here: every
    request is answered by an arbitrary deterministic machine, and every
    request and its answer is recorded in a trace. *)

From Stdlib Require Import ZArith Lia Ascii String DecimalString DecimalZ.
From Stdlib Require HexadecimalString HexadecimalN.
From stdpp Require Import gmap list.

Local Open Scope Z_scope.

(** ** Wait statuses

    [WIFEXITED] and friends come from the C library ([<sys/wait.h>], glibc's
    [bits/waitstatus.h]); the signal numbers are those of Linux on x86. *)

Module WaitStatus.

Definition SIGTRAP : Z := 5.
Definition SIGSTOP : Z := 19.
Definition PTRACE_EVENT_CLONE : Z := 3.

(** [(signed char) v] for a small non-negative [v]. *)
Definition signed_char (v : Z) : Z :=
  let m := v mod 256 in if m <? 128 then m else m - 256.

(** [#define __WTERMSIG(status) ((status) & 0x7f)] *)
Definition WTERMSIG (status : Z) : Z := Z.land status 0x7f.

(** [#define __WEXITSTATUS(status) (((status) & 0xff00) >> 8)] *)
Definition WEXITSTATUS (status : Z) : Z := Z.shiftr (Z.land status 0xff00) 8.

(** [#define __WSTOPSIG(status) __WEXITSTATUS(status)] *)
Definition WSTOPSIG (status : Z) : Z := WEXITSTATUS status.

(** [#define __WIFEXITED(status) (__WTERMSIG(status) == 0)] *)
Definition WIFEXITED (status : Z) : bool := WTERMSIG status =? 0.

(** [#define __WIFSIGNALED(status)
       (((signed char) (((status) & 0x7f) + 1) >> 1) > 0)] *)
Definition WIFSIGNALED (status : Z) : bool :=
  0 <? Z.shiftr (signed_char (Z.land status 0x7f + 1)) 1.

(** [#define __WIFSTOPPED(status) (((status) & 0xff) == 0x7f)] *)
Definition WIFSTOPPED (status : Z) : bool := Z.land status 0xff =? 0x7f.

(** [resume_code], lines 100-115. *)
Definition resume_code (status : Z) : Z :=
  if WIFSTOPPED status && (WSTOPSIG status =? SIGSTOP) then 0
  else if WIFSIGNALED status then WTERMSIG status
  else if WIFSTOPPED status then WSTOPSIG status
  else 0.

(** [is_clone_event], lines 121-127. *)
Definition is_clone_event (status : Z) : bool :=
  if WIFSTOPPED status && (WSTOPSIG status =? SIGTRAP)
  then Z.land (Z.shiftr status 16) 0xffff =? PTRACE_EVENT_CLONE
  else false.

(** The resume-code rule in the words of the specification: four cases,
    read in order, each one applying only when the earlier ones do not. *)
Inductive resume_code_rule (s : Z) : Z -> Prop :=
| rule_swallow_sigstop :
    WIFSTOPPED s = true -> WSTOPSIG s = SIGSTOP ->
    resume_code_rule s 0
| rule_term_signal :
    ~ (WIFSTOPPED s = true /\ WSTOPSIG s = SIGSTOP) ->
    WIFSIGNALED s = true ->
    resume_code_rule s (WTERMSIG s)
| rule_stop_signal :
    ~ (WIFSTOPPED s = true /\ WSTOPSIG s = SIGSTOP) ->
    WIFSIGNALED s = false ->
    WIFSTOPPED s = true ->
    resume_code_rule s (WSTOPSIG s)
| rule_otherwise :
    ~ (WIFSTOPPED s = true /\ WSTOPSIG s = SIGSTOP) ->
    WIFSIGNALED s = false ->
    WIFSTOPPED s = false ->
    resume_code_rule s 0.

(** A stop status for signal [sig]: low byte [0x7f], signal in bits 8-15. *)
Definition W_STOPCODE (sig : Z) : Z := Z.lor (Z.shiftl sig 8) 0x7f.

(** An exit status with exit code [code]. *)
Definition W_EXITCODE (code : Z) : Z := Z.shiftl code 8.

End WaitStatus.

(** ** The kernel as an oracle *)

Module Kernel.

(** The [ptrace] requests the file issues. *)
Inductive Request :=
| PTRACE_TRACEME | PTRACE_PEEKTEXT | PTRACE_POKETEXT
| PTRACE_PEEKUSER | PTRACE_POKEUSER
| PTRACE_CONT | PTRACE_KILL | PTRACE_SINGLESTEP
| PTRACE_GETREGS | PTRACE_SETREGS | PTRACE_GETFPREGS | PTRACE_GETFPXREGS
| PTRACE_ATTACH | PTRACE_DETACH
| PTRACE_GET_THREAD_AREA
| PTRACE_SETOPTIONS | PTRACE_GETEVENTMSG | PTRACE_GETSIGINFO
| PTRACE_GETREGSET.

(** Every way the file reaches outside of its own process state.  A pointer
    argument that only receives a result is written as [0]; what the kernel
    stores through it is the [out] of the reply.  [BREAKPOINT_restore] is the
    request to the breakpoint manager to put the original byte of a
    breakpoint back into the tracee. *)
Inductive Call :=
| SYS_ptrace (request : Request) (pid addr data : Z)
| SYS_waitpid (pid options : Z)
| SYS_tgkill (tgid tid sig : Z)
| SYS_kill (pid sig : Z)
| SYS_fork
| wait_for_sigchld (msecs : Z)
| get_binary_info
| PROC_task_entries (pid : Z)
| FILE_open_mem (pid : Z)
| FILE_read (address len : Z)
| BREAKPOINT_restore (address original_byte : Z).

(** [ret] is the C return value; [out] is what was stored through the result
    pointer (the wait status, the event message, a register block);
    [bytes] is what a file read delivers, or, for a directory listing, the
    entries as [toUInt] reads them. *)
Record Reply := { ret : Z; out : Z; bytes : list Z }.

Class Kernel (K : Type) := syscall : K -> Call -> K * Reply.

Definition __WALL : Z := 0x40000000.
Definition WNOHANG : Z := 1.
Definition PTRACE_O_TRACECLONE : Z := Z.shiftl 1 WaitStatus.PTRACE_EVENT_CLONE.

(** A kernel that answers from a script, whatever is asked; when the script
    runs out every request fails with [-1]. *)
Definition failure : Reply := {| ret := -1; out := 0; bytes := [] |}.

#[export] Instance script_kernel : Kernel (list Reply) :=
  fun k _ => match k with
             | [] => ([], failure)
             | r :: k' => (k', r)
             end.

Definition reply (r : Z) (o : Z) : Reply := {| ret := r; out := o; bytes := [] |}.

End Kernel.

Export WaitStatus Kernel.

(** ** Session state *)

(** Compile-time target: [EDB_X86] or [EDB_X86_64]. *)
Inductive Arch := EDB_X86 | EDB_X86_64.

Definition IS_X86_32_BIT (a : Arch) : bool :=
  match a with EDB_X86 => true | EDB_X86_64 => false end.

(** Modelled from the spec: [thread_info::State] is declared in
    DebuggerCore.h, which is not part of the sources at hand.  The spec gives
    a thread record a [run_state], one of Running and Stopped; the source
    only ever writes [THREAD_STOPPED]. *)
Inductive thread_state := THREAD_STOPPED | THREAD_RUNNING.

(** Modelled from the spec: [thread_info] is declared in DebuggerCore.h.  The
    source builds it as [{ status, thread_info::THREAD_STOPPED }] and reads
    and writes its [status]. *)
Record thread_info := { status : Z; state : thread_state }.

(** What [threads_[tid]] finds when [tid] has no entry yet: a
    value-initialised record. *)
Definition thread_info_default : thread_info :=
  {| status := 0; state := THREAD_STOPPED |}.

(** [PlatformEvent], as far as [handle_event] fills it. *)
Record PlatformEvent := {
  pid_e : Z;
  tid_e : Z;
  status_e : Z;
  siginfo_e : option Z
}.

(** Modelled from the spec: the classifiers of an event are defined with
    [PlatformEvent], outside of the sources at hand; the spec has them read
    the raw wait status. *)
Definition is_exit (e : PlatformEvent) : bool := WIFEXITED (status_e e).
Definition is_stop (e : PlatformEvent) : bool := WIFSTOPPED (status_e e).

(** Modelled from the spec: the members of the core are declared in
    DebuggerCore.h and its base classes.  [threads_] maps a thread id to its
    record, [waited_threads_] is the set of threads with an observed and
    unconsumed stop, [breakpoints_] maps an address to the original byte of
    the breakpoint placed there. *)
Record DebuggerCore := {
  threads_ : gmap Z thread_info;
  waited_threads_ : gset Z;
  active_thread_ : Z;
  event_thread_ : Z;
  pid_ : Z;
  binary_info_ : Z;
  process_ : Z;
  page_size_ : Z;
  breakpoints_ : gmap Z Z
}.

Definition with_threads (f : gmap Z thread_info -> gmap Z thread_info)
    (c : DebuggerCore) : DebuggerCore :=
  {| threads_ := f (threads_ c); waited_threads_ := waited_threads_ c;
     active_thread_ := active_thread_ c; event_thread_ := event_thread_ c;
     pid_ := pid_ c; binary_info_ := binary_info_ c; process_ := process_ c;
     page_size_ := page_size_ c; breakpoints_ := breakpoints_ c |}.

Definition with_waited (f : gset Z -> gset Z) (c : DebuggerCore) : DebuggerCore :=
  {| threads_ := threads_ c; waited_threads_ := f (waited_threads_ c);
     active_thread_ := active_thread_ c; event_thread_ := event_thread_ c;
     pid_ := pid_ c; binary_info_ := binary_info_ c; process_ := process_ c;
     page_size_ := page_size_ c; breakpoints_ := breakpoints_ c |}.

Definition with_active_thread (t : Z) (c : DebuggerCore) : DebuggerCore :=
  {| threads_ := threads_ c; waited_threads_ := waited_threads_ c;
     active_thread_ := t; event_thread_ := event_thread_ c;
     pid_ := pid_ c; binary_info_ := binary_info_ c; process_ := process_ c;
     page_size_ := page_size_ c; breakpoints_ := breakpoints_ c |}.

Definition with_event_thread (t : Z) (c : DebuggerCore) : DebuggerCore :=
  {| threads_ := threads_ c; waited_threads_ := waited_threads_ c;
     active_thread_ := active_thread_ c; event_thread_ := t;
     pid_ := pid_ c; binary_info_ := binary_info_ c; process_ := process_ c;
     page_size_ := page_size_ c; breakpoints_ := breakpoints_ c |}.

Definition with_pid (p : Z) (c : DebuggerCore) : DebuggerCore :=
  {| threads_ := threads_ c; waited_threads_ := waited_threads_ c;
     active_thread_ := active_thread_ c; event_thread_ := event_thread_ c;
     pid_ := p; binary_info_ := binary_info_ c; process_ := process_ c;
     page_size_ := page_size_ c; breakpoints_ := breakpoints_ c |}.

Definition with_binary_info (b : Z) (c : DebuggerCore) : DebuggerCore :=
  {| threads_ := threads_ c; waited_threads_ := waited_threads_ c;
     active_thread_ := active_thread_ c; event_thread_ := event_thread_ c;
     pid_ := pid_ c; binary_info_ := b; process_ := process_ c;
     page_size_ := page_size_ c; breakpoints_ := breakpoints_ c |}.

Definition with_process (p : Z) (c : DebuggerCore) : DebuggerCore :=
  {| threads_ := threads_ c; waited_threads_ := waited_threads_ c;
     active_thread_ := active_thread_ c; event_thread_ := event_thread_ c;
     pid_ := pid_ c; binary_info_ := binary_info_ c; process_ := p;
     page_size_ := page_size_ c; breakpoints_ := breakpoints_ c |}.

Definition with_breakpoints (f : gmap Z Z -> gmap Z Z) (c : DebuggerCore) : DebuggerCore :=
  {| threads_ := threads_ c; waited_threads_ := waited_threads_ c;
     active_thread_ := active_thread_ c; event_thread_ := event_thread_ c;
     pid_ := pid_ c; binary_info_ := binary_info_ c; process_ := process_ c;
     page_size_ := page_size_ c; breakpoints_ := f (breakpoints_ c) |}.

(** The constructor, lines 278-286: nothing attached, the page size cached. *)
Definition DebuggerCore_new (page_size : Z) : DebuggerCore :=
  {| threads_ := ∅; waited_threads_ := ∅;
     active_thread_ := 0; event_thread_ := 0; pid_ := 0;
     binary_info_ := 0; process_ := 0;
     page_size_ := page_size; breakpoints_ := ∅ |}.

(** [threads_[tid].status = status]: indexing creates the entry when there is
    none, then the status is stored into it. *)
Definition threads_index_set_status (tid st : Z)
    (m : gmap Z thread_info) : gmap Z thread_info :=
  match m !! tid with
  | Some info => <[tid := {| status := st; state := state info |}]> m
  | None => <[tid := {| status := st; state := state thread_info_default |}]> m
  end.

(** [threads_[tid].status] as a value; the entry is created when missing. *)
Definition threads_index (tid : Z) (m : gmap Z thread_info) : gmap Z thread_info :=
  match m !! tid with
  | Some _ => m
  | None => <[tid := thread_info_default]> m
  end.

(** [it->status = thread_status] on the entry the iterator points at. *)
Definition set_status (tid st : Z) (m : gmap Z thread_info) : gmap Z thread_info :=
  alter (fun info => {| status := st; state := state info |}) tid m.

(** ** Running against a kernel *)

Section Core.

Context {K : Type} `{!Kernel K}.

(** The debugger process: its members, the kernel it runs on, and the
    requests issued so far with their answers, most recent first. *)
Record World := {
  core : DebuggerCore;
  kern : K;
  trace : list (Call * Reply);
  getFPXRegsSupported : option bool   (* the static of [get_state]; [None] before its first use *)
}.

(** A call returns, or stops at a failed [Q_ASSERT], or never comes back
    (the forked child, which goes on to [execve] or [abort]). *)
Inductive Outcome (A : Type) :=
| Ok (a : A) (w : World)
| AssertFailed (w : World)
| NoReturn (w : World).

Arguments Ok {A} a w.
Arguments AssertFailed {A} w.
Arguments NoReturn {A} w.

Definition M (A : Type) : Type := World -> Outcome A.

Definition pure {A} (a : A) : M A := fun w => Ok a w.

Definition bind {A B} (m : M A) (f : A -> M B) : M B :=
  fun w => match m w with
           | Ok a w' => f a w'
           | AssertFailed w' => AssertFailed w'
           | NoReturn w' => NoReturn w'
           end.

Definition get {A} (f : DebuggerCore -> A) : M A :=
  fun w => Ok (f (core w)) w.

Definition modify (f : DebuggerCore -> DebuggerCore) : M unit :=
  fun w => Ok tt {| core := f (core w); kern := kern w; trace := trace w;
                    getFPXRegsSupported := getFPXRegsSupported w |}.

(** One request to the kernel, recorded with its answer. *)
Definition sys (c : Call) : M Reply :=
  fun w => let (k', r) := syscall (kern w) c in
           Ok r {| core := core w; kern := k'; trace := (c, r) :: trace w;
                   getFPXRegsSupported := getFPXRegsSupported w |}.

(** [Q_ASSERT(cond)], in a build that checks assertions. *)
Definition Q_ASSERT (cond : bool) : M unit :=
  fun w => if cond then Ok tt w else AssertFailed w.

Definition no_return {A} : M A := fun w => NoReturn w.

Definition get_static : M (option bool) :=
  fun w => Ok (getFPXRegsSupported w) w.

Definition set_static (b : bool) : M unit :=
  fun w => Ok tt {| core := core w; kern := kern w; trace := trace w;
                    getFPXRegsSupported := Some b |}.

End Core.

Arguments World K : clear implicits.
Arguments Outcome K A : clear implicits.
Arguments M K A : clear implicits.
Arguments Ok {K A} a w.
Arguments AssertFailed {K A} w.
Arguments NoReturn {K A} w.

Declare Scope core_scope.
Delimit Scope core_scope with core.
Notation "'do' x <- m ; k" := (bind m (fun x => k))
  (at level 10, x name, m at level 100, k at level 200) : core_scope.
Notation "m ;; k" := (bind m (fun _ => k))
  (at level 100, right associativity) : core_scope.
Local Open Scope core_scope.

(** Modelled from the spec: [PlatformState] is defined outside of the sources
    at hand.  It is kept here as far as [get_state] writes it; register
    blocks are kept as the kernel delivered them.  What [clear] leaves in a
    state is not fixed here: [get_state] takes it as [cleared]. *)
Record PlatformState := {
  regs_x86 : option Z;
  segRegs_FS : Z;
  segRegs_GS : Z;
  fsBase : Z;
  gsBase : Z;
  segBasesFilled : bool;
  xstate_x86 : option Z;
  fpxregs_x86 : option Z;
  fpregs_x86 : option Z;
  dbgRegs : list Z
}.

Definition LDT_ENTRY_SIZE : Z := 8.
Definition NT_X86_XSTATE : Z := 0x202.

(** [offsetof(struct user, u_debugreg[i])], from [<sys/user.h>]. *)
Definition offsetof_u_debugreg (a : Arch) (i : Z) : Z :=
  match a with
  | EDB_X86 => 252 + 4 * i
  | EDB_X86_64 => 848 + 8 * i
  end.

(** [address + n] for an [edb::address_t] and a [qint64].  A 64-bit address
    makes the sum unsigned, and it wraps around; a 32-bit address is widened
    and the sum is exact. *)
Definition address_plus (a : Arch) (address n : Z) : Z :=
  match a with
  | EDB_X86 => address + n
  | EDB_X86_64 => (address + n) mod 2 ^ 64
  end.

Definition size_t_bits (a : Arch) : Z := if IS_X86_32_BIT a then 32 else 64.

(** The body of the loop of [read_pages], lines 548-551, for the breakpoint
    at [bp.1] with original byte [bp.2].  A store past the end of the
    buffer is undefined in the source; here it leaves the buffer as it is. *)
Definition overlay_one (a : Arch) (address n : Z) (buf : list Z) (bp : Z * Z) : list Z :=
  if (address <=? bp.1) && (bp.1 <? address_plus a address n)
  then <[Z.to_nat (bp.1 - address) := bp.2]> buf
  else buf.

(** ** The operations of the core *)

Section Operations.

Context {K : Type} `{!Kernel K}.

Fixpoint for_each {A} (l : list A) (body : A -> M K unit) : M K unit :=
  match l with
  | [] => pure tt
  | x :: rest => body x ;; for_each rest body
  end.

(** Modelled from the spec: [pid()], [active_thread()], [attached()] and
    [thread_ids()] are inherited from a base class that is not part of the
    sources at hand.  The spec has [pid] be 0 when detached, and
    [thread_ids] list the keys of the thread table. *)
Definition pid : M K Z := get pid_.
Definition active_thread : M K Z := get active_thread_.
Definition attached : M K bool := do p <- pid; pure (negb (p =? 0)).
Definition thread_ids : M K (list Z) :=
  do thr <- get threads_; pure (map fst (map_to_list thr)).

(** Modelled from the spec: [clear_breakpoints()] is inherited as well.  The
    spec has the external breakpoint manager asked to restore the original
    bytes: one request to it for each breakpoint of the store, which is
    empty afterwards. *)
Definition clear_breakpoints : M K unit :=
  do bps <- get breakpoints_;
  for_each (map_to_list bps) (fun bp =>
    do _ <- sys (BREAKPOINT_restore bp.1 bp.2); pure tt) ;;
  modify (with_breakpoints (fun _ => ∅)).

(** [unsigned long] to [edb::tid_t] (a 32-bit [int]). *)
Definition to_tid (v : Z) : Z :=
  let m := v mod 2^32 in if m <? 2^31 then m else m - 2^32.

(** [ptrace_getsiginfo], lines 345-348; [siginfo] is never null here. *)
Definition ptrace_getsiginfo (tid : Z) : M K Reply :=
  sys (SYS_ptrace PTRACE_GETSIGINFO tid 0 0).

(** [ptrace_traceme], lines 354-356. *)
Definition ptrace_traceme : M K Z :=
  do r <- sys (SYS_ptrace PTRACE_TRACEME 0 0 0); pure (ret r).

(** [ptrace_continue], lines 362-367. *)
Definition ptrace_continue (tid status : Z) : M K Z :=
  do waited <- get waited_threads_;
  Q_ASSERT (bool_decide (tid ∈ waited)) ;;
  Q_ASSERT (negb (tid =? 0)) ;;
  modify (with_waited (fun s => s ∖ {[tid]})) ;;
  do r <- sys (SYS_ptrace PTRACE_CONT tid 0 status);
  pure (ret r).

(** [ptrace_step], lines 373-378. *)
Definition ptrace_step (tid status : Z) : M K Z :=
  do waited <- get waited_threads_;
  Q_ASSERT (bool_decide (tid ∈ waited)) ;;
  Q_ASSERT (negb (tid =? 0)) ;;
  modify (with_waited (fun s => s ∖ {[tid]})) ;;
  do r <- sys (SYS_ptrace PTRACE_SINGLESTEP tid 0 status);
  pure (ret r).

(** [ptrace_set_options], lines 384-388. *)
Definition ptrace_set_options (tid options : Z) : M K Z :=
  do waited <- get waited_threads_;
  Q_ASSERT (bool_decide (tid ∈ waited)) ;;
  Q_ASSERT (negb (tid =? 0)) ;;
  do r <- sys (SYS_ptrace PTRACE_SETOPTIONS tid 0 options);
  pure (ret r).

(** [ptrace_get_event_message], lines 394-399; [message] is never null
    here. *)
Definition ptrace_get_event_message (tid : Z) : M K Reply :=
  do waited <- get waited_threads_;
  Q_ASSERT (bool_decide (tid ∈ waited)) ;;
  Q_ASSERT (negb (tid =? 0)) ;;
  sys (SYS_ptrace PTRACE_GETEVENTMSG tid 0 0).

(** The body of the loop of [stop_threads], lines 478-492; the warning about
    a stop that is not SIGSTOP is only printed. *)
Definition stop_thread (tid : Z) : M K unit :=
  do waited <- get waited_threads_;
  if negb (bool_decide (tid ∈ waited)) then
    do p <- pid;
    do _ <- sys (SYS_tgkill p tid SIGSTOP);
    do r <- sys (SYS_waitpid tid __WALL);
    if 0 <? ret r then
      modify (with_waited (fun s => {[tid]} ∪ s)) ;;
      modify (with_threads (set_status tid (out r)))
    else pure tt
  else pure tt.

(** [stop_threads], lines 476-494.  The loop changes no key of the table,
    so it goes over the keys as they are when it starts. *)
Definition stop_threads : M K unit :=
  do thr <- get threads_;
  for_each (map fst (map_to_list thr)) stop_thread.

(** The clone branch of [handle_event], lines 427-449; the warning about a
    new thread whose event is not SIGSTOP is only printed. *)
Definition handle_clone (tid : Z) : M K (option PlatformEvent) :=
  do msg <- ptrace_get_event_message tid;
  (if negb (ret msg =? -1) then
     let new_tid := to_tid (out msg) in
     modify (with_threads (insert new_tid {| status := 0; state := THREAD_STOPPED |})) ;;
     do waited <- get waited_threads_;
     do thread_status <-
       (if negb (bool_decide (new_tid ∈ waited)) then
          do r <- sys (SYS_waitpid new_tid __WALL);
          if 0 <? ret r then
            modify (with_waited (fun s => {[new_tid]} ∪ s)) ;;
            pure (out r)
          else pure 0
        else pure 0);
     do _ <- ptrace_continue new_tid (resume_code thread_status);
     pure tt
   else pure tt) ;;
  do _ <- ptrace_continue tid 0;
  pure None.

(** The last part of [handle_event], lines 455-469: a normal event. *)
Definition handle_normal (tid status : Z) : M K (option PlatformEvent) :=
  do p <- pid;
  do info <- ptrace_getsiginfo tid;
  modify (with_active_thread tid) ;;
  modify (with_event_thread tid) ;;
  modify (with_threads (threads_index_set_status tid status)) ;;
  stop_threads ;;
  pure (Some {| pid_e := p; tid_e := tid; status_e := status;
                siginfo_e := if ret info =? -1 then None else Some (out info) |}).

(** [handle_event], lines 405-470. *)
Definition handle_event (tid status : Z) : M K (option PlatformEvent) :=
  modify (with_waited (fun s => {[tid]} ∪ s)) ;;
  do absorbed <-
    (if WIFEXITED status then
       modify (with_threads (delete tid)) ;;
       modify (with_waited (fun s => s ∖ {[tid]})) ;;
       do thr <- get threads_;
       pure (negb (bool_decide (thr = ∅)))
     else pure false);
  if absorbed then pure None
  else if is_clone_event status then handle_clone tid
  else handle_normal tid status.

(** The loop of [wait_debug_event], lines 505-511. *)
Fixpoint poll_threads (tids : list Z) : M K (option PlatformEvent) :=
  match tids with
  | [] => pure None
  | thread :: rest =>
      do r <- sys (SYS_waitpid thread (Z.lor __WALL WNOHANG));
      if 0 <? ret r then handle_event (ret r) (out r)
      else poll_threads rest
  end.

(** [wait_debug_event], lines 501-515; [wait_for_sigchld] answers non-zero
    for true. *)
Definition wait_debug_event (msecs : Z) : M K (option PlatformEvent) :=
  do a <- attached;
  if a then
    do timeout <- sys (wait_for_sigchld msecs);
    if ret timeout =? 0 then
      do tids <- thread_ids;
      poll_threads tids
    else pure None
  else pure None.

(** [reset], lines 942-950. *)
Definition reset : M K unit :=
  modify (with_threads (fun _ => ∅)) ;;
  modify (with_waited (fun _ => ∅)) ;;
  modify (with_active_thread 0) ;;
  modify (with_pid 0) ;;
  modify (with_event_thread 0) ;;
  modify (with_binary_info 0).

(** [detach], lines 632-650. *)
Definition detach : M K unit :=
  do a <- attached;
  if a then
    stop_threads ;;
    clear_breakpoints ;;
    do tids <- thread_ids;
    for_each tids (fun thread =>
      do r <- sys (SYS_ptrace PTRACE_DETACH thread 0 0);
      if ret r =? 0 then
        do _ <- sys (SYS_waitpid thread __WALL); pure tt
      else pure tt) ;;
    modify (with_process 0) ;;
    reset
  else pure tt.

(** [kill], lines 656-670. *)
Definition kill : M K unit :=
  do a <- attached;
  if a then
    clear_breakpoints ;;
    do p <- pid;
    do _ <- sys (SYS_ptrace PTRACE_KILL p 0 0);
    do _ <- sys (SYS_waitpid p __WALL);
    modify (with_process 0) ;;
    reset
  else pure tt.

(** [pause], lines 676-685. *)
Definition pause : M K unit :=
  do a <- attached;
  if a then
    do p <- pid;
    do _ <- sys (SYS_kill p SIGSTOP);
    pure tt
  else pure tt.

(** Modelled from the spec: [edb::EVENT_STATUS] is declared in a header that
    is not part of the sources at hand; the spec names the policies
    RunNormal, PassException and Stop. *)
Inductive EVENT_STATUS :=
| DEBUG_STOP | DEBUG_CONTINUE | DEBUG_EXCEPTION_NOT_HANDLED.

(** The signal for the active thread, lines 696-697 and 719-720.  Reading
    [threads_[tid].status] creates the entry when there is none. *)
Definition active_code (st : EVENT_STATUS) (tid : Z) : M K Z :=
  match st with
  | DEBUG_EXCEPTION_NOT_HANDLED =>
      modify (with_threads (threads_index tid)) ;;
      do thr <- get threads_;
      pure (resume_code (from_option status 0 (thr !! tid)))
  | _ => pure 0
  end.

(** [resume], lines 691-708. *)
Definition resume (st : EVENT_STATUS) : M K unit :=
  do a <- attached;
  if a then
    match st with
    | DEBUG_STOP => pure tt
    | _ =>
        do tid <- active_thread;
        do code <- active_code st tid;
        do _ <- ptrace_continue tid code;
        do thr <- get threads_;
        for_each (map_to_list thr) (fun it =>
          do waited <- get waited_threads_;
          if bool_decide (fst it ∈ waited) then
            do _ <- ptrace_continue (fst it) (resume_code (status (snd it)));
            pure tt
          else pure tt)
    end
  else pure tt.

(** [step], lines 714-724. *)
Definition step (st : EVENT_STATUS) : M K unit :=
  do a <- attached;
  if a then
    match st with
    | DEBUG_STOP => pure tt
    | _ =>
        do tid <- active_thread;
        do code <- active_code st tid;
        do _ <- ptrace_step tid code;
        pure tt
    end
  else pure tt.

(** [set_active_thread], lines 926-936: both branches only print. *)
Definition set_active_thread (tid : Z) : M K unit :=
  do thr <- get threads_;
  if bool_decide (is_Some (thr !! tid)) then
    pure tt
  else
    pure tt.

(** [open], lines 847-920.  The path, the working directory, the arguments
    and the terminal are only used by the child. *)
Definition open (path cwd : string) (args : list string) (tty : string) : M K bool :=
  detach ;;
  do child <- sys SYS_fork;
  let pid := ret child in
  if pid =? 0 then
    do _ <- ptrace_traceme;
    no_return
  else if pid =? -1 then
    reset ;;
    pure false
  else
    reset ;;
    do r <- sys (SYS_waitpid pid __WALL);
    if ret r =? -1 then pure false
    else
      let status := out r in
      if negb (WIFSTOPPED status) || negb (WSTOPSIG status =? SIGTRAP) then
        detach ;;
        pure false
      else
        modify (with_waited (fun s => {[pid]} ∪ s)) ;;
        do o <- ptrace_set_options pid PTRACE_O_TRACECLONE;
        if o =? -1 then
          detach ;;
          pure false
        else
          modify (with_waited (fun s => {[pid]} ∪ s)) ;;
          modify (with_threads (insert pid {| status := status; state := THREAD_STOPPED |})) ;;
          modify (with_pid pid) ;;
          modify (with_active_thread pid) ;;
          modify (with_event_thread pid) ;;
          do b <- sys get_binary_info;
          modify (with_binary_info (ret b)) ;;
          modify (with_process pid) ;;
          pure true.

(** [attach_thread], lines 573-591. *)
Definition attach_thread (tid : Z) : M K bool :=
  do r <- sys (SYS_ptrace PTRACE_ATTACH tid 0 0);
  if ret r =? 0 then
    do w <- sys (SYS_waitpid tid __WALL);
    (if 0 <? ret w then
       modify (with_threads (insert tid {| status := out w; state := THREAD_STOPPED |})) ;;
       modify (with_waited (fun s => {[tid]} ∪ s)) ;;
       do _ <- ptrace_set_options tid PTRACE_O_TRACECLONE;
       pure tt
     else pure tt) ;;
    pure true
  else pure false.

(** One pass over the entries of [/proc/<pid>/task/], lines 604-612. *)
Fixpoint attach_pass (entries : list Z) (attached : bool) : M K bool :=
  match entries with
  | [] => pure attached
  | s :: rest =>
      let tid := to_tid s in
      do thr <- get threads_;
      if negb (bool_decide (is_Some (thr !! tid))) then
        do b <- attach_thread tid;
        attach_pass rest (attached || b)
      else attach_pass rest attached
  end.

(** The [do ... while(attached)] of lines 601-613, for at most [fuel]
    passes; the answer says whether a pass attached nothing new. *)
Fixpoint attach_sweep (fuel : nat) (pid : Z) : M K bool :=
  match fuel with
  | O => pure false
  | S fuel' =>
      do dir <- sys (PROC_task_entries pid);
      do attached <- attach_pass (bytes dir) false;
      if attached then attach_sweep fuel' pid else pure true
  end.

(** [attach], lines 597-626; [None] when the sweep has not come to an end
    within [fuel] passes. *)
Definition attach (fuel : nat) (pid : Z) : M K (option bool) :=
  detach ;;
  do finished <- attach_sweep fuel pid;
  if finished then
    do thr <- get threads_;
    if negb (bool_decide (thr = ∅)) then
      modify (with_pid pid) ;;
      modify (with_active_thread pid) ;;
      modify (with_event_thread pid) ;;
      do b <- sys get_binary_info;
      modify (with_binary_info (ret b)) ;;
      modify (with_process pid) ;;
      pure (Some true)
    else pure (Some false)
  else pure None.

(** [read_pages], lines 537-558: the buffer comes in and goes out. *)
Definition read_pages (a : Arch) (address : Z) (buf : list Z) (count : Z)
    : M K (bool * list Z) :=
  do page_size <- get page_size_;
  let len := (count * page_size) mod 2 ^ size_t_bits a in
  do p <- get pid_;
  do f <- sys (FILE_open_mem p);
  if negb (ret f =? 0) then
    do r <- sys (FILE_read address len);
    let data := if ret r <? 0 then [] else take (Z.to_nat len) (bytes r) in
    let n := if ret r <? 0 then -1 else Z.of_nat (List.length data) in
    do bps <- get breakpoints_;
    pure (true, foldl (overlay_one a address n) (data ++ drop (List.length data) buf)
                      (map_to_list bps))
  else pure (true, buf).

(** One debug register, lines 799-806. *)
Definition peek_debugreg (a : Arch) (i : Z) : M K Z :=
  do t <- active_thread;
  do r <- sys (SYS_ptrace PTRACE_PEEKUSER t (offsetof_u_debugreg a i) 0);
  pure (ret r).

(** The floating point part of [get_state], lines 769-796. *)
Definition get_fp_state (a : Arch) (st : PlatformState) : M K PlatformState :=
  do t <- active_thread;
  do x <- sys (SYS_ptrace PTRACE_GETREGSET t NT_X86_XSTATE 0);
  if negb (ret x =? -1) then
    pure {| regs_x86 := regs_x86 st; segRegs_FS := segRegs_FS st;
            segRegs_GS := segRegs_GS st; fsBase := fsBase st; gsBase := gsBase st;
            segBasesFilled := segBasesFilled st; xstate_x86 := Some (out x);
            fpxregs_x86 := fpxregs_x86 st; fpregs_x86 := fpregs_x86 st;
            dbgRegs := dbgRegs st |}
  else
    do s <- get_static;
    let supported := from_option id (IS_X86_32_BIT a) s in
    set_static supported ;;
    do fpx <- (if supported then
                 do r <- sys (SYS_ptrace PTRACE_GETFPXREGS t 0 0);
                 set_static (negb (ret r =? -1)) ;;
                 pure (if ret r =? -1 then None else Some (out r))
               else pure None);
    match fpx with
    | Some regs =>
        pure {| regs_x86 := regs_x86 st; segRegs_FS := segRegs_FS st;
                segRegs_GS := segRegs_GS st; fsBase := fsBase st; gsBase := gsBase st;
                segBasesFilled := segBasesFilled st; xstate_x86 := xstate_x86 st;
                fpxregs_x86 := Some regs; fpregs_x86 := fpregs_x86 st;
                dbgRegs := dbgRegs st |}
    | None =>
        do r <- sys (SYS_ptrace PTRACE_GETFPREGS t 0 0);
        pure {| regs_x86 := regs_x86 st; segRegs_FS := segRegs_FS st;
                segRegs_GS := segRegs_GS st; fsBase := fsBase st; gsBase := gsBase st;
                segBasesFilled := segBasesFilled st; xstate_x86 := xstate_x86 st;
                fpxregs_x86 := fpxregs_x86 st;
                fpregs_x86 := if ret r =? -1 then fpregs_x86 st else Some (out r);
                dbgRegs := dbgRegs st |}
    end.

(** The general purpose part of [get_state], lines 739-767. *)
Definition get_gp_state (a : Arch) (st : PlatformState) : M K PlatformState :=
  do t <- active_thread;
  do r <- sys (SYS_ptrace PTRACE_GETREGS t 0 0);
  if negb (ret r =? -1) then
    do bases <-
      (if IS_X86_32_BIT a then
         do fs <- sys (SYS_ptrace PTRACE_GET_THREAD_AREA t (segRegs_FS st / LDT_ENTRY_SIZE) 0);
         do gs <- sys (SYS_ptrace PTRACE_GET_THREAD_AREA t (segRegs_GS st / LDT_ENTRY_SIZE) 0);
         pure (if ret fs =? -1 then 0 else out fs,
               if ret gs =? -1 then 0 else out gs,
               negb (ret fs =? -1) && negb (ret gs =? -1) || segBasesFilled st)
       else pure (fsBase st, gsBase st, segBasesFilled st));
    pure {| regs_x86 := Some (out r); segRegs_FS := segRegs_FS st;
            segRegs_GS := segRegs_GS st;
            fsBase := bases.1.1; gsBase := bases.1.2; segBasesFilled := bases.2;
            xstate_x86 := xstate_x86 st; fpxregs_x86 := fpxregs_x86 st;
            fpregs_x86 := fpregs_x86 st; dbgRegs := dbgRegs st |}
  else pure st.

(** [get_state], lines 730-812, for a state whose [impl_] is not null and
    that [clear] turns into [cleared]. *)
Definition get_state (a : Arch) (cleared : PlatformState) : M K PlatformState :=
  do att <- attached;
  if att then
    do st1 <- get_gp_state a cleared;
    do st2 <- get_fp_state a st1;
    do d0 <- peek_debugreg a 0;
    do d1 <- peek_debugreg a 1;
    do d2 <- peek_debugreg a 2;
    do d3 <- peek_debugreg a 3;
    do d6 <- peek_debugreg a 6;
    do d7 <- peek_debugreg a 7;
    pure {| regs_x86 := regs_x86 st2; segRegs_FS := segRegs_FS st2;
            segRegs_GS := segRegs_GS st2; fsBase := fsBase st2; gsBase := gsBase st2;
            segBasesFilled := segBasesFilled st2; xstate_x86 := xstate_x86 st2;
            fpxregs_x86 := fpxregs_x86 st2; fpregs_x86 := fpregs_x86 st2;
            dbgRegs := [d0; d1; d2; d3; 0; 0; d6; d7] |}
  else pure cleared.

End Operations.

(** ** The public interface, and the states it reaches *)

Inductive ApiCall :=
| call_attach (fuel : nat) (pid : Z)
| call_open (path cwd : string) (args : list string) (tty : string)
| call_detach
| call_kill
| call_pause
| call_resume (st : EVENT_STATUS)
| call_step (st : EVENT_STATUS)
| call_wait_debug_event (msecs : Z)
| call_set_active_thread (tid : Z)
| call_get_state (a : Arch) (cleared : PlatformState)
| call_read_pages (a : Arch) (address : Z) (buf : list Z) (count : Z).

Section Reachable.

Context {K : Type} `{!Kernel K}.

Definition run_call (c : ApiCall) : M K unit :=
  match c with
  | call_attach fuel p => do _ <- attach fuel p; pure tt
  | call_open path cwd args tty => do _ <- open path cwd args tty; pure tt
  | call_detach => detach
  | call_kill => kill
  | call_pause => pause
  | call_resume st => resume st
  | call_step st => step st
  | call_wait_debug_event msecs => do _ <- wait_debug_event msecs; pure tt
  | call_set_active_thread tid => set_active_thread tid
  | call_get_state a cleared => do _ <- get_state a cleared; pure tt
  | call_read_pages a address buf count => do _ <- read_pages a address buf count; pure tt
  end.

(** A freshly constructed core on some kernel. *)
Definition initial (page_size : Z) (k : K) : World K :=
  {| core := DebuggerCore_new page_size; kern := k; trace := [];
     getFPXRegsSupported := None |}.

(** The worlds that calls of the public interface lead to. *)
Inductive reachable : World K -> Prop :=
| reachable_initial page_size k : reachable (initial page_size k)
| reachable_call w c w' :
    reachable w -> run_call c w = Ok tt w' -> reachable w'.

End Reachable.

(** ** [sscanf], as far as the format of [get_user_stat] uses it *)

Module Scanf.

Import DecimalString.

Local Open Scope string_scope.

(** [isspace] in the C locale. *)
Definition isspace (c : ascii) : bool :=
  let n := N_of_ascii c in
  (n =? 32)%N || ((9 <=? n)%N && (n <=? 13)%N).

Definition isdigit (c : ascii) : bool :=
  let n := N_of_ascii c in (48 <=? n)%N && (n <=? 57)%N.

(** The integer types the conversions store into. *)
Inductive CType := T_int | T_unsigned | T_long | T_ulong | T_ulonglong.

(** An element of a scan set: one character, or a range [lo-hi]. *)
Inductive SetItem :=
| Single (c : ascii)
| Range (lo hi : ascii).

Inductive Directive :=
| D_space                                 (* white space in the format *)
| D_int (ty : CType)                      (* %d %u %ld %lu %llu *)
| D_char                                  (* %c *)
| D_set (width : nat) (items : list SetItem). (* %<width>[...] *)

Definition in_item (c : ascii) (i : SetItem) : bool :=
  match i with
  | Single x => Ascii.eqb c x
  | Range lo hi => (N_of_ascii lo <=? N_of_ascii c)%N && (N_of_ascii c <=? N_of_ascii hi)%N
  end.

Definition in_set (items : list SetItem) (c : ascii) : bool :=
  existsb (in_item c) items.

(** The text of a directive in a format string. *)
Definition print_item (i : SetItem) : string :=
  match i with
  | Single c => String c ""
  | Range lo hi => String lo (String "-" (String hi ""))
  end.

Definition print_directive (d : Directive) : string :=
  match d with
  | D_space => " "
  | D_int T_int => "%d"
  | D_int T_unsigned => "%u"
  | D_int T_long => "%ld"
  | D_int T_ulong => "%lu"
  | D_int T_ulonglong => "%llu"
  | D_char => "%c"
  | D_set w items =>
      "%" ++ NilEmpty.string_of_uint (Nat.to_uint w) ++ "["
          ++ String.concat "" (map print_item items) ++ "]"
  end.

Definition print_format (ds : list Directive) : string :=
  String.concat "" (map print_directive ds).

(** What a conversion stores. *)
Inductive Value :=
| V_int (z : Z)
| V_char (c : ascii)
| V_str (s : string).

Inductive Failure := InputFailure | MatchingFailure.

Fixpoint skip_space (s : string) : string :=
  match s with
  | String c s' => if isspace c then skip_space s' else s
  | EmptyString => s
  end.

(** The longest prefix of digits, and what follows it. *)
Fixpoint span_digits (s : string) : string * string :=
  match s with
  | String c s' =>
      if isdigit c then let (ds, rest) := span_digits s' in (String c ds, rest)
      else ("", s)
  | EmptyString => ("", "")
  end.

(** At most [width] characters of the set, and what follows them. *)
Fixpoint span_set (width : nat) (items : list SetItem) (s : string) : string * string :=
  match width, s with
  | S w, String c s' =>
      if in_set items c then let (m, rest) := span_set w items s' in (String c m, rest)
      else ("", s)
  | _, _ => ("", s)
  end.

Definition type_bits (a : Arch) (ty : CType) : Z :=
  match ty with
  | T_int | T_unsigned => 32
  | T_long | T_ulong => if IS_X86_32_BIT a then 32 else 64
  | T_ulonglong => 64
  end.

Definition type_signed (ty : CType) : bool :=
  match ty with
  | T_int | T_long => true
  | T_unsigned | T_ulong | T_ulonglong => false
  end.

(** The width of the number that glibc reads the digits into: a [long],
    or a [long long] for [%llu]. *)
Definition parse_bits (a : Arch) (ty : CType) : Z :=
  match ty with
  | T_ulonglong => 64
  | _ => if IS_X86_32_BIT a then 32 else 64
  end.

(** [strtol] and [strtoul] on a number [v] in digits, for a width of [w]
    bits: [strtol] stops at the ends of the range; [strtoul] gives the
    largest value when the digits alone do not fit, and negates a number
    with a minus sign in unsigned arithmetic. *)
Definition strto (signed : bool) (w v : Z) : Z :=
  if signed then Z.max (- 2 ^ (w - 1)) (Z.min (2 ^ (w - 1) - 1) v)
  else if (2 ^ w <=? Z.abs v)%Z then 2 ^ w - 1
  else v mod 2 ^ w.

(** The value as the destination holds it.  C leaves open what is stored
    when the number does not fit the destination; this is what glibc, the C
    library of the platform, does: the digits are read with [strtol],
    [strtoul] or [strtoull], and the result is converted to the type of the
    destination. *)
Definition store_as (a : Arch) (ty : CType) (v : Z) : Z :=
  let parsed := strto (type_signed ty) (parse_bits a ty) v in
  let w := 2 ^ type_bits a ty in
  let m := parsed mod w in
  if type_signed ty && (w / 2 <=? m)%Z then m - w else m.

(** An integer conversion: white space is skipped, a sign is optional, at
    least one digit is needed. *)
Definition scan_int (a : Arch) (ty : CType) (s : string) : Failure + (Value * string) :=
  match skip_space s with
  | EmptyString => inl InputFailure
  | String c s' as s1 =>
      let neg := Ascii.eqb c "-" in
      let s2 := if neg || Ascii.eqb c "+" then s' else s1 in
      let (ds, rest) := span_digits s2 in
      match ds, NilEmpty.uint_of_string ds with
      | String _ _, Some d =>
          let v := Z.of_uint d in
          inr (V_int (store_as a ty (if neg then - v else v)), rest)
      | _, _ =>
          match s2 with
          | EmptyString => inl InputFailure
          | String _ _ => inl MatchingFailure
          end
      end
  end.

(** One directive against the input: a failure, or what is stored (nothing
    for white space) and the rest of the input. *)
Definition directive (a : Arch) (d : Directive) (s : string)
    : Failure + (option Value * string) :=
  match d with
  | D_space => inr (None, skip_space s)
  | D_int ty =>
      match scan_int a ty s with
      | inl f => inl f
      | inr (v, rest) => inr (Some v, rest)
      end
  | D_char =>
      match s with
      | EmptyString => inl InputFailure
      | String c rest => inr (Some (V_char c), rest)
      end
  | D_set w items =>
      match s with
      | EmptyString => inl InputFailure
      | String _ _ =>
          match span_set w items s with
          | (EmptyString, _) => inl MatchingFailure
          | (m, rest) => inr (Some (V_str m), rest)
          end
      end
  end.

(** The directives in order, until one fails; the values stored so far. *)
Fixpoint scan (a : Arch) (ds : list Directive) (s : string) : option Failure * list Value :=
  match ds with
  | [] => (None, [])
  | d :: ds' =>
      match directive a d s with
      | inl f => (Some f, [])
      | inr (v, rest) =>
          let (f, vs) := scan a ds' rest in
          (f, match v with Some x => x :: vs | None => vs end)
      end
  end.

(** [sscanf]: the number of values stored, or [EOF] when the input ends
    before the first conversion; and the values, in the order of the
    arguments. *)
Definition sscanf (a : Arch) (s : string) (fmt : list Directive) : Z * list Value :=
  match scan a fmt s with
  | (Some InputFailure, []) => (-1, [])
  | (_, vs) => (Z.of_nat (List.length vs), vs)
  end.

End Scanf.

(** ** [/proc/<pid>/stat] *)

Module ProcStat.

Import Scanf.

Local Open Scope string_scope.

(** The members of [struct user_stat] that [get_user_stat] fills, lines
    129-190, and the scratch character [ch]. *)
Inductive field :=
| pid | comm | state | ppid | pgrp | session | tty_nr | tpgid | flags
| minflt | cminflt | majflt | cmajflt | utime | stime | cutime | cstime
| priority | nice | num_threads | itrealvalue | starttime | vsize | rss
| rsslim | startcode | endcode | startstack | kstkesp | kstkeip | signal
| blocked | sigignore | sigcatch | wchan | nswap | cnswap | exit_signal
| processor | rt_priority | policy | delayacct_blkio_ticks | guest_time
| cguest_time
| ch.

#[export] Instance field_eq_dec : EqDecision field.
Proof. solve_decision. Defined.

(** The struct: a member is [None] until something is stored into it. *)
Definition user_stat := field -> option Value.

Definition uninitialised : user_stat := fun _ => None.

Definition store (f : field) (v : Value) (u : user_stat) : user_stat :=
  fun g => if decide (g = f) then Some v else u g.

(** The values go to the arguments in order. *)
Fixpoint assign (dests : list field) (vs : list Value) (u : user_stat) : user_stat :=
  match dests, vs with
  | f :: dests', v :: vs' => assign dests' vs' (store f v u)
  | _, _ => u
  end.

Definition comm_set : list SetItem :=
  [Range "0" "9"; Range "a" "z"; Range "A" "Z"; Single "_"; Single " ";
   Single "#"; Single "~"; Single "/"; Single "-"]%char.

(** The format of line 207. *)
Definition stat_format : list Directive :=
  [D_int T_int; D_space; D_char; D_set 255 comm_set; D_char; D_space; D_char;
   D_space; D_int T_int; D_space; D_int T_int; D_space; D_int T_int;
   D_space; D_int T_int; D_space; D_int T_int; D_space; D_int T_unsigned;
   D_space; D_int T_ulong; D_space; D_int T_ulong; D_space; D_int T_ulong;
   D_space; D_int T_ulong; D_space; D_int T_ulong; D_space; D_int T_ulong;
   D_space; D_int T_long; D_space; D_int T_long; D_space; D_int T_long;
   D_space; D_int T_long; D_space; D_int T_long; D_space; D_int T_long;
   D_space; D_int T_ulonglong; D_space; D_int T_ulong; D_space; D_int T_long;
   D_space; D_int T_ulong; D_space; D_int T_ulong; D_space; D_int T_ulong;
   D_space; D_int T_ulong; D_space; D_int T_ulong; D_space; D_int T_ulong;
   D_space; D_int T_ulong; D_space; D_int T_ulong; D_space; D_int T_ulong;
   D_space; D_int T_ulong; D_space; D_int T_ulong; D_space; D_int T_ulong;
   D_space; D_int T_ulong; D_space; D_int T_int; D_space; D_int T_int;
   D_space; D_int T_unsigned; D_space; D_int T_unsigned;
   D_space; D_int T_ulonglong; D_space; D_int T_ulong; D_space; D_int T_long].

(** The format as the source spells it. *)
Definition stat_format_text : string :=
  "%d %c%255[0-9a-zA-Z_ #~/-]%c %c %d %d %d %d %d %u %lu %lu %lu %lu %lu %lu %ld %ld %ld %ld %ld %ld %llu %lu %ld %lu %lu %lu %lu %lu %lu %lu %lu %lu %lu %lu %lu %lu %d %d %u %u %llu %lu %ld".

(** The arguments of lines 208-253. *)
Definition stat_arguments : list field :=
  [pid; ch; comm; ch; state; ppid; pgrp; session; tty_nr; tpgid; flags;
   minflt; cminflt; majflt; cmajflt; utime; stime; cutime; cstime;
   priority; nice; num_threads; itrealvalue; starttime; vsize; rss;
   rsslim; startcode; endcode; startstack; kstkesp; kstkeip; signal;
   blocked; sigignore; sigcatch; wchan; nswap; cnswap; exit_signal;
   processor; rt_priority; policy; delayacct_blkio_ticks; guest_time;
   cguest_time].

(** [get_user_stat], lines 197-259, on the first line of the file; [None]
    when the file cannot be opened or has no line. *)
Definition get_user_stat (a : Arch) (line : option string) (u : user_stat)
    : Z * user_stat :=
  match line with
  | None => (-1, u)
  | Some l =>
      let (r, vs) := sscanf a l stat_format in
      (r, assign stat_arguments vs u)
  end.

(** A number in decimal, as the kernel prints it. *)
Definition decimal (z : Z) : string := NilZero.string_of_int (Z.to_int z).

(** Numbers separated by single spaces, each with a space before it, and
    then [tail]. *)
Fixpoint numbers_text (numbers : list Z) (tail : string) : string :=
  match numbers with
  | [] => tail
  | z :: rest => " " ++ decimal z ++ numbers_text rest tail
  end.

(** A line of [/proc/<pid>/stat]: the pid, the command in parentheses, the
    state letter, the numbers of the fields that follow, and whatever
    comes after them. *)
Definition stat_line (p : Z) (command : string) (st : ascii) (numbers : list Z)
    (tail : string) : string :=
  decimal p ++ " (" ++ command ++ ") " ++ String st (numbers_text numbers tail).

Definition all_in_comm_set (s : string) : bool :=
  forallb (in_set comm_set) (list_ascii_of_string s).

End ProcStat.

(** ** The callers of [get_user_stat] *)

Module ProcFs.

Import Scanf ProcStat.

Local Open Scope string_scope.

(** [is_numeric], lines 86-94; [QChar::isDigit] on a character of the C
    locale. *)
Fixpoint is_numeric (s : string) : bool :=
  match s with
  | EmptyString => true
  | String c rest => if negb (isdigit c) then false else is_numeric rest
  end.

(** [QString::toULong] on a string of digits, the only strings the file
    hands to it: the number, or 0 when there is no digit or the number does
    not fit an [unsigned long]. *)
Definition toULong (a : Arch) (s : string) : Z :=
  match s, NilEmpty.uint_of_string s with
  | String _ _, Some d =>
      let v := Z.of_uint d in
      if (v <? 2 ^ type_bits a T_ulong)%Z then v else 0%Z
  | _, _ => 0%Z
  end.

(** What reading a member of [struct user_stat] gives: the value stored in
    it, or, when nothing was stored, whatever the memory holds. *)
Inductive Read (A : Type) :=
| Stored (v : A)
| Indeterminate.

Arguments Stored {A} v.
Arguments Indeterminate {A}.

Definition read_int (v : option Value) : Read Z :=
  match v with Some (V_int z) => Stored z | _ => Indeterminate end.

Definition read_str (v : option Value) : Read string :=
  match v with Some (V_str s) => Stored s | _ => Indeterminate end.

Definition read_char (v : option Value) : Read ascii :=
  match v with Some (V_char c) => Stored c | _ => Indeterminate end.

(** [parent_pid], lines 1002-1011, on the first line of
    [/proc/<pid>/stat]. *)
Definition parent_pid (a : Arch) (line : option string) : Read Z :=
  let (n, u) := get_user_stat a line uninitialised in
  if (4 <=? n)%Z then read_int (u ppid) else Stored 0%Z.

(** Modelled from the spec: [ThreadInfo] is declared outside of the sources
    at hand, and the spec names it without its members.  The members here
    are the ones that lines 1164-1210 assign, each holding the value
    assigned to it; a conversion to the declared type of a member is not
    modelled. *)
Record ThreadInfo := {
  ti_name : Read string;
  ti_tid : Z;
  ti_ip : Read Z;
  ti_priority : Read Z;
  ti_state : Read string
}.

(** The [switch] of lines 1169-1204. *)
Definition state_label (c : ascii) : string :=
  match c with
  | "R" => String c " (Running)"
  | "S" => String c " (Sleeping)"
  | "D" => String c " (Disk Sleep)"
  | "T" => String c " (Stopped)"
  | "t" => String c " (Tracing Stop)"
  | "Z" => String c " (Zombie)"
  | "X" | "x" => String c " (Dead)"
  | "W" => String c " (Waking/Paging)"
  | "K" => String c " (Wakekill)"
  | "P" => String c " (Parked)"
  | _ => String c ""
  end%char.

(** [get_thread_info], lines 1158-1213, on the first line of
    [/proc/<pid>/task/<tid>/stat]. *)
Definition get_thread_info (a : Arch) (line : option string) (tid : Z) : ThreadInfo :=
  let (n, u) := get_user_stat a line uninitialised in
  if (30 <=? n)%Z then
    {| ti_name := read_str (u comm);
       ti_tid := tid;
       ti_ip := read_int (u kstkeip);
       ti_priority := read_int (u priority);
       ti_state := match read_char (u state) with
                   | Stored c => Stored (state_label c)
                   | Indeterminate => Indeterminate
                   end |}
  else
    {| ti_name := Stored ""; ti_tid := tid; ti_ip := Stored 0%Z;
       ti_priority := Stored 0%Z; ti_state := Stored "?" |}.

(** An entry of a directory listing, as far as [enumerate_processes] reads
    it. *)
Record QFileInfo := { fileName : string; ownerId : Z }.

(** Modelled from the spec: [ProcessInfo] is declared outside of the
    sources at hand, and the spec names it without its members.  The
    members here are the ones that lines 977-987 assign; the name and the
    user are [QString]s, empty until something is assigned. *)
Record ProcessInfo := {
  pi_pid : Z;
  pi_uid : Z;
  pi_user : string;
  pi_name : Read string
}.

(** The body of the loop of [enumerate_processes], lines 970-992.
    [stat_of] gives the first line of [/proc/<pid>/stat], [getpwuid] the
    name of a user. *)
Definition enumerate_entry (a : Arch) (stat_of : Z -> option string)
    (getpwuid : Z -> option string)
    (ret : gmap Z ProcessInfo) (info : QFileInfo) : gmap Z ProcessInfo :=
  if is_numeric (fileName info) then
    let pid := to_tid (toULong a (fileName info)) in
    let (n, u) := get_user_stat a (stat_of pid) uninitialised in
    <[pid := {| pi_pid := pid;
                pi_uid := ownerId info;
                pi_user := from_option id "" (getpwuid (ownerId info));
                pi_name := if (2 <=? n)%Z then read_str (u comm) else Stored "" |}]> ret
  else ret.

(** [enumerate_processes], lines 964-995, on the entries of [/proc/]. *)
Definition enumerate_processes (a : Arch) (entries : list QFileInfo)
    (stat_of : Z -> option string) (getpwuid : Z -> option string)
    : gmap Z ProcessInfo :=
  foldl (enumerate_entry a stat_of getpwuid) ∅ entries.

End ProcFs.

(** ** Loaded modules *)

Module Modules.

Local Open Scope string_scope.

(** A memory region, as far as [loaded_modules] reads it. *)
Record Region := { region_name : string; region_start : Z }.

(** [Module] of the source. *)
Record LoadedModule := { module_name : string; module_base_address : Z }.

(** [struct link_map], as far as [loaded_modules] reads it. *)
Record link_map := { l_addr : Z; l_name : Z; l_next : Z }.

(** What [loaded_modules] reads from outside of the core: the debug pointer
    of the binary-info object, the memory of the tracee through
    [IProcess::read_bytes] (the [r_map] of the [r_debug] at an address,
    the [link_map] at an address, the string in the [PATH_MAX] bytes at an
    address), and the memory regions. *)
Record Tracee := {
  debug_pointer : Z;
  read_r_debug : Z -> option Z;
  read_link_map : Z -> option link_map;
  read_path : Z -> option string;
  regions : list Region
}.

(** The [while(link_address)] of lines 1029-1049, for at most [fuel]
    entries of the chain; [None] when the chain has not ended by then. *)
Fixpoint walk (fuel : nat) (t : Tracee) (link_address : Z)
    (ret : list LoadedModule) : option (list LoadedModule) :=
  match fuel with
  | O => None
  | S fuel' =>
      if (link_address =? 0)%Z then Some ret
      else
        match read_link_map t link_address with
        | Some map =>
            let path := from_option id "" (read_path t (l_name map)) in
            let ret' :=
              if negb (l_addr map =? 0)%Z
              then (ret ++ [{| module_name := path; module_base_address := l_addr map |}])%list
              else ret in
            walk fuel' t (l_next map) ret'
        | None => Some ret
        end
  end.

Definition startsWith_slash (s : string) : bool :=
  match s with
  | String "/" _ => true
  | _ => false
  end.

(** The fallback loop, lines 1061-1073: the modules found so far, and the
    names seen. *)
Definition fallback_region (acc : list LoadedModule * list string) (region : Region)
    : list LoadedModule * list string :=
  let (ret, found_modules) := acc in
  if startsWith_slash (region_name region) then
    if negb (existsb (String.eqb (region_name region)) found_modules) then
      ((ret ++ [{| module_name := region_name region;
                   module_base_address := region_start region |}])%list,
       region_name region :: found_modules)
    else acc
  else acc.

Definition fallback (rs : list Region) : list LoadedModule :=
  fst (foldl fallback_region ([], []) rs).

(** The first part of [loaded_modules], lines 1020-1054. *)
Definition chain_modules (fuel : nat) (c : DebuggerCore) (t : Tracee)
    : option (list LoadedModule) :=
  if negb (binary_info_ c =? 0)%Z then
    if negb (debug_pointer t =? 0)%Z then
      if negb (process_ c =? 0)%Z then
        match read_r_debug t (debug_pointer t) with
        | Some r_map =>
            if negb (r_map =? 0)%Z then walk fuel t r_map [] else Some []
        | None => Some []
        end
      else Some []
    else Some []
  else Some [].

(** [loaded_modules], lines 1017-1077. *)
Definition loaded_modules (fuel : nat) (c : DebuggerCore) (t : Tracee)
    : option (list LoadedModule) :=
  match chain_modules fuel c t with
  | None => None
  | Some [] => Some (fallback (regions t))
  | Some ret => Some ret
  end.

End Modules.

(** ** Formatting *)

Module Format.

Local Open Scope string_scope.

Fixpoint zeros (n : nat) : string :=
  match n with
  | O => ""
  | S n' => String "0" (zeros n')
  end.

(** The digits of [%x]: lower case, no leading zero, ["0"] for zero. *)
Definition hex (n : N) : string :=
  HexadecimalString.NilZero.string_of_uint (N.to_hex_uint n).

(** [%0<width>x]: zeros in front up to [width] characters. *)
Definition zero_padded (width : nat) (s : string) : string :=
  zeros (width - String.length s) ++ s.

Definition address_bits (a : Arch) : Z := if IS_X86_32_BIT a then 32%Z else 64%Z.

(** [format_pointer], lines 1096-1104: [%08x] or [%016llx] of an
    [edb::address_t]. *)
Definition format_pointer (a : Arch) (address : Z) : string :=
  zero_padded (if IS_X86_32_BIT a then 8 else 16)
    (hex (Z.to_N (address mod 2 ^ address_bits a))).

(** [stack_pointer], [frame_pointer], [instruction_pointer] and
    [flag_register], lines 1110-1152. *)
Definition stack_pointer (a : Arch) : string := if IS_X86_32_BIT a then "esp" else "rsp".
Definition frame_pointer (a : Arch) : string := if IS_X86_32_BIT a then "ebp" else "rbp".
Definition instruction_pointer (a : Arch) : string := if IS_X86_32_BIT a then "eip" else "rip".
Definition flag_register (a : Arch) : string := if IS_X86_32_BIT a then "eflags" else "rflags".

End Format.

(** ** Vocabulary of the statements *)

Section Vocabulary.

Context {K : Type} `{!Kernel K}.

(** The answer of the kernel to request [c] in world [w], and the world
    after it. *)
Definition answer (w : World K) (c : Call) : Reply := (syscall (kern w) c).2.

Definition after_sys (w : World K) (c : Call) : World K :=
  {| core := core w; kern := (syscall (kern w) c).1;
     trace := (c, answer w c) :: trace w;
     getFPXRegsSupported := getFPXRegsSupported w |}.

Definition with_core (f : DebuggerCore -> DebuggerCore) (w : World K) : World K :=
  {| core := f (core w); kern := kern w; trace := trace w;
     getFPXRegsSupported := getFPXRegsSupported w |}.

(** The thread a [ptrace] request is about; other calls are about none. *)
Definition about (t : Z) (c : Call) : Prop :=
  match c with
  | SYS_ptrace _ p _ _ => p = t
  | _ => True
  end.

(** From a world whose active thread is [t], [m] returns, leaves the
    members of the core alone, and only issues [ptrace] requests about
    [t]; what it returns satisfies [Q]. *)
Definition asks_about (t : Z) {A} (m : M K A) (Q : A -> Prop) : Prop :=
  forall w, active_thread_ (core w) = t ->
    exists a w', m w = Ok a w' /\ Q a /\ core w' = core w /\
      exists new, trace w' = new ++ trace w /\ Forall (fun e => about t e.1) new.

(** A blocking wait (one with exactly [__WALL]) that came back with a
    thread; every other entry of a trace passes. *)
Definition wait_ok (e : Call * Reply) : Prop :=
  match e.1 with
  | SYS_waitpid _ options => options = __WALL -> 0 < ret e.2
  | _ => True
  end.

(** Every thread of the table has an observed, unconsumed stop. *)
Definition all_stopped (c : DebuggerCore) : Prop :=
  forall t, is_Some (threads_ c !! t) -> t ∈ waited_threads_ c.

(** What a stretch of stopping leaves alone, and what it achieves for the
    threads in [done] when every blocking wait succeeded. *)
Definition stops (done : list Z) (w w' : World K) : Prop :=
  dom (threads_ (core w')) = dom (threads_ (core w)) /\
  waited_threads_ (core w) ⊆ waited_threads_ (core w') /\
  pid_ (core w') = pid_ (core w) /\
  active_thread_ (core w') = active_thread_ (core w) /\
  exists new, trace w' = new ++ trace w /\
    (Forall wait_ok new -> forall t, t ∈ done -> t ∈ waited_threads_ (core w')).

(** The core after the exit branch of [handle_event]: the thread is marked,
    then dropped from the table and from the waited set. *)
Definition exit_branch (tid : Z) (c : DebuggerCore) : DebuggerCore :=
  with_waited (fun s => s ∖ {[tid]})
    (with_threads (delete tid) (with_waited (fun s => {[tid]} ∪ s) c)).

Definition mark_waited (tid : Z) (c : DebuggerCore) : DebuggerCore :=
  with_waited (fun s => {[tid]} ∪ s) c.

(** The event a normal stop is reported with. *)
Definition event_of (w : World K) (tid status : Z) : PlatformEvent :=
  let info := answer w (SYS_ptrace PTRACE_GETSIGINFO tid 0 0) in
  {| pid_e := pid_ (core w); tid_e := tid; status_e := status;
     siginfo_e := if ret info =? -1 then None else Some (out info) |}.

End Vocabulary.

(** ** Scenarios on a scripted kernel *)

Definition world_of {K A} (o : Outcome K A) : World K :=
  match o with
  | Ok _ w => w
  | AssertFailed w => w
  | NoReturn w => w
  end.

(** [/bin/true] is spawned, resumed, and exits: the kernel answers, in
    order, [fork] with the child 100; the first [waitpid] with the exec stop
    (SIGTRAP); PTRACE_SETOPTIONS with success; the binary-info provider
    with a handle; PTRACE_CONT with success; [wait_for_sigchld] with "no
    timeout"; the polling [waitpid] with the exit of 100, code 0; and
    then, the process being gone, PTRACE_GETSIGINFO, [tgkill] and the
    blocking [waitpid] with failure. *)
Definition true_script : list Reply :=
  [reply 100 0; reply 100 (W_STOPCODE SIGTRAP); reply 0 0; reply 7 0;
   reply 0 0;
   reply 0 0; reply 100 (W_EXITCODE 0);
   reply (-1) 0; reply (-1) 0; reply (-1) 0].

Definition true_spawned : World (list Reply) :=
  world_of (run_call (call_open "/bin/true" "/" [] "") (initial 4096 true_script)).

Definition true_running : World (list Reply) :=
  world_of (run_call (call_resume DEBUG_CONTINUE) true_spawned).

Definition true_exited : World (list Reply) :=
  world_of (wait_debug_event (-1) true_running).


(** A session with two running threads, 100 and 101, on the kernel [k]. *)
Definition two_threads (k : list Reply) : World (list Reply) :=
  {| core :=
       {| threads_ := {[100 := {| status := W_STOPCODE SIGSTOP; state := THREAD_STOPPED |};
                        101 := {| status := W_STOPCODE SIGSTOP; state := THREAD_STOPPED |}]};
          waited_threads_ := ∅;
          active_thread_ := 100; event_thread_ := 100; pid_ := 100;
          binary_info_ := 7; process_ := 100; page_size_ := 4096;
          breakpoints_ := ∅ |};
     kern := k; trace := []; getFPXRegsSupported := None |}.

(** Thread 101 hits a breakpoint: [wait_for_sigchld] answers "no timeout",
    the polling [waitpid] on 101 answers with its SIGTRAP stop,
    PTRACE_GETSIGINFO and [tgkill] succeed, and the blocking [waitpid] on
    100 answers with its SIGSTOP stop. *)
Definition breakpoint_script : list Reply :=
  [reply 0 0; reply 101 (W_STOPCODE SIGTRAP); reply 0 0; reply 0 0;
   reply 100 (W_STOPCODE SIGSTOP)].

Definition breakpoint_hit : World (list Reply) :=
  world_of (wait_debug_event 0 (two_threads breakpoint_script)).


(** A session whose only thread, 100, is running, on the kernel [k]. *)
Definition one_thread (k : list Reply) : World (list Reply) :=
  {| core :=
       {| threads_ := {[100 := {| status := W_STOPCODE SIGTRAP; state := THREAD_STOPPED |}]};
          waited_threads_ := ∅;
          active_thread_ := 100; event_thread_ := 100; pid_ := 100;
          binary_info_ := 7; process_ := 100; page_size_ := 4096;
          breakpoints_ := ∅ |};
     kern := k; trace := []; getFPXRegsSupported := None |}.

(** The running thread is stopped: [tgkill] succeeds and the blocking
    [waitpid] answers with the SIGSTOP stop of thread 100. *)
Definition stop_script : list Reply := [reply 0 0; reply 100 (W_STOPCODE SIGSTOP)].

Definition stop_done : World (list Reply) :=
  world_of (stop_threads (one_thread stop_script)).

(** The process is gone: PTRACE_GETSIGINFO, [tgkill] and [waitpid] fail. *)
Definition gone_script : list Reply := [reply (-1) 0; reply (-1) 0; reply (-1) 0].


(** The status of a PTRACE_EVENT_CLONE stop: a SIGTRAP stop with the event
    in bits 16 and up. *)
Definition W_CLONE_EVENT : Z :=
  Z.lor (W_STOPCODE SIGTRAP) (Z.shiftl PTRACE_EVENT_CLONE 16).

(** Thread 100 has cloned thread 102: PTRACE_GETEVENTMSG answers with 102,
    the blocking [waitpid] on 102 answers with its SIGSTOP stop, and both
    PTRACE_CONT succeed. *)
Definition clone_script : list Reply :=
  [reply 0 102; reply 102 (W_STOPCODE SIGSTOP); reply 0 0; reply 0 0].

Definition clone_handled : World (list Reply) :=
  world_of (handle_event 100 W_CLONE_EVENT (two_threads clone_script)).


(** The members after [reset]. *)
Definition reset_core (c : DebuggerCore) : DebuggerCore :=
  with_binary_info 0
    (with_event_thread 0
       (with_pid 0
          (with_active_thread 0
             (with_waited (fun _ => ∅) (with_threads (fun _ => ∅) c))))).

(** A first event that is not a SIGTRAP stop: the child is sent SIGSTOP
    before it gets to its [execve], and stops with it. *)
Definition stopped_script : list Reply := [reply 100 0; reply 100 (W_STOPCODE SIGSTOP)].


(** A breakpoint at [0x401005] whose original byte is [0x55]; the page read
    from the tracee holds the trap byte [0xCC] there. *)
Definition breakpoint_session (k : list Reply) : World (list Reply) :=
  {| core :=
       {| threads_ := {[100 := {| status := W_STOPCODE SIGTRAP; state := THREAD_STOPPED |}]};
          waited_threads_ := {[100]};
          active_thread_ := 100; event_thread_ := 100; pid_ := 100;
          binary_info_ := 7; process_ := 100; page_size_ := 8;
          breakpoints_ := {[0x401005 := 0x55]} |};
     kern := k; trace := []; getFPXRegsSupported := None |}.

(** The session is detached: the breakpoint manager restores the byte,
    PTRACE_DETACH on thread 100 succeeds, and the [waitpid] that follows
    finds nothing to reap. *)
Definition detach_script : list Reply := [reply 0 0; reply 0 0; reply (-1) 0].

Definition detach_done : World (list Reply) :=
  world_of (detach (breakpoint_session detach_script)).

(** The session is killed: the breakpoint manager restores the byte,
    PTRACE_KILL succeeds, and [waitpid] reports the process killed by
    SIGKILL (9). *)
Definition kill_script : list Reply := [reply 0 0; reply 0 0; reply 100 9].

Definition kill_done : World (list Reply) :=
  world_of (kill (breakpoint_session kill_script)).

Definition page_script : list Reply :=
  [reply 1 0;
   {| ret := 8; out := 0; bytes := [0x48; 0x89; 0xe5; 0x90; 0x90; 0xCC; 0x48; 0x89] |}].


(** The window test of [read_pages], line 548. *)
Definition in_window (a : Arch) (address n addr : Z) : bool :=
  (address <=? addr) && (addr <? address_plus a address n).


(** The next character of the input, if any, is not a digit. *)
Definition no_digit_ahead (s : string) : Prop :=
  match s with
  | String c _ => Scanf.isdigit c = false
  | EmptyString => True
  end.

(** The conversions of the format after the state letter: white space and
    a number, 41 times. *)
Definition number_types : list Scanf.CType :=
  let i := Scanf.T_int in let u := Scanf.T_unsigned in
  let l := Scanf.T_long in let ul := Scanf.T_ulong in let ull := Scanf.T_ulonglong in
  [i; i; i; i; i; u; ul; ul; ul; ul; ul; ul; l; l; l; l; l; l; ull; ul; l;
   ul; ul; ul; ul; ul; ul; ul; ul; ul; ul; ul; ul; ul; i; i; u; u; ull; ul; l].

(** The stat line of a process called [(sd-pam)], as the kernel prints
    it. *)
Definition sd_pam_line : string :=
  "812 ((sd-pam)) S 811 812 812 0 -1 1077936448 0 0 0 0 0 0 0 0 20 0 1 0 1153 24000000 700 18446744073709551615 1 1 0 0 0 0 0 4096 0 0 0 0 17 2 0 0 0 0 0 0 0 0 0 0 0 0 0".

(** The members of [stat_arguments] after the first five. *)
Definition number_arguments : list ProcStat.field :=
  drop 5 ProcStat.stat_arguments.

(** Fields 4 to 44 of the stat line of a process, and the text of fields
    45 to 52. *)
Definition some_numbers : list Z :=
  [811; 812; 812; 0; -1; 1077936448; 0; 0; 0; 0; 0; 0; 0; 0; 20; 0; 1; 0;
   1153; 24000000; 700; 18446744073709551615; 1; 1; 0; 0; 0; 0; 0; 4096; 0;
   0; 0; 0; 17; 2; 0; 0; 0; 0; 0].

Definition some_tail : string := " 0 0 0 0 0 0 0 0".

(** ** Vocabulary of the further statements *)

(** The conversions of a format: its directives other than white space. *)
Definition is_conversion (d : Scanf.Directive) : bool :=
  match d with Scanf.D_space => false | _ => true end.

Definition conversions (ds : list Scanf.Directive) : list Scanf.Directive :=
  List.filter is_conversion ds.

(** A value is of the kind its conversion stores. *)
Definition kind_ok (d : Scanf.Directive) (v : Scanf.Value) : Prop :=
  match d, v with
  | Scanf.D_int _, Scanf.V_int _ => True
  | Scanf.D_char, Scanf.V_char _ => True
  | Scanf.D_set _ _, Scanf.V_str _ => True
  | _, _ => False
  end.



(** The name that [enumerate_processes] gives to a process, from what
    [get_user_stat] returned for it. *)
Definition name_by_count (n : Z) (u : ProcStat.user_stat) : ProcFs.Read string :=
  if n <? 2 then ProcFs.Stored EmptyString
  else if n =? 2 then ProcFs.Indeterminate
  else ProcFs.read_str (u ProcStat.comm).





(** The members of the core other than the two tables. *)
Definition session_of (c : DebuggerCore) : Z * Z * Z * Z * Z * Z * gmap Z Z :=
  (active_thread_ c, event_thread_ c, pid_ c, binary_info_ c, process_ c,
   page_size_ c, breakpoints_ c).

(** What holds of the core between the calls of the public interface. *)
Definition session_inv (c : DebuggerCore) : Prop :=
  active_thread_ c = event_thread_ c /\
  (pid_ c = 0 -> active_thread_ c = 0) /\
  (pid_ c = 0 -> all_stopped c).

Section SessionVocabulary.

Context {K : Type} `{!Kernel K}.

(** [m] changes no member of the core but the thread table and the waited
    set. *)
Definition frames {A} (m : M K A) : Prop :=
  forall w a w', m w = Ok a w' -> session_of (core w') = session_of (core w).

(** [m] only adds to the trace. *)
Definition extends {A} (m : M K A) : Prop :=
  forall w a w', m w = Ok a w' -> exists new, trace w' = new ++ trace w.

End SessionVocabulary.


(** A request to resume a thread, with a signal number. *)
Definition is_cont (e : Call * Reply) : Prop :=
  exists t sig, e.1 = SYS_ptrace PTRACE_CONT t 0 sig /\ t <> 0 /\ 0 <= sig < 256.

(** The body of the loop of [detach], lines 639-643. *)
Definition detach_thread {K : Type} `{!Kernel K} (thread : Z) : M K unit :=
  do r <- sys (SYS_ptrace PTRACE_DETACH thread 0 0);
  if ret r =? 0 then
    do _ <- sys (SYS_waitpid thread __WALL); pure tt
  else pure tt.

(** The body of the loop of [clear_breakpoints]. *)
Definition restore_breakpoint {K : Type} `{!Kernel K} (bp : Z * Z) : M K unit :=
  do _ <- sys (BREAKPOINT_restore bp.1 bp.2); pure tt.

(** The entries [new] of a trace are the requests to the breakpoint manager
    for the breakpoints [bps]: nothing else, and none is left out. *)
Definition restores (bps : gmap Z Z) (new : list (Call * Reply)) : Prop :=
  Forall (fun e => exists addr ob,
            bps !! addr = Some ob /\ e.1 = BREAKPOINT_restore addr ob) new /\
  forall addr ob, bps !! addr = Some ob ->
    exists r, (BREAKPOINT_restore addr ob, r) ∈ new.

(** The body of the second loop of [resume], lines 701-705. *)
Definition resume_thread {K : Type} `{!Kernel K} (it : Z * thread_info) : M K unit :=
  do waited <- get waited_threads_;
  if bool_decide (fst it ∈ waited) then
    do _ <- ptrace_continue (fst it) (resume_code (status (snd it)));
    pure tt
  else pure tt.


(** A register state with nothing in it. *)
Definition blank_state : PlatformState :=
  {| regs_x86 := None; segRegs_FS := 0; segRegs_GS := 0; fsBase := 0; gsBase := 0;
     segBasesFilled := false; xstate_x86 := None; fpxregs_x86 := None;
     fpregs_x86 := None; dbgRegs := [] |}.


(** An entry of the trace that reports no thread: anything but a [waitpid]
    that came back with one. *)
Definition quiet (e : Call * Reply) : Prop :=
  match e.1 with
  | SYS_waitpid _ _ => ret e.2 <= 0
  | _ => True
  end.

(** An entry of the trace that cannot block: anything but a [waitpid]
    without WNOHANG. *)
Definition polling (e : Call * Reply) : Prop :=
  match e.1 with
  | SYS_waitpid _ options => options = Z.lor __WALL WNOHANG
  | _ => True
  end.

(** Thread 100 is running and nothing has happened: [wait_for_sigchld]
    answers "no timeout", and the polling [waitpid] finds nothing. *)
Definition nothing_script : list Reply := [reply 0 0; reply 0 0].


Section CoreVocabulary.

Context {K : Type} `{!Kernel K}.

(** [m] changes no member of the core. *)
Definition keeps_core {A} (m : M K A) : Prop :=
  forall w a w', m w = Ok a w' -> core w' = core w.

End CoreVocabulary.


(** Two threads, 100 and 101, are found in [/proc/100/task/] and attached:
    for each, PTRACE_ATTACH succeeds, the blocking [waitpid] answers with
    the SIGSTOP stop, and PTRACE_SETOPTIONS succeeds; a second look at the
    directory finds the same two; the binary-info provider gives a
    handle. *)
Definition task_entries : Reply := {| ret := 0; out := 0; bytes := [100; 101] |}.

Definition attach_script : list Reply :=
  [task_entries;
   reply 0 0; reply 100 (W_STOPCODE SIGSTOP); reply 0 0;
   reply 0 0; reply 101 (W_STOPCODE SIGSTOP); reply 0 0;
   task_entries;
   reply 7 0].

Definition attached_world : World (list Reply) :=
  world_of (attach 2 100 (initial 4096 attach_script)).


(** A request other than PTRACE_GETFPXREGS. *)
Definition no_fpx_request (e : Call * Reply) : Prop :=
  match e.1 with
  | SYS_ptrace PTRACE_GETFPXREGS _ _ _ => False
  | _ => True
  end.

Section StaticVocabulary.

Context {K : Type} `{!Kernel K}.

(** PTRACE_GETFPXREGS is off: the static of [get_state] is false, or it is
    still to be initialised in a 64-bit build. *)
Definition fpx_off (a : Arch) (w : World K) : Prop :=
  from_option id (IS_X86_32_BIT a) (getFPXRegsSupported w) = false.

(** With PTRACE_GETFPXREGS off, [m] returns something that satisfies [Q]
    without that request, and leaves it off. *)
Definition fpx_quiet (a : Arch) {A} (m : M K A) (Q : A -> Prop) : Prop :=
  forall w, fpx_off a w ->
    exists x w' new, m w = Ok x w' /\ Q x /\ fpx_off a w' /\
      trace w' = new ++ trace w /\ Forall no_fpx_request new.

End StaticVocabulary.

(** The tracee is gone by the time its registers are read: every request
    fails. *)
Definition fpx_failed : World (list Reply) :=
  world_of (get_state EDB_X86 blank_state (one_thread [])).


(** [/proc/<pid>/mem] cannot be opened. *)
Definition closed_script : list Reply := [reply 0 0].


(** Reading a string of lower-case hexadecimal digits. *)
Definition read_hex (s : string) : option N :=
  option_map N.of_hex_uint (HexadecimalString.NilEmpty.uint_of_string s).


(** [m] is made from the first region of [rs] that bears its name, and the
    name is an absolute path. *)
Definition first_region (rs : list Modules.Region) (m : Modules.LoadedModule) : Prop :=
  exists (i : nat) r,
    rs !! i = Some r /\
    Modules.startsWith_slash (Modules.region_name r) = true /\
    m = {| Modules.module_name := Modules.region_name r;
           Modules.module_base_address := Modules.region_start r |} /\
    forall (j : nat) r', (j < i)%nat -> rs !! j = Some r' ->
                         Modules.region_name r' <> Modules.region_name r.

(** A tracee whose link map has two entries: the executable, loaded at 0,
    and the C library. *)
Definition two_entries : Modules.Tracee :=
  {| Modules.debug_pointer := 0x600000;
     Modules.read_r_debug := fun address =>
       if address =? 0x600000 then Some 0x1000 else None;
     Modules.read_link_map := fun address =>
       if address =? 0x1000 then
         Some {| Modules.l_addr := 0; Modules.l_name := 0x2000; Modules.l_next := 0x1100 |}
       else if address =? 0x1100 then
         Some {| Modules.l_addr := 0x7f0000; Modules.l_name := 0x2100; Modules.l_next := 0 |}
       else None;
     Modules.read_path := fun address =>
       if address =? 0x2100 then Some "/lib/libc.so.6"%string
       else if address =? 0x2000 then Some EmptyString
       else None;
     Modules.regions := [] |}.


(** A request of [stop_threads] about thread [t] of process [p]: the
    SIGSTOP sent to it, or the blocking wait for it. *)
Definition stops_thread (p t : Z) (e : Call * Reply) : Prop :=
  e.1 = SYS_tgkill p t SIGSTOP \/ e.1 = SYS_waitpid t __WALL.


(** The pid that an entry of [/proc/] stands for. *)
Definition entry_pid (a : Arch) (info : ProcFs.QFileInfo) : Z :=
  to_tid (ProcFs.toULong a (ProcFs.fileName info)).

(** What [enumerate_processes] stores under [k] for the entry [info]. *)
Definition made_from (a : Arch) (stat_of getpwuid : Z -> option string)
    (info : ProcFs.QFileInfo) (k : Z) (process_info : ProcFs.ProcessInfo) : Prop :=
  ProcFs.is_numeric (ProcFs.fileName info) = true /\ entry_pid a info = k /\
  ProcFs.pi_pid process_info = k /\
  ProcFs.pi_uid process_info = ProcFs.ownerId info /\
  ProcFs.pi_user process_info
  = from_option id EmptyString (getpwuid (ProcFs.ownerId info)) /\
  ProcFs.pi_name process_info
  = name_by_count (ProcStat.get_user_stat a (stat_of k) ProcStat.uninitialised).1
      (ProcStat.get_user_stat a (stat_of k) ProcStat.uninitialised).2.


(** * Properties *)

(** ** Wait statuses and the resume code *)

Section WaitStatusFacts.

Lemma WTERMSIG_range s : 0 <= WTERMSIG s < 128.
Proof.
  unfold WTERMSIG. change 0x7f with (Z.ones 7).
  rewrite Z.land_ones by lia. apply Z.mod_pos_bound. lia.
Qed.

Lemma WSTOPSIG_range s : 0 <= WSTOPSIG s < 256.
Proof.
  unfold WSTOPSIG, WEXITSTATUS.
  rewrite Z.shiftr_land. change (Z.shiftr 0xff00 8) with (Z.ones 8).
  rewrite Z.land_ones by lia. apply Z.mod_pos_bound. lia.
Qed.

(** A status is "signaled" when its low seven bits are neither 0 (exited)
    nor 0x7f (stopped). *)
Lemma WIFSIGNALED_spec s :
  WIFSIGNALED s = true <-> 1 <= WTERMSIG s <= 126.
Proof.
  unfold WIFSIGNALED. pose proof (WTERMSIG_range s) as Hr.
  unfold WTERMSIG in *. set (t := Z.land s 127) in *. clearbody t.
  unfold signed_char. rewrite Z.mod_small by lia.
  destruct (Z.ltb_spec (t + 1) 128) as [Hlt | Hge].
  - rewrite Z.shiftr_div_pow2 by lia. change (2 ^ 1) with 2.
    rewrite Z.ltb_lt. split; intros H.
    + destruct (Z.eq_dec t 0) as [-> | Hne]; [vm_compute in H; discriminate | lia].
    + apply Z.div_str_pos. lia.
  - assert (t = 127) as -> by lia. simpl. split; [discriminate | lia].
Qed.

Lemma WIFSTOPPED_WTERMSIG s : WIFSTOPPED s = true -> WTERMSIG s = 127.
Proof.
  unfold WIFSTOPPED, WTERMSIG. rewrite Z.eqb_eq. intros H.
  replace (Z.land s 0x7f) with (Z.land (Z.land s 0xff) 0x7f)
    by (rewrite <- Z.land_assoc; reflexivity).
  rewrite H. reflexivity.
Qed.

Lemma WIFSTOPPED_not_signaled s : WIFSTOPPED s = true -> WIFSIGNALED s = false.
Proof.
  intros H. apply WIFSTOPPED_WTERMSIG in H.
  destruct (WIFSIGNALED s) eqn:E; [| reflexivity].
  apply WIFSIGNALED_spec in E. lia.
Qed.

Lemma WIFSTOPPED_not_exited s : WIFSTOPPED s = true -> WIFEXITED s = false.
Proof.
  intros H. apply WIFSTOPPED_WTERMSIG in H.
  unfold WIFEXITED. rewrite H. reflexivity.
Qed.

Lemma WIFEXITED_not_clone s : WIFEXITED s = true -> is_clone_event s = false.
Proof.
  intros H. unfold is_clone_event.
  destruct (WIFSTOPPED s) eqn:E; [| reflexivity].
  apply WIFSTOPPED_not_exited in E. congruence.
Qed.

End WaitStatusFacts.

(** C4.  The resume code follows the four-case rule of the specification,
    read in order, for every status: 0 for a stop with SIGSTOP, else the
    terminating signal of a signaled status, else the stop signal of a
    stopped one, else 0; and the rule leaves no other answer. *)
Theorem resume_code_follows_rule (s r : Z) :
  resume_code_rule s r <-> r = resume_code s.
Proof.
  unfold resume_code. split.
  - intros H. destruct H as [Hs Hsig | Hn Hsg | Hn Hsg Hs | Hn Hsg Hs].
    + rewrite Hs, Hsig. reflexivity.
    + destruct (WIFSTOPPED s) eqn:Es.
      * apply WIFSTOPPED_not_signaled in Es. congruence.
      * simpl. rewrite Hsg. reflexivity.
    + rewrite Hs, Hsg. simpl.
      destruct (Z.eqb_spec (WSTOPSIG s) SIGSTOP) as [E | _]; [| reflexivity].
      exfalso. apply Hn. split; assumption.
    + rewrite Hs, Hsg. reflexivity.
  - intros ->.
    destruct (WIFSTOPPED s) eqn:Es; simpl.
    + destruct (Z.eqb_spec (WSTOPSIG s) SIGSTOP) as [E | Hne].
      * apply rule_swallow_sigstop; assumption.
      * rewrite (WIFSTOPPED_not_signaled s Es).
        apply rule_stop_signal;
          [intros [_ ?]; contradiction | apply WIFSTOPPED_not_signaled | ]; assumption.
    + destruct (WIFSIGNALED s) eqn:Eg.
      * apply rule_term_signal; [intros [? _]; congruence | assumption].
      * apply rule_otherwise; [intros [? _]; congruence | assumption | assumption].
Qed.

(** The signal handed to PTRACE_CONT is a byte. *)
Lemma resume_code_range (s : Z) : 0 <= resume_code s < 256.
Proof.
  unfold resume_code.
  pose proof (WTERMSIG_range s). pose proof (WSTOPSIG_range s).
  destruct (WIFSTOPPED s && (WSTOPSIG s =? SIGSTOP)); [lia |].
  destruct (WIFSIGNALED s); [lia |].
  destruct (WIFSTOPPED s); lia.
Qed.

(** ** Reasoning about runs *)

Section Runs.

Context {K : Type} `{!Kernel K}.

Lemma bind_Ok {A B} (m : M K A) (f : A -> M K B) w b w2 :
  bind m f w = Ok b w2 ->
  exists a w1, m w = Ok a w1 /\ f a w1 = Ok b w2.
Proof.
  unfold bind. destruct (m w) as [a w1 | w1 | w1]; try discriminate.
  intros Hf. exists a, w1. split; [reflexivity | exact Hf].
Qed.

Lemma bind_Ok_intro {A B} (m : M K A) (f : A -> M K B) w a w1 :
  m w = Ok a w1 -> bind m f w = f a w1.
Proof. unfold bind. intros ->. reflexivity. Qed.

Lemma sys_eq c w : sys c w = Ok (answer w c) (after_sys w c).
Proof.
  unfold sys, after_sys, answer. destruct (syscall (kern w) c); reflexivity.
Qed.

Lemma modify_eq f (w : World K) : modify f w = Ok tt (with_core f w).
Proof. reflexivity. Qed.

(** *** [ptrace_continue] and [ptrace_step] *)

Lemma ptrace_continue_not_waited tid sig w :
  tid ∉ waited_threads_ (core w) -> ptrace_continue tid sig w = AssertFailed w.
Proof.
  intros Hn. unfold ptrace_continue, bind, get, Q_ASSERT.
  rewrite bool_decide_eq_false_2 by assumption. reflexivity.
Qed.

Lemma ptrace_step_not_waited tid sig w :
  tid ∉ waited_threads_ (core w) -> ptrace_step tid sig w = AssertFailed w.
Proof.
  intros Hn. unfold ptrace_step, bind, get, Q_ASSERT.
  rewrite bool_decide_eq_false_2 by assumption. reflexivity.
Qed.

Lemma ptrace_continue_waited tid sig w :
  tid ∈ waited_threads_ (core w) -> tid <> 0 ->
  ptrace_continue tid sig w =
    Ok (ret (answer (with_core (with_waited (fun s => s ∖ {[tid]})) w)
                    (SYS_ptrace PTRACE_CONT tid 0 sig)))
       (after_sys (with_core (with_waited (fun s => s ∖ {[tid]})) w)
                  (SYS_ptrace PTRACE_CONT tid 0 sig)).
Proof.
  intros Hin Hnz. unfold ptrace_continue, bind, get, Q_ASSERT.
  rewrite bool_decide_eq_true_2 by assumption.
  destruct (Z.eqb_spec tid 0) as [? | _]; [contradiction |].
  cbn [negb]. rewrite modify_eq, sys_eq. reflexivity.
Qed.

Lemma ptrace_step_waited tid sig w :
  tid ∈ waited_threads_ (core w) -> tid <> 0 ->
  ptrace_step tid sig w =
    Ok (ret (answer (with_core (with_waited (fun s => s ∖ {[tid]})) w)
                    (SYS_ptrace PTRACE_SINGLESTEP tid 0 sig)))
       (after_sys (with_core (with_waited (fun s => s ∖ {[tid]})) w)
                  (SYS_ptrace PTRACE_SINGLESTEP tid 0 sig)).
Proof.
  intros Hin Hnz. unfold ptrace_step, bind, get, Q_ASSERT.
  rewrite bool_decide_eq_true_2 by assumption.
  destruct (Z.eqb_spec tid 0) as [? | _]; [contradiction |].
  cbn [negb]. rewrite modify_eq, sys_eq. reflexivity.
Qed.

Lemma ptrace_continue_Ok tid sig w r w1 :
  ptrace_continue tid sig w = Ok r w1 ->
  tid ∈ waited_threads_ (core w) /\ tid <> 0.
Proof.
  intros Hrun.
  destruct (decide (tid ∈ waited_threads_ (core w))) as [Hin | Hn].
  - split; [assumption |]. intros ->. revert Hrun.
    unfold ptrace_continue, bind, get, Q_ASSERT.
    rewrite bool_decide_eq_true_2 by assumption. discriminate.
  - rewrite ptrace_continue_not_waited in Hrun by assumption. discriminate.
Qed.

Lemma ptrace_step_Ok tid sig w r w1 :
  ptrace_step tid sig w = Ok r w1 ->
  tid ∈ waited_threads_ (core w) /\ tid <> 0.
Proof.
  intros Hrun.
  destruct (decide (tid ∈ waited_threads_ (core w))) as [Hin | Hn].
  - split; [assumption |]. intros ->. revert Hrun.
    unfold ptrace_step, bind, get, Q_ASSERT.
    rewrite bool_decide_eq_true_2 by assumption. discriminate.
  - rewrite ptrace_step_not_waited in Hrun by assumption. discriminate.
Qed.

(** A continuation that went through leaves its thread out of the waited
    set. *)
Lemma continued_not_waited tid sig w r w1 :
  ptrace_continue tid sig w = Ok r w1 \/ ptrace_step tid sig w = Ok r w1 ->
  tid ∉ waited_threads_ (core w1).
Proof.
  intros [Hrun | Hrun].
  - destruct (ptrace_continue_Ok _ _ _ _ _ Hrun) as [Hin Hnz].
    rewrite ptrace_continue_waited in Hrun by assumption.
    injection Hrun as Hr Hw. subst w1. simpl.
    rewrite elem_of_difference, elem_of_singleton. tauto.
  - destruct (ptrace_step_Ok _ _ _ _ _ Hrun) as [Hin Hnz].
    rewrite ptrace_step_waited in Hrun by assumption.
    injection Hrun as Hr Hw. subst w1. simpl.
    rewrite elem_of_difference, elem_of_singleton. tauto.
Qed.

(** *** Requests about one thread *)

Lemma asks_bind t {A B} (m : M K A) (f : A -> M K B) Q R :
  asks_about (K:=K) t m Q -> (forall a, Q a -> asks_about (K:=K) t (f a) R) ->
  asks_about (K:=K) t (bind m f) R.
Proof.
  intros Hm Hf w Ht.
  destruct (Hm w Ht) as (a & w1 & Hrun & HQ & Hcore & new1 & Htr1 & Hall1).
  assert (Ht1 : active_thread_ (core w1) = t) by (rewrite Hcore; exact Ht).
  destruct (Hf a HQ w1 Ht1) as (b & w2 & Hrun2 & HR & Hcore2 & new2 & Htr2 & Hall2).
  exists b, w2. rewrite (bind_Ok_intro _ _ _ _ _ Hrun).
  split; [exact Hrun2 |]. split; [exact HR |].
  split; [congruence |].
  exists (new2 ++ new1). split.
  - rewrite Htr2, Htr1. apply app_assoc.
  - apply Forall_app. split; assumption.
Qed.

Lemma asks_pure t {A} (a : A) (Q : A -> Prop) : Q a -> asks_about (K:=K) t (pure a) Q.
Proof.
  intros HQ w _. exists a, w. split; [reflexivity |]. split; [exact HQ |].
  split; [reflexivity |]. exists []. split; [reflexivity | constructor].
Qed.

Lemma asks_active_thread t : asks_about (K:=K) t active_thread (fun a => a = t).
Proof.
  intros w Ht. exists (active_thread_ (core w)), w.
  split; [reflexivity |]. split; [exact Ht |].
  split; [reflexivity |]. exists []. split; [reflexivity | constructor].
Qed.

Lemma asks_sys t c : about t c -> asks_about (K:=K) t (sys c) (fun _ => True).
Proof.
  intros Hc w _. exists (answer w c), (after_sys w c).
  split; [apply sys_eq |]. split; [exact I |]. split; [reflexivity |].
  exists [(c, answer w c)]. split; [reflexivity |].
  constructor; [exact Hc | constructor].
Qed.

Lemma asks_get_static t : asks_about (K:=K) t get_static (fun _ => True).
Proof.
  intros w _. exists (getFPXRegsSupported w), w.
  split; [reflexivity |]. split; [exact I |].
  split; [reflexivity |]. exists []. split; [reflexivity | constructor].
Qed.

Lemma asks_set_static t b : asks_about (K:=K) t (set_static b) (fun _ => True).
Proof.
  intros w _. eexists tt, _. split; [reflexivity |]. split; [exact I |].
  split; [reflexivity |]. exists []. split; [reflexivity | constructor].
Qed.

Lemma asks_peek_debugreg t a i : asks_about (K:=K) t (peek_debugreg a i) (fun _ => True).
Proof.
  unfold peek_debugreg.
  eapply asks_bind; [apply asks_active_thread |]. intros t' ->.
  eapply asks_bind; [apply asks_sys; reflexivity |]. intros r _.
  apply asks_pure. exact I.
Qed.

Lemma asks_get_gp_state t a st : asks_about (K:=K) t (get_gp_state a st) (fun _ => True).
Proof.
  unfold get_gp_state.
  eapply asks_bind; [apply asks_active_thread |]. intros t' ->.
  eapply asks_bind; [apply asks_sys; reflexivity |]. intros r _.
  destruct (negb (ret r =? -1)); [| apply asks_pure; exact I].
  eapply asks_bind with (Q := fun _ => True); [| intros; apply asks_pure; exact I].
  destruct (IS_X86_32_BIT a); [| apply asks_pure; exact I].
  eapply asks_bind; [apply asks_sys; reflexivity |]. intros fs _.
  eapply asks_bind; [apply asks_sys; reflexivity |]. intros gs _.
  apply asks_pure. exact I.
Qed.

Lemma asks_get_fp_state t a st : asks_about (K:=K) t (get_fp_state a st) (fun _ => True).
Proof.
  unfold get_fp_state.
  eapply asks_bind; [apply asks_active_thread |]. intros t' ->.
  eapply asks_bind; [apply asks_sys; reflexivity |]. intros x _.
  destruct (negb (ret x =? -1)); [apply asks_pure; exact I |].
  eapply asks_bind; [apply asks_get_static |]. intros s _.
  eapply asks_bind; [apply asks_set_static |]. intros _ _.
  eapply asks_bind with (Q := fun _ => True).
  - destruct (from_option id (IS_X86_32_BIT a) s); [| apply asks_pure; exact I].
    eapply asks_bind; [apply asks_sys; reflexivity |]. intros r _.
    eapply asks_bind; [apply asks_set_static |]. intros _ _.
    apply asks_pure. exact I.
  - intros [regs |] _; [apply asks_pure; exact I |].
    eapply asks_bind; [apply asks_sys; reflexivity |]. intros r _.
    apply asks_pure. exact I.
Qed.

Lemma asks_get_state a cleared w :
  exists st w', get_state a cleared w = Ok st w' /\ core w' = core w /\
    exists new, trace w' = new ++ trace w /\
                Forall (fun e => about (active_thread_ (core w)) e.1) new.
Proof.
  unfold get_state, attached, pid.
  unfold bind at 1. unfold bind at 1. unfold get at 1. unfold pure at 1.
  destruct (negb (pid_ (core w) =? 0)).
  - assert (Hasks : asks_about (K:=K) (active_thread_ (core w))
      (do st1 <- get_gp_state a cleared;
       do st2 <- get_fp_state a st1;
       do d0 <- peek_debugreg a 0;
       do d1 <- peek_debugreg a 1;
       do d2 <- peek_debugreg a 2;
       do d3 <- peek_debugreg a 3;
       do d6 <- peek_debugreg a 6;
       do d7 <- peek_debugreg a 7;
       pure {| regs_x86 := regs_x86 st2; segRegs_FS := segRegs_FS st2;
               segRegs_GS := segRegs_GS st2; fsBase := fsBase st2;
               gsBase := gsBase st2; segBasesFilled := segBasesFilled st2;
               xstate_x86 := xstate_x86 st2; fpxregs_x86 := fpxregs_x86 st2;
               fpregs_x86 := fpregs_x86 st2;
               dbgRegs := [d0; d1; d2; d3; 0; 0; d6; d7] |}) (fun _ => True)).
    { eapply asks_bind; [apply asks_get_gp_state |]. intros st1 _.
      eapply asks_bind; [apply asks_get_fp_state |]. intros st2 _.
      do 6 (eapply asks_bind; [apply asks_peek_debugreg |]; intros ? _).
      apply asks_pure. exact I. }
    destruct (Hasks w eq_refl) as (st & w' & Hrun & _ & Hcore & Hnew).
    exists st, w'. split; [exact Hrun |]. split; assumption.
  - exists cleared, w. split; [reflexivity |]. split; [reflexivity |].
    exists []. split; [reflexivity | constructor].
Qed.

(** *** [wait_debug_event] and [set_active_thread] *)

Lemma set_active_thread_eq tid (w : World K) : set_active_thread tid w = Ok tt w.
Proof.
  unfold set_active_thread, bind, get, pure.
  destruct (bool_decide (is_Some (threads_ (core w) !! tid))); reflexivity.
Qed.

End Runs.

(** C7.  [ptrace_continue] and [ptrace_step] on a thread that is not in the
    waited set stop at the assertion and issue nothing to the kernel; on a
    waited thread (with a non-zero id) they take it out of the waited set
    and issue exactly one request, PTRACE_CONT or PTRACE_SINGLESTEP; and
    after either went through, a second continuation or step of the same
    thread stops at the assertion again. *)
Theorem continuation_discipline {K : Type} `{!Kernel K} (w : World K) (tid sig : Z) :
  (tid ∉ waited_threads_ (core w) ->
     ptrace_continue tid sig w = AssertFailed w /\
     ptrace_step tid sig w = AssertFailed w) /\
  (tid ∈ waited_threads_ (core w) -> tid <> 0 ->
     let w1 := with_core (with_waited (fun s => s ∖ {[tid]})) w in
     ptrace_continue tid sig w =
       Ok (ret (answer w1 (SYS_ptrace PTRACE_CONT tid 0 sig)))
          (after_sys w1 (SYS_ptrace PTRACE_CONT tid 0 sig)) /\
     ptrace_step tid sig w =
       Ok (ret (answer w1 (SYS_ptrace PTRACE_SINGLESTEP tid 0 sig)))
          (after_sys w1 (SYS_ptrace PTRACE_SINGLESTEP tid 0 sig))) /\
  (forall r w',
     ptrace_continue tid sig w = Ok r w' \/ ptrace_step tid sig w = Ok r w' ->
     (tid ∈ waited_threads_ (core w)) /\
     (tid ∉ waited_threads_ (core w')) /\
     (forall sig', ptrace_continue tid sig' w' = AssertFailed w' /\
                   ptrace_step tid sig' w' = AssertFailed w')).
Proof.
  split; [| split].
  - intros Hn. split.
    + apply ptrace_continue_not_waited; assumption.
    + apply ptrace_step_not_waited; assumption.
  - intros Hin Hnz w1. split.
    + apply ptrace_continue_waited; assumption.
    + apply ptrace_step_waited; assumption.
  - intros r w' Hrun.
    pose proof (continued_not_waited _ _ _ _ _ Hrun) as Hout.
    split; [| split; [exact Hout |]].
    + destruct Hrun as [Hrun | Hrun].
      * apply (ptrace_continue_Ok _ _ _ _ _ Hrun).
      * apply (ptrace_step_Ok _ _ _ _ _ Hrun).
    + intros sig'. split.
      * apply ptrace_continue_not_waited; assumption.
      * apply ptrace_step_not_waited; assumption.
Qed.

(** C9.  When no session is attached ([pid_] is 0), [wait_debug_event]
    returns no event for every timeout and leaves the whole world as it
    is: the thread table, the waited set, and the trace of kernel requests,
    so neither [wait_for_sigchld] nor [waitpid] is issued. *)
Theorem wait_debug_event_not_attached {K : Type} `{!Kernel K}
    (w : World K) (msecs : Z) :
  pid_ (core w) = 0 ->
  wait_debug_event msecs w = Ok None w.
Proof.
  intros Hpid. unfold wait_debug_event, attached, pid, bind, get, pure.
  rewrite Hpid. reflexivity.
Qed.

(** C10.  [set_active_thread] returns with the world unchanged for every
    thread id, in the table or not; running [get_state] after it is the
    same as running [get_state] alone, and every [ptrace] request of that
    [get_state] is about the thread that was active before the call. *)
Theorem set_active_thread_is_noop {K : Type} `{!Kernel K}
    (w : World K) (tid : Z) (a : Arch) (cleared : PlatformState) :
  set_active_thread tid w = Ok tt w /\
  bind (set_active_thread tid) (fun _ => get_state a cleared) w
  = get_state a cleared w /\
  exists st w',
    bind (set_active_thread tid) (fun _ => get_state a cleared) w = Ok st w' /\
    core w' = core w /\
    exists new, trace w' = new ++ trace w /\
                Forall (fun e => about (active_thread_ (core w)) e.1) new.
Proof.
  assert (Hbind : bind (set_active_thread tid) (fun _ => get_state a cleared) w
                  = get_state a cleared w).
  { exact (bind_Ok_intro (set_active_thread tid) (fun _ => get_state a cleared)
             w tt w (set_active_thread_eq tid w)). }
  split; [apply set_active_thread_eq |]. split; [exact Hbind |].
  rewrite Hbind. apply asks_get_state.
Qed.

(** ** Stopping the world *)

Section StopTheWorld.

Context {K : Type} `{!Kernel K}.

Lemma stop_thread_stops tid w :
  exists w', stop_thread tid w = Ok tt w' /\ stops [tid] w w'.
Proof.
  unfold stop_thread, pid, bind, get.
  destruct (decide (tid ∈ waited_threads_ (core w))) as [Hin | Hout].
  - rewrite bool_decide_eq_true_2 by assumption. cbn [negb].
    exists w. split; [reflexivity |]. repeat split; try reflexivity.
    exists []. split; [reflexivity |].
    intros _ t Ht. apply list_elem_of_singleton in Ht. subst t. exact Hin.
  - rewrite bool_decide_eq_false_2 by assumption. cbn [negb].
    rewrite sys_eq.
    set (w1 := after_sys w (SYS_tgkill (pid_ (core w)) tid SIGSTOP)).
    rewrite sys_eq.
    set (w2 := after_sys w1 (SYS_waitpid tid __WALL)).
    set (r := answer w1 (SYS_waitpid tid __WALL)).
    destruct (Z.ltb_spec 0 (ret r)) as [Hpos | Hneg].
    + eexists. split; [reflexivity |].
      repeat split; simpl.
      * unfold set_status. rewrite dom_alter_L. reflexivity.
      * set_solver.
      * eexists [_; _]. split; [reflexivity |].
        intros _ t Ht. apply list_elem_of_singleton in Ht. subst t. set_solver.
    + exists w2. split; [reflexivity |]. repeat split; try reflexivity.
      eexists [_; _]. split; [reflexivity |].
      intros Hall. exfalso.
      apply Forall_cons in Hall as [Hw _]. unfold wait_ok in Hw. cbn in Hw.
      specialize (Hw eq_refl). fold r in Hw. lia.
Qed.

Lemma stops_trans l1 l2 (w w1 w2 : World K) :
  stops l1 w w1 -> stops l2 w1 w2 -> stops (l1 ++ l2) w w2.
Proof.
  intros (Hd1 & Hw1 & Hp1 & Ha1 & new1 & Ht1 & Hok1)
         (Hd2 & Hw2 & Hp2 & Ha2 & new2 & Ht2 & Hok2).
  repeat split; try congruence.
  - transitivity (waited_threads_ (core w1)); assumption.
  - exists (new2 ++ new1). split.
    + rewrite Ht2, Ht1. apply app_assoc.
    + intros Hall t Ht. apply Forall_app in Hall as [Hall2 Hall1].
      apply elem_of_app in Ht as [Ht | Ht].
      * apply Hw2. apply Hok1; assumption.
      * apply Hok2; assumption.
Qed.

Lemma for_each_stop_thread l w :
  exists w', for_each l stop_thread w = Ok tt w' /\ stops l w w'.
Proof.
  revert w. induction l as [| tid l IH]; intros w.
  - exists w. split; [reflexivity |]. repeat split; try reflexivity.
    exists []. split; [reflexivity |]. intros _ t Ht. inversion Ht.
  - destruct (stop_thread_stops tid w) as (w1 & Hrun1 & Hs1).
    destruct (IH w1) as (w2 & Hrun2 & Hs2).
    exists w2. split.
    + cbn [for_each]. rewrite (bind_Ok_intro _ _ _ _ _ Hrun1). exact Hrun2.
    + exact (stops_trans [tid] l w w1 w2 Hs1 Hs2).
Qed.

(** With every request answered, as the oracle does, [stop_threads]
    returns; it keeps the keys of the table and the session fields, the waited set only grows, and when each of its blocking
    waits came back with a thread, every thread of the table is waited. *)
Lemma stop_threads_stops w :
  exists w', stop_threads w = Ok tt w' /\
    dom (threads_ (core w')) = dom (threads_ (core w)) /\
    waited_threads_ (core w) ⊆ waited_threads_ (core w') /\
    pid_ (core w') = pid_ (core w) /\
    active_thread_ (core w') = active_thread_ (core w) /\
    exists new, trace w' = new ++ trace w /\
      (Forall wait_ok new -> all_stopped (core w')).
Proof.
  unfold stop_threads, bind, get.
  destruct (for_each_stop_thread (map fst (map_to_list (threads_ (core w)))) w)
    as (w' & Hrun & Hd & Hw & Hp & Ha & new & Ht & Hok).
  exists w'. split; [exact Hrun |]. repeat split; try assumption.
  exists new. split; [exact Ht |].
  intros Hall t Hsome. apply (Hok Hall).
  apply elem_of_dom in Hsome. rewrite Hd in Hsome.
  apply elem_of_dom in Hsome as [info Hinfo].
  apply list_elem_of_In, in_map_iff. exists (t, info). split; [reflexivity |].
  apply list_elem_of_In, elem_of_map_to_list. exact Hinfo.
Qed.

(** *** The cases of [handle_event] *)

Lemma handle_event_exit_absorbed tid status w :
  WIFEXITED status = true ->
  delete tid (threads_ (core w)) <> ∅ ->
  handle_event tid status w = Ok None (with_core (exit_branch tid) w).
Proof.
  intros Hex Hne. unfold handle_event, bind, modify, get, pure. cbn.
  rewrite Hex. cbn.
  rewrite bool_decide_eq_false_2 by assumption. reflexivity.
Qed.

Lemma handle_event_exit_last tid status w :
  WIFEXITED status = true ->
  delete tid (threads_ (core w)) = ∅ ->
  handle_event tid status w
  = handle_normal tid status (with_core (exit_branch tid) w).
Proof.
  intros Hex He. unfold handle_event.
  unfold bind at 1. unfold modify at 1. unfold bind at 1.
  rewrite Hex. unfold bind at 1. unfold modify at 1.
  unfold bind at 1. unfold modify at 1.
  unfold bind at 1. unfold get at 1. unfold pure at 1. cbn.
  rewrite bool_decide_eq_true_2 by assumption. cbn.
  rewrite (WIFEXITED_not_clone _ Hex). reflexivity.
Qed.

Lemma handle_event_clone tid status w :
  WIFEXITED status = false -> is_clone_event status = true ->
  handle_event tid status w = handle_clone tid (with_core (mark_waited tid) w).
Proof.
  intros Hex Hcl. unfold handle_event.
  unfold bind at 1. unfold modify at 1. unfold bind at 1.
  rewrite Hex. unfold pure at 1. rewrite Hcl. reflexivity.
Qed.

Lemma handle_event_normal tid status w :
  WIFEXITED status = false -> is_clone_event status = false ->
  handle_event tid status w
  = handle_normal tid status (with_core (mark_waited tid) w).
Proof.
  intros Hex Hcl. unfold handle_event.
  unfold bind at 1. unfold modify at 1. unfold bind at 1.
  rewrite Hex. unfold pure at 1. rewrite Hcl. reflexivity.
Qed.

Lemma handle_normal_returns tid status w :
  exists w', handle_normal tid status w = Ok (Some (event_of w tid status)) w' /\
    pid_ (core w') = pid_ (core w) /\
    active_thread_ (core w') = tid /\
    is_Some (threads_ (core w') !! tid) /\
    exists new, trace w' = new ++ trace w /\
      (Forall wait_ok new -> all_stopped (core w')).
Proof.
  unfold handle_normal, pid, ptrace_getsiginfo.
  unfold bind at 1. unfold get at 1.
  unfold bind at 1. rewrite sys_eq.
  set (w1 := after_sys w (SYS_ptrace PTRACE_GETSIGINFO tid 0 0)).
  unfold bind at 1. rewrite modify_eq.
  unfold bind at 1. rewrite modify_eq.
  unfold bind at 1. rewrite modify_eq.
  set (w2 := with_core _ (with_core _ (with_core _ w1))).
  destruct (stop_threads_stops w2) as (w' & Hrun & Hd & Hw & Hp & Ha & new & Ht & Hok).
  exists w'. unfold bind. rewrite Hrun. unfold pure.
  split; [reflexivity |]. split; [rewrite Hp; reflexivity |].
  split; [rewrite Ha; reflexivity |]. split.
  - apply elem_of_dom. rewrite Hd. apply elem_of_dom. subst w2. cbn.
    unfold threads_index_set_status.
    destruct (threads_ (core w) !! tid); rewrite lookup_insert_eq; eauto.
  - exists (new ++ [(SYS_ptrace PTRACE_GETSIGINFO tid 0 0,
                     answer w (SYS_ptrace PTRACE_GETSIGINFO tid 0 0))]).
    split.
    + rewrite Ht. rewrite <- app_assoc. reflexivity.
    + intros Hall. apply Hok. apply Forall_app in Hall as [Hall _]. exact Hall.
Qed.

Lemma handle_clone_no_event tid w r w' :
  handle_clone tid w = Ok r w' -> r = None.
Proof.
  unfold handle_clone. intros Hrun.
  apply bind_Ok in Hrun as (msg & w1 & _ & Hrun).
  apply bind_Ok in Hrun as (u & w2 & _ & Hrun).
  apply bind_Ok in Hrun as (c & w3 & _ & Hrun).
  unfold pure in Hrun. congruence.
Qed.

(** Whenever [handle_event] returns an event, every thread of the table is
    waited, as long as the blocking waits it issued came back with a
    thread. *)
Lemma handle_event_stops_the_world tid status w e w' :
  handle_event tid status w = Ok (Some e) w' ->
  exists new, trace w' = new ++ trace w /\
    (Forall wait_ok new -> all_stopped (core w')).
Proof.
  intros Hrun.
  assert (Hnormal : forall w0, trace w0 = trace w ->
            handle_normal tid status w0 = Ok (Some e) w' ->
            exists new, trace w' = new ++ trace w /\
              (Forall wait_ok new -> all_stopped (core w'))).
  { intros w0 Htr Hn.
    destruct (handle_normal_returns tid status w0) as (w1 & Hrun1 & _ & _ & _ & Hnew).
    rewrite Hrun1 in Hn. injection Hn as _ <-. rewrite <- Htr. exact Hnew. }
  destruct (WIFEXITED status) eqn:Hex.
  - destruct (decide (delete tid (threads_ (core w)) = ∅)) as [He | Hne].
    + rewrite handle_event_exit_last in Hrun by assumption.
      apply (Hnormal (with_core (exit_branch tid) w) eq_refl Hrun).
    + rewrite handle_event_exit_absorbed in Hrun by assumption. discriminate.
  - destruct (is_clone_event status) eqn:Hcl.
    + rewrite handle_event_clone in Hrun by assumption.
      apply handle_clone_no_event in Hrun. discriminate.
    + rewrite handle_event_normal in Hrun by assumption.
      apply (Hnormal (with_core (mark_waited tid) w) eq_refl Hrun).
Qed.

Lemma poll_threads_stops_the_world tids w e w' :
  poll_threads tids w = Ok (Some e) w' ->
  exists new, trace w' = new ++ trace w /\
    (Forall wait_ok new -> all_stopped (core w')).
Proof.
  revert w. induction tids as [| thread rest IH]; intros w Hrun.
  - discriminate.
  - cbn [poll_threads] in Hrun. unfold bind in Hrun. rewrite sys_eq in Hrun.
    set (c := SYS_waitpid thread (Z.lor __WALL WNOHANG)) in *.
    assert (Hstep : forall new, trace w' = new ++ trace (after_sys w c) ->
              (Forall wait_ok new -> all_stopped (core w')) ->
              exists new', trace w' = new' ++ trace w /\
                (Forall wait_ok new' -> all_stopped (core w'))).
    { intros new Ht Hok. exists (new ++ [(c, answer w c)]). split.
      - rewrite Ht. rewrite <- app_assoc. reflexivity.
      - intros Hall. apply Hok. apply Forall_app in Hall as [Hall _]. exact Hall. }
    destruct (0 <? ret (answer w c)).
    + apply handle_event_stops_the_world in Hrun as (new & Ht & Hok). eauto.
    + apply IH in Hrun as (new & Ht & Hok). eauto.
Qed.

End StopTheWorld.

(** ** Events and the state they leave *)

(** C1, as amended.  Whenever [wait_debug_event] returns an event, every
    thread of the table is in the waited set, provided each blocking
    [waitpid] issued on the way (those of [stop_threads]) came back with a
    thread. *)
Theorem stop_the_world_when_waits_succeed {K : Type} `{!Kernel K}
    (w : World K) (msecs : Z) (e : PlatformEvent) (w' : World K)
    (new : list (Call * Reply)) :
  wait_debug_event msecs w = Ok (Some e) w' ->
  trace w' = new ++ trace w ->
  Forall wait_ok new ->
  forall t, is_Some (threads_ (core w') !! t) -> t ∈ waited_threads_ (core w').
Proof.
  intros Hrun Htrace Hall.
  unfold wait_debug_event, attached, pid, thread_ids in Hrun.
  unfold bind at 1 in Hrun. unfold bind at 1 in Hrun.
  unfold get at 1, pure at 1 in Hrun.
  destruct (negb (pid_ (core w) =? 0)); [| discriminate].
  unfold bind at 1 in Hrun. rewrite sys_eq in Hrun.
  destruct (ret (answer w (wait_for_sigchld msecs)) =? 0); [| discriminate].
  unfold bind at 1 in Hrun. unfold bind at 1 in Hrun.
  unfold get at 1, pure at 1 in Hrun.
  apply poll_threads_stops_the_world in Hrun as (new1 & Ht1 & Hok).
  apply Hok.
  cbn [trace after_sys] in Ht1.
  assert (Hnew : new = new1 ++ [(wait_for_sigchld msecs, answer w (wait_for_sigchld msecs))]).
  { apply (app_inv_tail (trace w)). rewrite <- Htrace, Ht1, <- app_assoc. reflexivity. }
  rewrite Hnew in Hall. apply Forall_app in Hall as [Hall _]. exact Hall.
Qed.

Lemma stop_the_world_when_waits_succeed_witness :
  100 ∈ waited_threads_ (core breakpoint_hit) /\
  101 ∈ waited_threads_ (core breakpoint_hit).
Proof.
  assert (Hall : forall t, is_Some (threads_ (core breakpoint_hit) !! t) ->
                           t ∈ waited_threads_ (core breakpoint_hit)).
  { refine (stop_the_world_when_waits_succeed (two_threads breakpoint_script) 0
              {| pid_e := 100; tid_e := 101; status_e := W_STOPCODE SIGTRAP;
                 siginfo_e := Some 0 |}
              breakpoint_hit (trace breakpoint_hit) _ _ _).
    - vm_compute. reflexivity.
    - vm_compute. reflexivity.
    - vm_compute. repeat constructor; intros; try discriminate. }
  split; apply Hall; vm_compute; eexists; reflexivity.
Defined.

(** On the way to the exit of [/bin/true]: what the scripted run looks like
    when the exit event is reported. *)
Lemma true_exited_state :
  wait_debug_event (-1) true_running
  = Ok (Some {| pid_e := 100; tid_e := 100; status_e := 0; siginfo_e := None |})
       true_exited /\
  threads_ (core true_exited) !! 100
  = Some {| status := 0; state := THREAD_STOPPED |} /\
  waited_threads_ (core true_exited) = ∅ /\
  pid_ (core true_exited) = 100 /\
  trace true_exited
  = [(SYS_waitpid 100 __WALL, reply (-1) 0);
     (SYS_tgkill 100 100 SIGSTOP, reply (-1) 0);
     (SYS_ptrace PTRACE_GETSIGINFO 100 0 0, reply (-1) 0);
     (SYS_waitpid 100 (Z.lor __WALL WNOHANG), reply 100 0);
     (wait_for_sigchld (-1), reply 0 0);
     (SYS_ptrace PTRACE_CONT 100 0 0, reply 0 0);
     (get_binary_info, reply 7 0);
     (SYS_ptrace PTRACE_SETOPTIONS 100 0 PTRACE_O_TRACECLONE, reply 0 0);
     (SYS_waitpid 100 __WALL, reply 100 (W_STOPCODE SIGTRAP));
     (SYS_fork, reply 100 0)].
Proof.
  split; [| split; [| split; [| split]]]; vm_compute; reflexivity.
Qed.

Lemma true_running_reachable : reachable true_running.
Proof.
  apply (reachable_call true_spawned (call_resume DEBUG_CONTINUE)).
  - apply (reachable_call (initial 4096 true_script)
             (call_open "/bin/true" "/" [] "")).
    + apply reachable_initial.
    + vm_compute. reflexivity.
  - vm_compute. reflexivity.
Qed.

(** C1, as stated, fails: [/bin/true] is spawned with [open], resumed, and
    exits; [wait_debug_event] reports the exit while thread 100 is in the
    table and not in the waited set. *)
Lemma stop_the_world_fails_after_exit :
  reachable true_running /\
  wait_debug_event (-1) true_running
  = Ok (Some {| pid_e := 100; tid_e := 100; status_e := 0; siginfo_e := None |})
       true_exited /\
  is_Some (threads_ (core true_exited) !! 100) /\
  100 ∉ waited_threads_ (core true_exited).
Proof.
  destruct true_exited_state as (Hrun & Hthr & Hwaited & _).
  split; [exact true_running_reachable |].
  split; [exact Hrun |].
  split; [rewrite Hthr; eexists; reflexivity |].
  rewrite Hwaited. apply not_elem_of_empty.
Qed.

Section ExitEvents.

Context {K : Type} `{!Kernel K}.

Lemma exit_branch_threads tid (w : World K) :
  threads_ (core (with_core (exit_branch tid) w)) = delete tid (threads_ (core w)).
Proof. reflexivity. Qed.

Lemma exit_branch_waited tid (w : World K) :
  waited_threads_ (core (with_core (exit_branch tid) w))
  = waited_threads_ (core w) ∖ {[tid]}.
Proof.
  cbn. apply set_eq. intros t.
  rewrite !elem_of_difference, elem_of_union, elem_of_singleton. tauto.
Qed.

End ExitEvents.

(** C2, as amended.  On a status with [WIFEXITED]: when other threads
    remain, [handle_event] drops the thread from the table and from the
    waited set, issues nothing to the kernel, and returns no event; when it
    was the last thread, [handle_event] returns an exit event carrying the
    pid, the tid and the status, and it does not reset the session by
    itself: [pid_] is what it was. *)
Theorem exit_event_handling {K : Type} `{!Kernel K}
    (w : World K) (tid status : Z) :
  WIFEXITED status = true ->
  (delete tid (threads_ (core w)) <> ∅ ->
     exists w', handle_event tid status w = Ok None w' /\
       threads_ (core w') = delete tid (threads_ (core w)) /\
       waited_threads_ (core w') = waited_threads_ (core w) ∖ {[tid]} /\
       trace w' = trace w) /\
  (delete tid (threads_ (core w)) = ∅ ->
     exists e w', handle_event tid status w = Ok (Some e) w' /\
       pid_e e = pid_ (core w) /\ tid_e e = tid /\ status_e e = status /\
       is_exit e = true /\
       pid_ (core w') = pid_ (core w)).
Proof.
  intros Hex. split.
  - intros Hne. exists (with_core (exit_branch tid) w).
    split; [apply handle_event_exit_absorbed; assumption |].
    split; [apply exit_branch_threads |].
    split; [apply exit_branch_waited | reflexivity].
  - intros He. rewrite handle_event_exit_last by assumption.
    destruct (handle_normal_returns tid status (with_core (exit_branch tid) w))
      as (w' & Hrun & Hpid & _).
    exists (event_of (with_core (exit_branch tid) w) tid status), w'.
    split; [exact Hrun |]. cbn.
    split; [reflexivity |]. split; [reflexivity |]. split; [reflexivity |].
    split; [exact Hex | exact Hpid].
Qed.

(** Whatever the kernel answers, the thread whose exit ends the session has
    an entry in the table again when its exit event is returned. *)
Lemma last_exit_keeps_entry {K : Type} `{!Kernel K}
    (w : World K) (tid status : Z) (e : PlatformEvent) (w' : World K) :
  WIFEXITED status = true ->
  delete tid (threads_ (core w)) = ∅ ->
  handle_event tid status w = Ok (Some e) w' ->
  is_Some (threads_ (core w') !! tid).
Proof.
  intros Hex He Hrun. rewrite handle_event_exit_last in Hrun by assumption.
  destruct (handle_normal_returns tid status (with_core (exit_branch tid) w))
    as (w1 & Hrun1 & _ & _ & Hentry & _).
  rewrite Hrun1 in Hrun. injection Hrun as _ <-. exact Hentry.
Qed.

Lemma exit_event_handling_witness :
  exists e w', handle_event 100 (W_EXITCODE 0) (one_thread gone_script) = Ok (Some e) w' /\
    pid_e e = 100 /\ tid_e e = 100 /\ status_e e = W_EXITCODE 0 /\
    is_exit e = true /\ pid_ (core w') = 100.
Proof.
  refine (proj2 (exit_event_handling (one_thread gone_script) 100 (W_EXITCODE 0) _) _).
  - vm_compute. reflexivity.
  - vm_compute. reflexivity.
Defined.

(** C2, as stated, fails: the last thread of the session exits, the exit
    event is returned, and afterwards the table is not empty (the exited
    thread has an entry again) and the session still has its pid. *)
Lemma exit_event_leaves_session :
  exists e w',
    handle_event 100 (W_EXITCODE 0) (one_thread gone_script) = Ok (Some e) w' /\
    is_exit e = true /\
    threads_ (core w') !! 100 = Some {| status := W_EXITCODE 0; state := THREAD_STOPPED |} /\
    threads_ (core w') <> ∅ /\
    pid_ (core w') = 100.
Proof.
  eexists _, (world_of (handle_event 100 (W_EXITCODE 0) (one_thread gone_script))).
  split; [vm_compute; reflexivity |].
  split; [vm_compute; reflexivity |].
  assert (Hthr : threads_ (core (world_of
            (handle_event 100 (W_EXITCODE 0) (one_thread gone_script)))) !! 100
          = Some {| status := W_EXITCODE 0; state := THREAD_STOPPED |})
    by (vm_compute; reflexivity).
  split; [exact Hthr |].
  split; [| vm_compute; reflexivity].
  intros Hempty. rewrite Hempty, lookup_empty in Hthr. discriminate.
Qed.

Section CloneEvents.

Context {K : Type} `{!Kernel K}.

Lemma is_clone_event_not_exited status :
  is_clone_event status = true -> WIFEXITED status = false.
Proof.
  unfold is_clone_event. intros Hcl.
  destruct (WIFSTOPPED status) eqn:Hs; [| discriminate].
  apply WIFSTOPPED_not_exited. exact Hs.
Qed.

Lemma ptrace_get_event_message_waited tid (w : World K) :
  tid ∈ waited_threads_ (core w) -> tid <> 0 ->
  ptrace_get_event_message tid w
  = Ok (answer w (SYS_ptrace PTRACE_GETEVENTMSG tid 0 0))
       (after_sys w (SYS_ptrace PTRACE_GETEVENTMSG tid 0 0)).
Proof.
  intros Hin Hnz. unfold ptrace_get_event_message, bind, get, Q_ASSERT.
  rewrite bool_decide_eq_true_2 by assumption.
  destruct (Z.eqb_spec tid 0) as [? | _]; [contradiction |].
  cbn [negb]. apply sys_eq.
Qed.

End CloneEvents.

(** C3, as amended.  For a clone event whose PTRACE_GETEVENTMSG succeeds and
    whose new thread has an observed stop (it was waited already, or the
    blocking [waitpid] on it came back with it): the new thread is entered
    in the table as stopped with status 0, it is continued with the resume
    code of the status observed for it (of 0 when no wait was needed), the
    reporting thread is continued with signal 0, and no event is
    returned. *)
Theorem clone_event_resolved {K : Type} `{!Kernel K}
    (w : World K) (tid status : Z) :
  is_clone_event status = true ->
  tid <> 0 ->
  let w1 := with_core (mark_waited tid) w in
  let get_msg := SYS_ptrace PTRACE_GETEVENTMSG tid 0 0 in
  let msg := answer w1 get_msg in
  let new_tid := to_tid (out msg) in
  let fresh := {| status := 0; state := THREAD_STOPPED |} in
  let w2 := with_core (with_threads (insert new_tid fresh)) (after_sys w1 get_msg) in
  let first_wait := answer w2 (SYS_waitpid new_tid __WALL) in
  let known := bool_decide (new_tid ∈ waited_threads_ (core w)) in
  ret msg <> -1 -> new_tid <> 0 -> new_tid <> tid ->
  (known = true \/ 0 < ret first_wait) ->
  exists w' r1 r2,
    handle_event tid status w = Ok None w' /\
    threads_ (core w') = <[new_tid := fresh]> (threads_ (core w)) /\
    (tid ∉ waited_threads_ (core w')) /\
    (new_tid ∉ waited_threads_ (core w')) /\
    trace w' =
      (SYS_ptrace PTRACE_CONT tid 0 0, r2)
      :: (SYS_ptrace PTRACE_CONT new_tid 0
            (resume_code (if known then 0 else out first_wait)), r1)
      :: (if known then [] else [(SYS_waitpid new_tid __WALL, first_wait)])
      ++ (get_msg, msg) :: trace w.
Proof.
  intros Hcl Hnz w1 get_msg msg new_tid fresh w2 first_wait known Hmsg Hnew0 Hne Hobs.
  rewrite handle_event_clone by (auto using is_clone_event_not_exited).
  fold w1. unfold handle_clone.
  assert (Hin1 : tid ∈ waited_threads_ (core w1)).
  { cbn. apply elem_of_union_l, elem_of_singleton. reflexivity. }
  rewrite (bind_Ok_intro _ _ _ _ _ (ptrace_get_event_message_waited tid w1 Hin1 Hnz)).
  fold get_msg msg.
  destruct (Z.eqb_spec (ret msg) (-1)) as [? | _]; [contradiction |].
  cbn [negb]. fold new_tid.
  unfold bind at 1. unfold bind at 1. rewrite modify_eq. fold fresh w2.
  unfold bind at 1. unfold get at 1.
  assert (Hknown : bool_decide (new_tid ∈ waited_threads_ (core w2)) = known).
  { subst known. apply bool_decide_ext. cbn.
    rewrite elem_of_union, elem_of_singleton. tauto. }
  rewrite Hknown.
  assert (Hobserve : exists w3,
    (if negb known
     then do r <- sys (SYS_waitpid new_tid __WALL);
          if 0 <? ret r
          then modify (with_waited (fun s => {[new_tid]} ∪ s)) ;; pure (out r)
          else pure 0
     else pure 0) w2 = Ok (if known then 0 else out first_wait) w3 /\
    new_tid ∈ waited_threads_ (core w3) /\
    tid ∈ waited_threads_ (core w3) /\
    threads_ (core w3) = threads_ (core w2) /\
    trace w3 = (if known then [] else [(SYS_waitpid new_tid __WALL, first_wait)])
               ++ trace w2).
  { destruct known eqn:Hk; cbn [negb].
    - exists w2. split; [reflexivity |].
      split; [apply bool_decide_eq_true in Hknown; exact Hknown |].
      split; [exact Hin1 |]. split; reflexivity.
    - destruct Hobs as [? | Hpos]; [discriminate |].
      unfold bind at 1. rewrite sys_eq. fold first_wait.
      rewrite (proj2 (Z.ltb_lt 0 (ret first_wait)) Hpos).
      unfold bind at 1. rewrite modify_eq. unfold pure.
      eexists. split; [reflexivity |]. cbn.
      split; [apply elem_of_union_l, elem_of_singleton; reflexivity |].
      split; [apply elem_of_union_r, elem_of_union_l, elem_of_singleton; reflexivity |].
      split; reflexivity. }
  destruct Hobserve as (w3 & Hrun3 & Hnew3 & Htid3 & Hthr3 & Htr3).
  rewrite (bind_Ok_intro _ _ _ _ _ Hrun3).
  set (sig := resume_code (if known then 0 else out first_wait)).
  rewrite (bind_Ok_intro _ _ _ _ _ (ptrace_continue_waited new_tid sig w3 Hnew3 Hnew0)).
  set (w4 := after_sys (with_core (with_waited (fun s => s ∖ {[new_tid]})) w3)
               (SYS_ptrace PTRACE_CONT new_tid 0 sig)).
  unfold pure at 1. cbv iota beta.
  assert (Htid4 : tid ∈ waited_threads_ (core w4)).
  { cbn. apply elem_of_difference. split; [exact Htid3 |].
    rewrite elem_of_singleton. congruence. }
  rewrite (bind_Ok_intro _ _ _ _ _ (ptrace_continue_waited tid 0 w4 Htid4 Hnz)).
  unfold pure.
  eexists _, _, _. split; [reflexivity |]. cbn.
  split; [rewrite Hthr3; reflexivity |].
  split; [rewrite elem_of_difference, elem_of_singleton; tauto |].
  split; [rewrite !elem_of_difference, !elem_of_singleton; tauto |].
  rewrite Htr3. reflexivity.
Qed.

Lemma clone_event_resolved_witness :
  exists w' r1 r2,
    handle_event 100 W_CLONE_EVENT (two_threads clone_script) = Ok None w' /\
    threads_ (core w')
    = <[102 := {| status := 0; state := THREAD_STOPPED |}]>
        (threads_ (core (two_threads clone_script))) /\
    (100 ∉ waited_threads_ (core w')) /\
    (102 ∉ waited_threads_ (core w')) /\
    trace w' =
      [(SYS_ptrace PTRACE_CONT 100 0 0, r2);
       (SYS_ptrace PTRACE_CONT 102 0 0, r1);
       (SYS_waitpid 102 __WALL, reply 102 (W_STOPCODE SIGSTOP));
       (SYS_ptrace PTRACE_GETEVENTMSG 100 0 0, reply 0 102)].
Proof.
  refine (clone_event_resolved (two_threads clone_script) 100 W_CLONE_EVENT
            _ _ _ _ _ _).
  - vm_compute. reflexivity.
  - discriminate.
  - vm_compute. discriminate.
  - vm_compute. discriminate.
  - vm_compute. discriminate.
  - right. vm_compute. reflexivity.
Defined.

(** C3, as stated, fails: thread 102 is cloned by thread 100 and its SIGSTOP
    stop is observed with status [W_STOPCODE SIGSTOP]; the record entered
    for 102 has status 0, not the status that was observed. *)
Lemma clone_status_not_recorded :
  handle_event 100 W_CLONE_EVENT (two_threads clone_script) = Ok None clone_handled /\
  In (SYS_waitpid 102 __WALL, reply 102 (W_STOPCODE SIGSTOP)) (trace clone_handled) /\
  threads_ (core clone_handled) !! 102 = Some {| status := 0; state := THREAD_STOPPED |} /\
  (status <$> threads_ (core clone_handled) !! 102) <> Some (W_STOPCODE SIGSTOP).
Proof.
  split; [vm_compute; reflexivity |].
  split; [vm_compute; tauto |].
  split; [vm_compute; reflexivity |].
  vm_compute. discriminate.
Qed.

(** ** Spawning *)

Section Spawning.

Context {K : Type} `{!Kernel K}.

Lemma reset_eq (w : World K) : reset w = Ok tt (with_core reset_core w).
Proof. reflexivity. Qed.

Lemma detach_not_attached (w : World K) :
  pid_ (core w) = 0 -> detach w = Ok tt w.
Proof.
  intros Hpid. unfold detach, attached, pid, bind, get, pure.
  rewrite Hpid. reflexivity.
Qed.

End Spawning.

(** ** Reading pages *)

Section Overlay.

Variables (a : Arch) (address n : Z).

Lemma overlay_one_length buf bp :
  length (overlay_one a address n buf bp) = length buf.
Proof.
  unfold overlay_one. destruct (_ && _); [apply length_insert | reflexivity].
Qed.

(** A position that no breakpoint of [l] in the window maps to keeps its
    byte. *)
Lemma foldl_overlay_other l buf (i : nat) :
  (forall bp, bp ∈ l -> in_window a address n bp.1 = true -> Z.to_nat (bp.1 - address) <> i) ->
  foldl (overlay_one a address n) buf l !! i = buf !! i.
Proof.
  revert buf. induction l as [| bp l IH]; intros buf Hother; [reflexivity |].
  cbn [foldl]. rewrite IH.
  - unfold overlay_one. fold (in_window a address n bp.1).
    destruct (in_window a address n bp.1) eqn:Hwin; [| reflexivity].
    apply list_lookup_insert_ne. apply Hother; [left | exact Hwin].
  - intros bp' Hin. apply Hother. right. exact Hin.
Qed.

Lemma foldl_overlay_hit l buf addr ob :
  NoDup l.*1 ->
  (addr, ob) ∈ l ->
  in_window a address n addr = true ->
  (Z.to_nat (addr - address) < length buf)%nat ->
  foldl (overlay_one a address n) buf l !! Z.to_nat (addr - address) = Some ob.
Proof.
  intros Hnd Hin Hwin. revert buf Hnd Hin.
  induction l as [| bp l IH]; intros buf Hnd Hin Hlen; [inversion Hin |].
  cbn [fmap list_fmap] in Hnd. apply NoDup_cons in Hnd as [Hfresh Hnd].
  cbn [foldl]. apply elem_of_cons in Hin as [<- | Hin].
  - rewrite foldl_overlay_other.
    + unfold overlay_one. cbn [fst snd]. fold (in_window a address n addr). rewrite Hwin.
      apply list_lookup_insert_eq. exact Hlen.
    + intros bp' Hin' Hwin' Heq. apply Hfresh.
      assert (bp'.1 = addr) as <-.
      { unfold in_window in Hwin, Hwin'.
        apply andb_true_iff in Hwin as [Hlo _]. apply andb_true_iff in Hwin' as [Hlo' _].
        apply Z.leb_le in Hlo, Hlo'. lia. }
      apply list_elem_of_fmap. exists bp'. split; [reflexivity | exact Hin'].
  - apply IH; [exact Hnd | exact Hin |].
    rewrite overlay_one_length. exact Hlen.
Qed.

End Overlay.

(** The window of the source is the interval [address, address + n) as long
    as its end is an address: always with 32-bit addresses, and below
    [2 ^ 64] with 64-bit ones. *)
Lemma in_window_exact (a : Arch) (address n addr : Z) :
  0 <= address -> 0 <= n ->
  (a = EDB_X86_64 -> address + n < 2 ^ 64) ->
  in_window a address n addr = true <-> address <= addr < address + n.
Proof.
  intros Ha Hn Hfit. unfold in_window, address_plus.
  rewrite andb_true_iff, Z.leb_le, Z.ltb_lt.
  destruct a; [tauto |].
  rewrite Z.mod_small by (specialize (Hfit eq_refl); lia). tauto.
Qed.

(** C6.  When [/proc/<pid>/mem] opens and the read does not fail, so that
    [n] bytes arrive (whatever they are), the buffer [read_pages] hands
    back holds, for every breakpoint of the store whose address [addr] has
    [address <= addr < address + n], the original byte of that breakpoint
    at offset [addr - address].  The bytes read lie inside the address
    space: with 64-bit addresses, where line 548 computes [address + n]
    modulo [2 ^ 64], the sum is below [2 ^ 64]. *)
Theorem read_pages_shows_original_bytes {K : Type} `{!Kernel K}
    (a : Arch) (w : World K) (address : Z) (buf : list Z) (count : Z) :
  0 <= address ->
  let len := (count * page_size_ (core w)) mod 2 ^ size_t_bits a in
  let opened := answer w (FILE_open_mem (pid_ (core w))) in
  let w1 := after_sys w (FILE_open_mem (pid_ (core w))) in
  let r := answer w1 (FILE_read address len) in
  let n := Z.of_nat (length (take (Z.to_nat len) (bytes r))) in
  ret opened <> 0 ->
  0 <= ret r ->
  (a = EDB_X86_64 -> address + n < 2 ^ 64) ->
  exists buf',
    read_pages a address buf count w = Ok (true, buf') (after_sys w1 (FILE_read address len)) /\
    forall addr ob,
      breakpoints_ (core w) !! addr = Some ob ->
      address <= addr < address + n ->
      buf' !! Z.to_nat (addr - address) = Some ob.
Proof.
  intros Haddr len opened w1 r n Hopen Hread Hfit.
  unfold read_pages.
  unfold bind at 1. unfold get at 1. fold len.
  unfold bind at 1. unfold get at 1.
  unfold bind at 1. rewrite sys_eq. fold opened w1.
  destruct (Z.eqb_spec (ret opened) 0) as [? | _]; [contradiction |].
  cbn [negb]. unfold bind at 1. rewrite sys_eq. fold r.
  destruct (Z.ltb_spec (ret r) 0) as [? | _]; [lia |].
  unfold bind at 1. unfold get at 1. unfold pure.
  eexists. split; [reflexivity |].
  intros addr ob Hbp Hin. fold n.
  assert (Hn : 0 <= n) by (subst n; lia).
  apply foldl_overlay_hit.
  - apply NoDup_fst_map_to_list.
  - apply elem_of_map_to_list. exact Hbp.
  - apply in_window_exact; assumption.
  - rewrite length_app. subst n. lia.
Qed.

Lemma read_pages_shows_original_bytes_witness :
  exists buf',
    read_pages EDB_X86_64 0x401000 [0; 0; 0; 0; 0; 0; 0; 0] 1
      (breakpoint_session page_script)
    = Ok (true, buf')
         (after_sys (after_sys (breakpoint_session page_script) (FILE_open_mem 100))
                    (FILE_read 0x401000 8)) /\
    forall addr ob,
      breakpoints_ (core (breakpoint_session page_script)) !! addr = Some ob ->
      0x401000 <= addr < 0x401000 + 8 ->
      buf' !! Z.to_nat (addr - 0x401000) = Some ob.
Proof.
  refine (read_pages_shows_original_bytes EDB_X86_64 (breakpoint_session page_script)
            0x401000 [0; 0; 0; 0; 0; 0; 0; 0] 1 _ _ _ _).
  - lia.
  - vm_compute. discriminate.
  - vm_compute. discriminate.
  - intros _. vm_compute. reflexivity.
Defined.

(** The page of the scenario as [read_pages] returns it: the trap byte
    [0xCC] at offset 5 is shown as the original [0x55]. *)
Lemma read_pages_example :
  exists w',
    read_pages EDB_X86_64 0x401000 [0; 0; 0; 0; 0; 0; 0; 0] 1
      (breakpoint_session page_script)
    = Ok (true, [0x48; 0x89; 0xe5; 0x90; 0x90; 0x55; 0x48; 0x89]) w'.
Proof. eexists. vm_compute. reflexivity. Qed.

(** ** Parsing [/proc/<pid>/stat] *)

Section ScanfFacts.

Import Scanf ProcStat.

Local Open Scope string_scope.

(** The format is the one of the source, character for character. *)
Lemma stat_format_is_source : print_format stat_format = stat_format_text.
Proof. vm_compute. reflexivity. Qed.

Lemma stat_format_shape :
  stat_format
  = ([D_int T_int; D_space; D_char; D_set 255 comm_set; D_char; D_space; D_char]
     ++ flat_map (fun ty => [D_space; D_int ty]) number_types)%list.
Proof. reflexivity. Qed.

Lemma isdigit_head c :
  isdigit c = true ->
  isspace c = false /\ Ascii.eqb c "-" = false /\ Ascii.eqb c "+" = false.
Proof.
  intros Hd. repeat split.
  - unfold isdigit, isspace in *.
    apply andb_true_iff in Hd as [Hlo Hhi].
    apply N.leb_le in Hlo, Hhi.
    apply orb_false_iff. split.
    + apply N.eqb_neq. lia.
    + apply andb_false_iff. right. apply N.leb_gt. lia.
  - destruct (Ascii.eqb_spec c "-") as [-> | _]; [discriminate Hd | reflexivity].
  - destruct (Ascii.eqb_spec c "+") as [-> | _]; [discriminate Hd | reflexivity].
Qed.

Lemma digits_head d :
  d <> Decimal.Nil ->
  exists c s, NilEmpty.string_of_uint d = String c s /\ isdigit c = true.
Proof.
  destruct d; intros Hn; [contradiction | ..]; eexists _, _; split; reflexivity.
Qed.

Lemma span_digits_stop rest : no_digit_ahead rest -> span_digits rest = ("", rest).
Proof.
  destruct rest as [| c rest]; [reflexivity |].
  cbn. intros ->. reflexivity.
Qed.

Lemma span_digits_uint d rest :
  no_digit_ahead rest ->
  span_digits (NilEmpty.string_of_uint d ++ rest) = (NilEmpty.string_of_uint d, rest).
Proof.
  intros Hrest. induction d; simpl; [apply span_digits_stop, Hrest | ..];
    rewrite IHd; reflexivity.
Qed.

Lemma NilZero_nonnil d :
  d <> Decimal.Nil -> NilZero.string_of_uint d = NilEmpty.string_of_uint d.
Proof. destruct d; [contradiction | reflexivity ..]. Qed.

(** The digits of a number, its sign apart. *)
Lemma decimal_shape z :
  exists d, d <> Decimal.Nil /\
    ((decimal z = NilEmpty.string_of_uint d /\ z = Z.of_uint d) \/
     (decimal z = String "-" (NilEmpty.string_of_uint d) /\ z = - Z.of_uint d)).
Proof.
  pose proof (DecimalZ.of_to z) as Hz. unfold decimal.
  destruct z as [| p | p]; cbn [Z.to_int] in *.
  - exists (Decimal.D0 Decimal.Nil). split; [discriminate |]. left. split; reflexivity.
  - exists (Pos.to_uint p).
    pose proof (DecimalPos.Unsigned.to_uint_nonnil p) as Hn.
    split; [exact Hn |]. left. split.
    + cbn. apply NilZero_nonnil, Hn.
    + symmetry. exact Hz.
  - exists (Pos.to_uint p).
    pose proof (DecimalPos.Unsigned.to_uint_nonnil p) as Hn.
    split; [exact Hn |]. right. split.
    + cbn. f_equal. apply NilZero_nonnil, Hn.
    + symmetry. exact Hz.
Qed.

(** A number in decimal does not start with white space. *)
Lemma decimal_head z rest :
  exists c s, decimal z ++ rest = String c s /\ isspace c = false.
Proof.
  destruct (decimal_shape z) as (d & Hn & [[-> _] | [-> _]]).
  - destruct (digits_head d Hn) as (c & s & -> & Hc).
    exists c, (s ++ rest). split; [reflexivity |]. apply isdigit_head, Hc.
  - exists "-"%char, (NilEmpty.string_of_uint d ++ rest). split; reflexivity.
Qed.

Lemma skip_space_head c s : isspace c = false -> skip_space (String c s) = String c s.
Proof. cbn. intros ->. reflexivity. Qed.

(** An integer conversion reads a number in decimal back, and stops right
    after it. *)
Lemma scan_int_decimal a ty z rest :
  no_digit_ahead rest ->
  scan_int a ty (decimal z ++ rest) = inr (V_int (store_as a ty z), rest).
Proof.
  intros Hrest.
  destruct (decimal_shape z) as (d & Hn & [[-> Hz] | [-> Hz]]);
    destruct (digits_head d Hn) as (c & s & Hd & Hc);
    destruct (isdigit_head c Hc) as (Hsp & Hminus & Hplus).
  - pose proof (NilEmpty.usu d) as Hu. rewrite Hd in Hu.
    pose proof (span_digits_uint d rest Hrest) as Hspan. rewrite Hd in Hspan.
    unfold scan_int. rewrite Hd.
    change (String c s ++ rest) with (String c (s ++ rest)) in *.
    rewrite skip_space_head by exact Hsp. cbv beta iota zeta.
    rewrite Hminus, Hplus. cbv beta iota zeta. cbn [orb].
    rewrite Hspan. rewrite Hu. rewrite <- Hz. reflexivity.
  - pose proof (NilEmpty.usu d) as Hu. rewrite Hd in Hu.
    pose proof (span_digits_uint d rest Hrest) as Hspan. rewrite Hd in Hspan.
    unfold scan_int. rewrite Hd.
    change (String "-" (String c s) ++ rest)
      with (String "-" (String c s ++ rest)).
    rewrite skip_space_head by reflexivity. cbv beta iota zeta.
    change (Ascii.eqb "-" "-") with true. cbv beta iota zeta. cbn [orb].
    rewrite Hspan. rewrite Hu. rewrite <- Hz. reflexivity.
Qed.

Lemma no_digit_ahead_numbers numbers tail :
  no_digit_ahead tail -> no_digit_ahead (numbers_text numbers tail).
Proof. destruct numbers; [trivial | reflexivity]. Qed.

(** The part of the format after the state letter reads the numbers back. *)
Lemma scan_numbers a tys numbers tail :
  List.length tys = List.length numbers ->
  no_digit_ahead tail ->
  scan a (flat_map (fun ty => [D_space; D_int ty]) tys) (numbers_text numbers tail)
  = (None, zip_with (fun ty z => V_int (store_as a ty z)) tys numbers).
Proof.
  intros Hlen Htail. revert numbers Hlen.
  induction tys as [| ty tys IH]; intros [| z numbers] Hlen; try discriminate.
  - reflexivity.
  - injection Hlen as Hlen.
    cbn [flat_map app numbers_text zip_with].
    destruct (decimal_head z (numbers_text numbers tail)) as (c & s & Hhead & Hsp).
    cbn [scan directive].
    change (" " ++ decimal z ++ numbers_text numbers tail)
      with (String " " (decimal z ++ numbers_text numbers tail)).
    assert (Hskip : skip_space (String " " (decimal z ++ numbers_text numbers tail))
                    = decimal z ++ numbers_text numbers tail).
    { cbn [skip_space]. change (isspace " ") with true. cbv iota.
      rewrite Hhead. apply skip_space_head, Hsp. }
    rewrite Hskip.
    rewrite scan_int_decimal by (apply no_digit_ahead_numbers, Htail).
    rewrite (IH numbers Hlen). reflexivity.
Qed.

Lemma span_set_word w items word c rest :
  (String.length word <= w)%nat ->
  forallb (in_set items) (list_ascii_of_string word) = true ->
  in_set items c = false ->
  span_set w items (word ++ String c rest) = (word, String c rest).
Proof.
  revert w. induction word as [| x word IH]; intros w Hlen Hall Hc.
  - change ("" ++ String c rest) with (String c rest).
    destruct w; cbn [span_set]; [reflexivity | rewrite Hc; reflexivity].
  - destruct w as [| w]; [cbn in Hlen; lia |].
    cbn in Hall. apply andb_true_iff in Hall as [Hx Hall].
    change (String x word ++ String c rest) with (String x (word ++ String c rest)).
    cbn [span_set]. rewrite Hx. rewrite IH; [reflexivity | | exact Hall | exact Hc].
    cbn in Hlen. lia.
Qed.

Lemma strto_in_range signed w v :
  0 < w ->
  (signed = true -> - 2 ^ (w - 1) <= v < 2 ^ (w - 1)) ->
  (signed = false -> 0 <= v < 2 ^ w) ->
  strto signed w v = v.
Proof.
  intros Hw Hs Hu. unfold strto. destruct signed.
  - specialize (Hs eq_refl). lia.
  - specialize (Hu eq_refl).
    destruct (Z.leb_spec (2 ^ w) (Z.abs v)); [lia |]. apply Z.mod_small. lia.
Qed.

(** A number that fits a [long], or a [long long] for [%llu], and the
    destination is stored as it is. *)
Lemma store_as_in_range a ty v :
  (type_signed ty = true ->
   - 2 ^ (type_bits a ty - 1) <= v < 2 ^ (type_bits a ty - 1)) ->
  (type_signed ty = false -> 0 <= v < 2 ^ type_bits a ty) ->
  store_as a ty v = v.
Proof.
  intros Hs Hu. unfold store_as.
  assert (Hbits : (type_bits a ty = 32 \/ type_bits a ty = 64) /\
                  (parse_bits a ty = 32 \/ parse_bits a ty = 64) /\
                  type_bits a ty <= parse_bits a ty).
  { unfold type_bits, parse_bits. destruct ty, (IS_X86_32_BIT a); lia. }
  destruct Hbits as (Ht & Hp & Hle).
  assert (Hpow : 2 ^ type_bits a ty <= 2 ^ parse_bits a ty)
    by (apply Z.pow_le_mono_r; lia).
  assert (Hhalf : 2 ^ (type_bits a ty - 1) <= 2 ^ (parse_bits a ty - 1))
    by (apply Z.pow_le_mono_r; lia).
  assert (Hdouble : 2 ^ type_bits a ty = 2 * 2 ^ (type_bits a ty - 1)).
  { rewrite <- Z.pow_succ_r by lia. f_equal. lia. }
  rewrite strto_in_range;
    [| lia | intros H; specialize (Hs H); lia | intros H; specialize (Hu H); lia].
  cbv zeta. destruct (type_signed ty); cbn [andb].
  - specialize (Hs eq_refl).
    rewrite Hdouble, Z.mul_comm, Z.div_mul by lia.
    destruct (Z.le_gt_cases 0 v) as [Hpos | Hneg].
    + rewrite Z.mod_small by lia.
      destruct (Z.leb_spec (2 ^ (type_bits a ty - 1)) v); [lia | reflexivity].
    + replace (v mod (2 ^ (type_bits a ty - 1) * 2))
        with (v + 2 ^ (type_bits a ty - 1) * 2).
      * destruct (Z.leb_spec (2 ^ (type_bits a ty - 1))
                    (v + 2 ^ (type_bits a ty - 1) * 2)); lia.
      * apply Z.mod_unique with (q := -1); lia.
  - specialize (Hu eq_refl). apply Z.mod_small. lia.
Qed.

Lemma store_as_int a p : 0 <= p < 2 ^ 31 -> store_as a T_int p = p.
Proof.
  intros Hp. apply store_as_in_range; cbn; [intros _; lia | discriminate].
Qed.

(** A member that is not among the destinations keeps its value. *)
Lemma assign_other f dests vs u :
  forallb (fun g => negb (bool_decide (g = f))) dests = true ->
  assign dests vs u f = u f.
Proof.
  revert vs u. induction dests as [| g dests IH]; intros vs u Hall; [reflexivity |].
  cbn in Hall. apply andb_true_iff in Hall as [Hg Hall].
  destruct vs as [| v vs]; [reflexivity |].
  cbn [assign]. rewrite IH by exact Hall.
  unfold store. apply negb_true_iff, bool_decide_eq_false in Hg.
  destruct (decide (f = g)) as [-> | _]; [contradiction | reflexivity].
Qed.

(** What the whole format reads from a line with a command the scan set
    accepts. *)
Lemma scan_stat_line a p command st numbers tail :
  command <> "" ->
  (String.length command <= 255)%nat ->
  all_in_comm_set command = true ->
  isspace st = false ->
  List.length numbers = 41%nat ->
  no_digit_ahead tail ->
  scan a stat_format (stat_line p command st numbers tail)
  = (None,
     V_int (store_as a T_int p) :: V_char "(" :: V_str command :: V_char ")"
       :: V_char st
       :: zip_with (fun ty z => V_int (store_as a ty z)) number_types numbers).
Proof.
  intros Hne Hlen Hset Hst Hnum Htail.
  rewrite stat_format_shape. unfold stat_line.
  cbn [app scan]. unfold directive at 1.
  rewrite scan_int_decimal by reflexivity.
  unfold directive at 1.
  change (skip_space (" (" ++ command ++ ") " ++ String st (numbers_text numbers tail)))
    with (String "(" (command ++ ") " ++ String st (numbers_text numbers tail))).
  unfold directive at 1. unfold directive at 1.
  destruct command as [| c0 command]; [contradiction |].
  change (String c0 command ++ ") " ++ String st (numbers_text numbers tail))
    with (String c0 (command ++ ") " ++ String st (numbers_text numbers tail))).
  cbv iota.
  change (String c0 (command ++ ") " ++ String st (numbers_text numbers tail)))
    with (String c0 command ++ String ")" (String " " (String st (numbers_text numbers tail)))).
  rewrite (span_set_word 255 comm_set (String c0 command) ")"
             (String " " (String st (numbers_text numbers tail))) Hlen Hset eq_refl).
  cbv iota. unfold directive at 1. unfold directive at 1.
  assert (Hskip : skip_space (String " " (String st (numbers_text numbers tail)))
                  = String st (numbers_text numbers tail)).
  { cbn [skip_space]. change (isspace " ") with true. cbv iota.
    rewrite Hst. reflexivity. }
  rewrite Hskip. unfold directive at 1.
  rewrite scan_numbers; [reflexivity | rewrite Hnum; reflexivity | exact Htail].
Qed.

End ScanfFacts.

(** C5, as amended.  For every stat line whose command is not empty, has
    at most 255 characters, and is made of the characters of the scan set of
    the format only (letters, digits, [_], space, [#], [~], [/], [-]; no
    parentheses), whose state letter is not white space and whose fields 4
    to 44 are numbers in decimal: [get_user_stat] reads the pid, the
    command and the state letter back as they were printed, and returns 46
    stored values (the 44 fields and the two parentheses), which is at
    least 44. *)
Theorem get_user_stat_reads_scan_set_commands
    (a : Arch) (p : Z) (command : string) (st : ascii) (numbers : list Z)
    (tail : string) (u : ProcStat.user_stat) :
  0 <= p < 2 ^ 31 ->
  command <> EmptyString ->
  (String.length command <= 255)%nat ->
  ProcStat.all_in_comm_set command = true ->
  Scanf.isspace st = false ->
  List.length numbers = 41%nat ->
  no_digit_ahead tail ->
  exists r u',
    ProcStat.get_user_stat a (Some (ProcStat.stat_line p command st numbers tail)) u
    = (r, u') /\
    r = 46 /\ 44 <= r /\
    u' ProcStat.pid = Some (Scanf.V_int p) /\
    u' ProcStat.comm = Some (Scanf.V_str command) /\
    u' ProcStat.state = Some (Scanf.V_char st).
Proof.
  intros Hp Hne Hlen Hset Hst Hnum Htail.
  unfold ProcStat.get_user_stat, Scanf.sscanf.
  rewrite scan_stat_line by assumption.
  rewrite (store_as_int a p Hp).
  assert (Hcount : Z.of_nat (List.length
            (Scanf.V_int p :: Scanf.V_char "(" :: Scanf.V_str command
               :: Scanf.V_char ")" :: Scanf.V_char st
               :: zip_with (fun ty z => Scanf.V_int (Scanf.store_as a ty z))
                    number_types numbers)) = 46).
  { cbn [List.length].
    rewrite length_zip_with_l_eq by (rewrite Hnum; reflexivity).
    reflexivity. }
  eexists _, _. split; [reflexivity |]. rewrite Hcount.
  split; [reflexivity |]. split; [lia |].
  - change ProcStat.stat_arguments
      with (ProcStat.pid :: ProcStat.ch :: ProcStat.comm :: ProcStat.ch
              :: ProcStat.state :: number_arguments).
    cbn [ProcStat.assign].
    rewrite !assign_other by reflexivity.
    split; [| split]; reflexivity.
Qed.

Lemma get_user_stat_reads_scan_set_commands_witness :
  exists r u',
    ProcStat.get_user_stat EDB_X86_64
      (Some (ProcStat.stat_line 812 "Web Content" "S" some_numbers some_tail))
      ProcStat.uninitialised
    = (r, u') /\
    r = 46 /\ 44 <= r /\
    u' ProcStat.pid = Some (Scanf.V_int 812) /\
    u' ProcStat.comm = Some (Scanf.V_str "Web Content") /\
    u' ProcStat.state = Some (Scanf.V_char "S").
Proof.
  refine (get_user_stat_reads_scan_set_commands EDB_X86_64 812 "Web Content" "S"
            some_numbers some_tail ProcStat.uninitialised _ _ _ _ _ _ _).
  - lia.
  - discriminate.
  - cbn. lia.
  - vm_compute. reflexivity.
  - vm_compute. reflexivity.
  - vm_compute. reflexivity.
  - vm_compute. reflexivity.
Defined.

(** C5, as stated, fails: the stat line of a process called [(sd-pam)] is
    well formed, its command has parentheses and a [-], and
    [get_user_stat] stores two values, the pid and the opening
    parenthesis; the state is not read. *)
Lemma parentheses_in_command_stop_the_parse :
  sd_pam_line
  = ProcStat.stat_line 812 "(sd-pam)" "S" some_numbers some_tail /\
  forall a,
    fst (ProcStat.get_user_stat a (Some sd_pam_line) ProcStat.uninitialised) = 2 /\
    snd (ProcStat.get_user_stat a (Some sd_pam_line) ProcStat.uninitialised)
      ProcStat.state = None /\
    ~ (44 <= fst (ProcStat.get_user_stat a (Some sd_pam_line) ProcStat.uninitialised)).
Proof.
  split; [vm_compute; reflexivity |].
  intros a.
  assert (H : ProcStat.get_user_stat a (Some sd_pam_line) ProcStat.uninitialised
              = (2, ProcStat.store ProcStat.ch (Scanf.V_char "(")
                      (ProcStat.store ProcStat.pid (Scanf.V_int 812)
                         ProcStat.uninitialised)))
    by (destruct a; vm_compute; reflexivity).
  rewrite H. cbn [fst snd]. split; [reflexivity |]. split; [reflexivity | lia].
Qed.

(** ** Two more concrete runs *)

Lemma continuation_discipline_witness :
  ptrace_continue 100 0 (breakpoint_session [reply 0 0])
  = Ok 0 (after_sys (with_core (with_waited (fun s => s ∖ {[100]}))
                       (breakpoint_session [reply 0 0]))
            (SYS_ptrace PTRACE_CONT 100 0 0)) /\
  ptrace_step 100 0 (breakpoint_session [reply 0 0])
  = Ok 0 (after_sys (with_core (with_waited (fun s => s ∖ {[100]}))
                       (breakpoint_session [reply 0 0]))
            (SYS_ptrace PTRACE_SINGLESTEP 100 0 0)).
Proof.
  refine (proj1 (proj2 (continuation_discipline (breakpoint_session [reply 0 0]) 100 0)) _ _).
  - vm_compute. reflexivity.
  - discriminate.
Defined.

Lemma wait_debug_event_not_attached_witness :
  wait_debug_event 100 (initial 4096 breakpoint_script)
  = Ok None (initial 4096 breakpoint_script).
Proof.
  refine (wait_debug_event_not_attached (initial 4096 breakpoint_script) 100 _).
  reflexivity.
Defined.

(** * Further properties *)

(** ** What [get_user_stat] stores *)

Section StatFacts.

Import Scanf ProcStat ProcFs.

Local Open Scope string_scope.

Lemma scan_int_kind a ty s v rest :
  scan_int a ty s = inr (v, rest) -> exists z, v = V_int z.
Proof.
  unfold scan_int. destruct (skip_space s) as [| c s']; [discriminate |].
  cbv zeta.
  set (s2 := if (c =? "-")%char || (c =? "+")%char then s' else String c s').
  destruct (span_digits s2) as [ds rest'].
  destruct ds as [| d ds].
  - destruct s2; discriminate.
  - destruct (NilEmpty.uint_of_string (String d ds)).
    + intros [= <- _]. eauto.
    + destruct s2; discriminate.
Qed.

(** The values stored are of the kinds of the first conversions of the
    format, in order. *)
Lemma scan_kinds a ds s :
  let vs := (scan a ds s).2 in
  Forall2 kind_ok (take (List.length vs) (conversions ds)) vs.
Proof.
  revert s. induction ds as [| d ds IH]; intros s; [constructor |].
  cbn [scan].
  destruct (directive a d s) as [f | [v rest]] eqn:Hd; [constructor |].
  specialize (IH rest). cbn zeta in IH.
  destruct (scan a ds rest) as [f vs] eqn:Hscan. cbn [snd] in *.
  destruct d; cbn [directive] in Hd.
  - injection Hd as <- <-. exact IH.
  - destruct (scan_int a ty s) as [f' | [v' rest']] eqn:Hint; [discriminate |].
    apply scan_int_kind in Hint as [z ->].
    injection Hd as <- <-.
    cbn [conversions List.filter is_conversion List.length take].
    constructor; [exact I | exact IH].
  - destruct s as [| c s]; [discriminate |]. injection Hd as <- <-.
    cbn [conversions List.filter is_conversion List.length take].
    constructor; [exact I | exact IH].
  - destruct s as [| c s]; [discriminate |].
    destruct (span_set width items (String c s)) as [[| c' m] rest']; [discriminate |].
    injection Hd as <- <-.
    cbn [conversions List.filter is_conversion List.length take].
    constructor; [exact I | exact IH].
Qed.

Lemma scan_length a ds s :
  (List.length (scan a ds s).2 <= List.length (conversions ds))%nat.
Proof.
  pose proof (scan_kinds a ds s) as H. cbn zeta in H.
  apply Forall2_length in H. rewrite length_take in H. lia.
Qed.

Lemma stat_conversions : List.length (conversions stat_format) = 46%nat.
Proof. reflexivity. Qed.

(** [sscanf] returns [EOF] with nothing stored, or the number of values
    it stored. *)
Lemma sscanf_count a s fmt :
  let (r, vs) := sscanf a s fmt in
  (r = -1 /\ vs = []) \/ r = Z.of_nat (List.length vs).
Proof.
  unfold sscanf. destruct (scan a fmt s) as [[[|] |] [| v vs]]; auto.
Qed.

Lemma sscanf_values a s fmt : (sscanf a s fmt).2 = (scan a fmt s).2.
Proof.
  unfold sscanf. destruct (scan a fmt s) as [[[|] |] [| v vs]]; reflexivity.
Qed.

(** A member that is not among the destinations keeps its value. *)
Lemma assign_not_in f dests vs u :
  f ∉ dests -> assign dests vs u f = u f.
Proof.
  intros Hn. apply assign_other.
  apply forallb_forall. intros g Hg. apply negb_true_iff, bool_decide_eq_false.
  intros ->. apply Hn, list_elem_of_In, Hg.
Qed.

(** A member that is the destination of one argument only holds the value
    of that argument, if there is one. *)
Lemma assign_at pre f suf vs u :
  f ∉ pre -> f ∉ suf ->
  assign (pre ++ f :: suf)%list vs u f
  = match vs !! List.length pre with Some v => Some v | None => u f end.
Proof.
  revert vs u. induction pre as [| g pre IH]; intros vs u Hpre Hsuf.
  - cbn [app List.length]. destruct vs as [| v vs]; [reflexivity |].
    cbn [assign lookup list_lookup]. rewrite assign_not_in by exact Hsuf.
    unfold store. rewrite decide_True by reflexivity. reflexivity.
  - apply not_elem_of_cons in Hpre as [Hne Hpre].
    cbn [app List.length]. destruct vs as [| v vs]; [reflexivity |].
    cbn [assign]. rewrite IH by assumption.
    change ((v :: vs) !! S (List.length pre)) with (vs !! List.length pre).
    destruct (vs !! List.length pre); [reflexivity |].
    unfold store. rewrite decide_False by exact Hne. reflexivity.
Qed.

(** Every member but the scratch character is the destination of one
    argument. *)
Lemma stat_arguments_once i f :
  stat_arguments !! i = Some f -> f <> ch ->
  (f ∉ take i stat_arguments) /\ (f ∉ drop (S i) stat_arguments).
Proof.
  intros Hi Hch.
  do 46 (destruct i as [| i];
         [injection Hi as <-;
          first [exfalso; apply Hch; reflexivity
                | split; apply (bool_decide_unpack _); vm_compute; exact I] |]).
  discriminate Hi.
Qed.

End StatFacts.

Section StatMembers.

Import Scanf ProcStat ProcFs.

Local Open Scope string_scope.

Lemma assign_stat_arguments i f vs u :
  stat_arguments !! i = Some f -> f <> ch ->
  assign stat_arguments vs u f
  = match vs !! i with Some v => Some v | None => u f end.
Proof.
  intros Hi Hch.
  destruct (stat_arguments_once i f Hi Hch) as [Hpre Hsuf].
  rewrite <- (take_drop_middle stat_arguments i f Hi) at 1.
  rewrite assign_at by assumption.
  rewrite length_take_le; [reflexivity |].
  apply lookup_lt_Some in Hi. lia.
Qed.

(** The member that is the destination of argument [i] holds a value of
    the kind of conversion [i] when more than [i] values were stored, and
    is as it was otherwise. *)
Lemma get_user_stat_member a line u i f :
  stat_arguments !! i = Some f -> f <> ch ->
  (Z.of_nat i < (get_user_stat a line u).1 ->
   exists d v, conversions stat_format !! i = Some d /\ kind_ok d v /\
               (get_user_stat a line u).2 f = Some v) /\
  ((get_user_stat a line u).1 <= Z.of_nat i -> (get_user_stat a line u).2 f = u f).
Proof.
  intros Hi Hch. destruct line as [l |]; cbn [get_user_stat].
  2:{ cbn [fst snd]. split; [lia | reflexivity]. }
  pose proof (sscanf_count a l stat_format) as Hcount.
  pose proof (sscanf_values a l stat_format) as Hvalues.
  pose proof (scan_kinds a stat_format l) as Hkinds. cbn zeta in Hkinds.
  rewrite <- Hvalues in Hkinds.
  destruct (sscanf a l stat_format) as [r vs]. cbn [fst snd] in *.
  rewrite (assign_stat_arguments i f vs u Hi Hch).
  split.
  - intros Hlt.
    destruct Hcount as [[-> _] | ->]; [lia |].
    destruct (lookup_lt_is_Some_2 vs i ltac:(lia)) as [v Hv].
    destruct (Forall2_lookup_r _ _ _ _ _ Hkinds Hv) as (d & Hd & Hk).
    apply lookup_take_Some in Hd as [Hd _].
    exists d, v. rewrite Hv. auto.
  - intros Hle.
    rewrite lookup_ge_None_2; [reflexivity |].
    destruct Hcount as [[_ ->] | ->]; cbn [List.length]; lia.
Qed.

Lemma get_user_stat_count a line u : -1 <= (get_user_stat a line u).1 <= 46.
Proof.
  destruct line as [l |]; cbn [get_user_stat]; [| cbn; lia].
  pose proof (sscanf_count a l stat_format) as Hcount.
  pose proof (sscanf_values a l stat_format) as Hvalues.
  pose proof (scan_length a stat_format l) as Hlen.
  rewrite stat_conversions, <- Hvalues in Hlen.
  destruct (sscanf a l stat_format) as [r vs]. cbn [fst snd] in *.
  destruct Hcount as [[-> _] | ->]; lia.
Qed.

Lemma stored_int a line u i f ty :
  stat_arguments !! i = Some f -> f <> ch ->
  conversions stat_format !! i = Some (D_int ty) ->
  Z.of_nat i < (get_user_stat a line u).1 ->
  exists z, (get_user_stat a line u).2 f = Some (V_int z).
Proof.
  intros Hi Hch Hc Hlt.
  destruct (get_user_stat_member a line u i f Hi Hch) as [Hstored _].
  destruct (Hstored Hlt) as (d & v & Hd & Hk & Hv).
  rewrite Hc in Hd. injection Hd as <-.
  destruct v; try contradiction. eauto.
Qed.

End StatMembers.

(** X1.  [get_user_stat] returns a count between -1 and 46, and the count
    tells which members of the struct it filled: a member other than the
    scratch character that is argument number [i] of the [sscanf] (from 0)
    holds a value of the kind of conversion [i] of the format when the
    count is above [i], and is left as it was found when the count is [i]
    or less.  The two parentheses are counted, so that the state is stored
    from a count of 5 on and the parent pid from a count of 6 on. *)
Theorem get_user_stat_fills_a_prefix
    (a : Arch) (line : option string) (u : ProcStat.user_stat) :
  -1 <= (ProcStat.get_user_stat a line u).1 <= 46 /\
  forall (i : nat) (f : ProcStat.field),
    ProcStat.stat_arguments !! i = Some f -> f <> ProcStat.ch ->
    if Z.of_nat i <? (ProcStat.get_user_stat a line u).1
    then exists d v, conversions ProcStat.stat_format !! i = Some d /\
                     kind_ok d v /\
                     (ProcStat.get_user_stat a line u).2 f = Some v
    else (ProcStat.get_user_stat a line u).2 f = u f.
Proof.
  split; [apply get_user_stat_count |].
  intros i f Hi Hch.
  destruct (get_user_stat_member a line u i f Hi Hch) as [Hstored Hkept].
  destruct (Z.ltb_spec (Z.of_nat i) (ProcStat.get_user_stat a line u).1); auto.
Qed.

(** X2.  [parent_pid] by the count of [get_user_stat]: below 4 it returns
    0; from 6 on it returns the parent pid that was read; at 4 and 5, which
    pass the test [n >= 4] of the source, the member [ppid] was never
    stored and the function returns whatever the memory holds. *)
Theorem parent_pid_by_count (a : Arch) (line : option string) :
  let n := (ProcStat.get_user_stat a line ProcStat.uninitialised).1 in
  ((n < 4 /\ ProcFs.parent_pid a line = ProcFs.Stored 0) \/
   (4 <= n < 6 /\ ProcFs.parent_pid a line = ProcFs.Indeterminate) \/
   (6 <= n /\ exists z,
      (ProcStat.get_user_stat a line ProcStat.uninitialised).2 ProcStat.ppid
      = Some (Scanf.V_int z) /\
      ProcFs.parent_pid a line = ProcFs.Stored z)).
Proof.
  cbn zeta. unfold ProcFs.parent_pid.
  pose proof (get_user_stat_member a line ProcStat.uninitialised 5 ProcStat.ppid
                eq_refl ltac:(discriminate)) as [_ Hkept].
  pose proof (stored_int a line ProcStat.uninitialised 5 ProcStat.ppid Scanf.T_int
                eq_refl ltac:(discriminate) eq_refl) as Hstored.
  destruct (ProcStat.get_user_stat a line ProcStat.uninitialised) as [n u].
  cbn [fst snd] in *.
  destruct (Z.leb_spec 4 n) as [H4 | H4]; [| left; split; [lia | reflexivity]].
  right. destruct (Z.le_gt_cases 6 n) as [H6 | H6].
  - right. split; [exact H6 |].
    destruct (Hstored ltac:(lia)) as [z Hz]. exists z. rewrite Hz. auto.
  - left. split; [lia |]. rewrite Hkept by lia. reflexivity.
Qed.

(** X3.  [get_thread_info] by the count of [get_user_stat]: below 30 it
    returns the defaults (no name, ip 0, priority 0, state [?]); from 30 on
    the name, the priority and the state are the ones read, the state with
    its label; the instruction pointer is argument 32 of the [sscanf], so
    that it is read from a count of 32 on, and at 30 and 31 the member
    [kstkeip] was never stored. *)
Theorem get_thread_info_by_count (a : Arch) (line : option string) (tid : Z) :
  let n := (ProcStat.get_user_stat a line ProcStat.uninitialised).1 in
  let u := (ProcStat.get_user_stat a line ProcStat.uninitialised).2 in
  let info := ProcFs.get_thread_info a line tid in
  ProcFs.ti_tid info = tid /\
  ((n < 30 /\
    ProcFs.ti_name info = ProcFs.Stored EmptyString /\
    ProcFs.ti_ip info = ProcFs.Stored 0 /\
    ProcFs.ti_priority info = ProcFs.Stored 0 /\
    ProcFs.ti_state info = ProcFs.Stored "?"%string) \/
   (30 <= n /\
    (exists name prio c,
       u ProcStat.comm = Some (Scanf.V_str name) /\
       u ProcStat.priority = Some (Scanf.V_int prio) /\
       u ProcStat.state = Some (Scanf.V_char c) /\
       ProcFs.ti_name info = ProcFs.Stored name /\
       ProcFs.ti_priority info = ProcFs.Stored prio /\
       ProcFs.ti_state info = ProcFs.Stored (ProcFs.state_label c)) /\
    ((n < 32 /\ ProcFs.ti_ip info = ProcFs.Indeterminate) \/
     (32 <= n /\ exists ip,
        u ProcStat.kstkeip = Some (Scanf.V_int ip) /\
        ProcFs.ti_ip info = ProcFs.Stored ip)))).
Proof.
  cbn zeta. unfold ProcFs.get_thread_info.
  pose proof (get_user_stat_member a line ProcStat.uninitialised 2 ProcStat.comm
                eq_refl ltac:(discriminate)) as [Hcomm _].
  pose proof (get_user_stat_member a line ProcStat.uninitialised 4 ProcStat.state
                eq_refl ltac:(discriminate)) as [Hstate _].
  pose proof (stored_int a line ProcStat.uninitialised 19 ProcStat.priority Scanf.T_long
                eq_refl ltac:(discriminate) eq_refl) as Hprio.
  pose proof (stored_int a line ProcStat.uninitialised 31 ProcStat.kstkeip Scanf.T_ulong
                eq_refl ltac:(discriminate) eq_refl) as Hip.
  pose proof (get_user_stat_member a line ProcStat.uninitialised 31 ProcStat.kstkeip
                eq_refl ltac:(discriminate)) as [_ Hnoip].
  destruct (ProcStat.get_user_stat a line ProcStat.uninitialised) as [n u].
  cbn [fst snd] in *.
  destruct (Z.leb_spec 30 n) as [H30 | H30]; cbn [ProcFs.ti_tid];
    (split; [reflexivity |]).
  2:{ left. repeat split; [lia | ..]; reflexivity. }
  right. split; [exact H30 |].
  destruct (Hcomm ltac:(lia)) as (d1 & v1 & Hd1 & Hk1 & Hv1).
  injection Hd1 as <-. destruct v1 as [| | name]; try contradiction.
  destruct (Hstate ltac:(lia)) as (d2 & v2 & Hd2 & Hk2 & Hv2).
  injection Hd2 as <-. destruct v2 as [| c |]; try contradiction.
  destruct (Hprio ltac:(lia)) as [prio Hv3].
  split.
  - exists name, prio, c. rewrite Hv1, Hv2, Hv3. cbn. auto 10.
  - destruct (Z.le_gt_cases 32 n) as [H32 | H32].
    + right. split; [exact H32 |]. destruct (Hip ltac:(lia)) as [ip Hv4].
      exists ip. rewrite Hv4. cbn. auto.
    + left. split; [lia |]. cbn [ProcFs.ti_ip]. rewrite Hnoip by lia. reflexivity.
Qed.

Section StatLines.

Import Scanf ProcStat ProcFs.

Local Open Scope string_scope.





(** What the format reads from a line whose command starts with a
    character that the scan set rejects. *)
Lemma scan_rejected_command a p c rest st numbers tail :
  in_set comm_set c = false ->
  scan a stat_format (stat_line p (String c rest) st numbers tail)
  = (Some MatchingFailure, [V_int (store_as a T_int p); V_char "("]).
Proof.
  intros Hc. rewrite stat_format_shape. unfold stat_line.
  cbn [app scan]. unfold directive at 1.
  rewrite scan_int_decimal by reflexivity.
  unfold directive at 1.
  change (skip_space (" (" ++ String c rest ++ ") " ++ String st (numbers_text numbers tail)))
    with (String "(" (String c (rest ++ ") " ++ String st (numbers_text numbers tail)))).
  unfold directive at 1. unfold directive at 1.
  cbn [span_set]. rewrite Hc. reflexivity.
Qed.


End StatLines.

Section StatCallers.

Import Scanf ProcStat ProcFs.

Local Open Scope string_scope.

Lemma get_user_stat_well_formed a p command st numbers tail u :
  command <> "" ->
  (String.length command <= 255)%nat ->
  all_in_comm_set command = true ->
  isspace st = false ->
  List.length numbers = 41%nat ->
  no_digit_ahead tail ->
  get_user_stat a (Some (stat_line p command st numbers tail)) u
  = (46,
     assign stat_arguments
       (V_int (store_as a T_int p) :: V_char "(" :: V_str command :: V_char ")"
          :: V_char st
          :: zip_with (fun ty z => V_int (store_as a ty z)) number_types numbers) u).
Proof.
  intros Hne Hlen Hset Hst Hnum Htail.
  unfold get_user_stat, sscanf.
  rewrite scan_stat_line by assumption.
  cbv iota beta. f_equal.
  cbn [List.length].
  rewrite length_zip_with_l_eq by (rewrite Hnum; reflexivity).
  reflexivity.
Qed.

Lemma number_stored a v0 v1 v2 v3 v4 numbers i ty z :
  number_types !! i = Some ty -> numbers !! i = Some z ->
  (v0 :: v1 :: v2 :: v3 :: v4
      :: zip_with (fun ty z => V_int (store_as a ty z)) number_types numbers)
    !! (5 + i)%nat
  = Some (V_int (store_as a ty z)).
Proof.
  intros Hty Hz.
  change (zip_with (fun ty z => V_int (store_as a ty z)) number_types numbers !! i
          = Some (V_int (store_as a ty z))).
  rewrite lookup_zip_with, Hty, Hz. reflexivity.
Qed.

(** The name that [enumerate_processes] stores is the one that the count
    tells. *)
Lemma name_by_count_eq a line :
  (let (n, u) := get_user_stat a line uninitialised in
   if (2 <=? n)%Z then read_str (u comm) else Stored "")
  = name_by_count (get_user_stat a line uninitialised).1
      (get_user_stat a line uninitialised).2.
Proof.
  pose proof (get_user_stat_member a line uninitialised 2 comm eq_refl
                ltac:(discriminate)) as [_ Hkept].
  destruct (get_user_stat a line uninitialised) as [n u]. cbn [fst snd] in *.
  unfold name_by_count.
  destruct (Z.leb_spec 2 n), (Z.ltb_spec n 2); try lia; [| reflexivity].
  destruct (Z.eqb_spec n 2) as [-> | _]; [| reflexivity].
  rewrite Hkept by lia. reflexivity.
Qed.

Lemma is_numeric_digits d : is_numeric (NilEmpty.string_of_uint d) = true.
Proof. induction d; cbn; auto. Qed.

End StatCallers.

(** X4.  On a stat line as the kernel prints it, with a command that the
    scan set accepts, and with the numbers of fields 4, 18 and 30 in the
    range of the C type they are read into ([int], [long] and
    [unsigned long]), [parent_pid] returns field 4 of the line, and
    [get_thread_info] returns the command as the name, field 30 as the
    instruction pointer, field 18 as the priority and the state letter
    with its label. *)
Theorem stat_callers_read_their_fields
    (a : Arch) (p : Z) (command : string) (st : ascii) (numbers : list Z)
    (tail : string) (tid parent prio ip : Z) :
  command <> EmptyString ->
  (String.length command <= 255)%nat ->
  ProcStat.all_in_comm_set command = true ->
  Scanf.isspace st = false ->
  List.length numbers = 41%nat ->
  no_digit_ahead tail ->
  numbers !! 0%nat = Some parent ->
  numbers !! 14%nat = Some prio ->
  numbers !! 26%nat = Some ip ->
  - 2 ^ 31 <= parent < 2 ^ 31 ->
  - 2 ^ (Scanf.type_bits a Scanf.T_long - 1) <= prio
    < 2 ^ (Scanf.type_bits a Scanf.T_long - 1) ->
  0 <= ip < 2 ^ Scanf.type_bits a Scanf.T_ulong ->
  ProcFs.parent_pid a (Some (ProcStat.stat_line p command st numbers tail))
  = ProcFs.Stored parent /\
  ProcFs.get_thread_info a (Some (ProcStat.stat_line p command st numbers tail)) tid
  = {| ProcFs.ti_name := ProcFs.Stored command;
       ProcFs.ti_tid := tid;
       ProcFs.ti_ip := ProcFs.Stored ip;
       ProcFs.ti_priority := ProcFs.Stored prio;
       ProcFs.ti_state := ProcFs.Stored (ProcFs.state_label st) |}.
Proof.
  intros Hne Hlen Hset Hst Hnum Htail Hparent Hprio Hip Rparent Rprio Rip.
  unfold ProcFs.parent_pid, ProcFs.get_thread_info.
  rewrite get_user_stat_well_formed by assumption.
  cbv iota beta.
  change (4 <=? 46) with true. change (30 <=? 46) with true. cbv iota.
  rewrite (assign_stat_arguments 5 ProcStat.ppid) by (reflexivity || discriminate).
  rewrite (assign_stat_arguments 2 ProcStat.comm) by (reflexivity || discriminate).
  rewrite (assign_stat_arguments 4 ProcStat.state) by (reflexivity || discriminate).
  rewrite (assign_stat_arguments 19 ProcStat.priority) by (reflexivity || discriminate).
  rewrite (assign_stat_arguments 31 ProcStat.kstkeip) by (reflexivity || discriminate).
  rewrite (number_stored a _ _ _ _ _ numbers 0 Scanf.T_int parent eq_refl Hparent).
  rewrite (number_stored a _ _ _ _ _ numbers 14 Scanf.T_long prio eq_refl Hprio).
  rewrite (number_stored a _ _ _ _ _ numbers 26 Scanf.T_ulong ip eq_refl Hip).
  rewrite (store_as_in_range a Scanf.T_int parent)
    by (cbn; first [discriminate | intros _; lia]).
  rewrite (store_as_in_range a Scanf.T_long prio)
    by (cbn [Scanf.type_signed]; first [discriminate | intros _; exact Rprio]).
  rewrite (store_as_in_range a Scanf.T_ulong ip)
    by (cbn [Scanf.type_signed]; first [discriminate | intros _; exact Rip]).
  split; reflexivity.
Qed.

Lemma stat_callers_read_their_fields_witness :
  ProcFs.parent_pid EDB_X86_64
    (Some (ProcStat.stat_line 812 "Web Content" "S" some_numbers some_tail))
  = ProcFs.Stored 811 /\
  ProcFs.get_thread_info EDB_X86_64
    (Some (ProcStat.stat_line 812 "Web Content" "S" some_numbers some_tail)) 812
  = {| ProcFs.ti_name := ProcFs.Stored "Web Content"%string;
       ProcFs.ti_tid := 812;
       ProcFs.ti_ip := ProcFs.Stored 0;
       ProcFs.ti_priority := ProcFs.Stored 20;
       ProcFs.ti_state := ProcFs.Stored (ProcFs.state_label "S") |}.
Proof.
  refine (stat_callers_read_their_fields EDB_X86_64 812 "Web Content" "S"
            some_numbers some_tail 812 811 20 0 _ _ _ _ _ _ _ _ _ _ _ _).
  - discriminate.
  - cbn. lia.
  - vm_compute. reflexivity.
  - vm_compute. reflexivity.
  - vm_compute. reflexivity.
  - vm_compute. reflexivity.
  - reflexivity.
  - reflexivity.
  - reflexivity.
  - lia.
  - cbn. lia.
  - cbn. lia.
Defined.



(** X6.  When the command of a stat line starts with a character that the
    scan set rejects (the parenthesis of [(sd-pam)]), [get_user_stat]
    returns 2, the pid and the opening parenthesis, and stores no command:
    [parent_pid] returns 0, and [enumerate_processes], whose test [n >= 2]
    passes, gives the process a name read from a member that was never
    stored. *)
Theorem rejected_command_misleads_callers
    (a : Arch) (p : Z) (c : ascii) (rest : string) (st : ascii)
    (numbers : list Z) (tail : string)
    (stat_of getpwuid : Z -> option string) (info : ProcFs.QFileInfo)
    (ret : gmap Z ProcFs.ProcessInfo) :
  Scanf.in_set ProcStat.comm_set c = false ->
  ProcFs.is_numeric (ProcFs.fileName info) = true ->
  stat_of (to_tid (ProcFs.toULong a (ProcFs.fileName info)))
  = Some (ProcStat.stat_line p (String c rest) st numbers tail) ->
  let line := Some (ProcStat.stat_line p (String c rest) st numbers tail) in
  (ProcStat.get_user_stat a line ProcStat.uninitialised).1 = 2 /\
  (ProcStat.get_user_stat a line ProcStat.uninitialised).2 ProcStat.comm = None /\
  ProcFs.parent_pid a line = ProcFs.Stored 0 /\
  exists process_info,
    ProcFs.enumerate_entry a stat_of getpwuid ret info
      !! to_tid (ProcFs.toULong a (ProcFs.fileName info)) = Some process_info /\
    ProcFs.pi_name process_info = ProcFs.Indeterminate.
Proof.
  intros Hc Hnumeric Hstat line.
  assert (Hget : ProcStat.get_user_stat a line ProcStat.uninitialised
                 = (2, ProcStat.assign ProcStat.stat_arguments
                         [Scanf.V_int (Scanf.store_as a Scanf.T_int p);
                          Scanf.V_char "("] ProcStat.uninitialised)).
  { unfold line, ProcStat.get_user_stat, Scanf.sscanf.
    rewrite scan_rejected_command by exact Hc. reflexivity. }
  unfold ProcFs.parent_pid, ProcFs.enumerate_entry.
  rewrite Hnumeric, Hstat. fold line. rewrite Hget. cbn [fst snd].
  split; [reflexivity |]. split; [reflexivity |]. split; [reflexivity |].
  eexists. split; [apply lookup_insert_eq | reflexivity].
Qed.

Lemma rejected_command_misleads_callers_witness :
  sd_pam_line = ProcStat.stat_line 812 "(sd-pam)" "S" some_numbers some_tail /\
  (ProcStat.get_user_stat EDB_X86_64 (Some sd_pam_line) ProcStat.uninitialised).1 = 2 /\
  (ProcStat.get_user_stat EDB_X86_64 (Some sd_pam_line) ProcStat.uninitialised).2
    ProcStat.comm = None /\
  ProcFs.parent_pid EDB_X86_64 (Some sd_pam_line) = ProcFs.Stored 0 /\
  exists process_info,
    ProcFs.enumerate_entry EDB_X86_64 (fun _ => Some sd_pam_line) (fun _ => None) ∅
      {| ProcFs.fileName := "812"; ProcFs.ownerId := 1000 |}
      !! to_tid (ProcFs.toULong EDB_X86_64 "812") = Some process_info /\
    ProcFs.pi_name process_info = ProcFs.Indeterminate.
Proof.
  split; [vm_compute; reflexivity |].
  refine (rejected_command_misleads_callers EDB_X86_64 812 "(" "sd-pam)" "S"
            some_numbers some_tail (fun _ => Some sd_pam_line) (fun _ => None)
            {| ProcFs.fileName := "812"; ProcFs.ownerId := 1000 |} ∅ _ _ _).
  - vm_compute. reflexivity.
  - vm_compute. reflexivity.
  - vm_compute. reflexivity.
Defined.

Section Enumerate.

Import Scanf ProcStat ProcFs.

Local Open Scope string_scope.

Variables (a : Arch) (stat_of getpwuid : Z -> option string).

Lemma enumerate_entry_numeric ret info :
  is_numeric (fileName info) = true ->
  exists process_info,
    enumerate_entry a stat_of getpwuid ret info = <[entry_pid a info := process_info]> ret /\
    made_from a stat_of getpwuid info (entry_pid a info) process_info.
Proof.
  intros Hnum. unfold enumerate_entry, made_from. rewrite Hnum. fold (entry_pid a info).
  pose proof (name_by_count_eq a (stat_of (entry_pid a info))) as Hname.
  destruct (get_user_stat a (stat_of (entry_pid a info)) uninitialised) as [n u].
  eexists. split; [reflexivity |].
  cbn [pi_pid pi_uid pi_user pi_name].
  do 5 (split; [reflexivity |]). exact Hname.
Qed.

Lemma enumerate_fold entries :
  forall ret k process_info,
    foldl (enumerate_entry a stat_of getpwuid) ret entries !! k = Some process_info ->
    ret !! k = Some process_info \/
    exists info, info ∈ entries /\ made_from a stat_of getpwuid info k process_info.
Proof.
  induction entries as [| info entries IH]; intros ret k process_info Hk;
    [left; exact Hk |].
  cbn [foldl] in Hk. apply IH in Hk as [Hk | (info' & Hin & Hmade)].
  - destruct (is_numeric (fileName info)) eqn:Hnum.
    + destruct (enumerate_entry_numeric ret info Hnum) as (made & Heq & Hmade).
      rewrite Heq in Hk.
      destruct (decide (entry_pid a info = k)) as [<- | Hne].
      * rewrite lookup_insert_eq in Hk. injection Hk as <-.
        right. exists info. split; [left | exact Hmade].
      * rewrite lookup_insert_ne in Hk by exact Hne. left. exact Hk.
    + unfold enumerate_entry in Hk. rewrite Hnum in Hk. left. exact Hk.
  - right. exists info'. split; [right; exact Hin | exact Hmade].
Qed.

Lemma enumerate_fold_keeps entries :
  forall ret k,
    is_Some (ret !! k) ->
    is_Some (foldl (enumerate_entry a stat_of getpwuid) ret entries !! k).
Proof.
  induction entries as [| info entries IH]; intros ret k Hk; [exact Hk |].
  cbn [foldl]. apply IH.
  destruct (is_numeric (fileName info)) eqn:Hnum.
  - destruct (enumerate_entry_numeric ret info Hnum) as (made & -> & _).
    destruct (decide (entry_pid a info = k)) as [<- | Hne].
    + rewrite lookup_insert_eq. eauto.
    + rewrite lookup_insert_ne by exact Hne. exact Hk.
  - unfold enumerate_entry. rewrite Hnum. exact Hk.
Qed.

Lemma enumerate_fold_has entries :
  forall ret info,
    info ∈ entries -> is_numeric (fileName info) = true ->
    is_Some (foldl (enumerate_entry a stat_of getpwuid) ret entries !! entry_pid a info).
Proof.
  induction entries as [| info' entries IH]; intros ret info Hin Hnum;
    [inversion Hin |].
  cbn [foldl]. apply elem_of_cons in Hin as [-> | Hin].
  - apply enumerate_fold_keeps.
    destruct (enumerate_entry_numeric ret info' Hnum) as (made & -> & _).
    rewrite lookup_insert_eq. eauto.
  - apply IH; assumption.
Qed.

End Enumerate.

(** X7.  [enumerate_processes] returns one process for every entry of
    [/proc/] whose name is made of digits, under the pid that the name
    spells, and nothing else: every process of the result has its key as its
    pid and the owner of such an entry as its uid and user.  Its name goes
    by the count of [get_user_stat] on the stat file of that pid: empty
    below 2, the command read from 3 on, and at 2, where the test [n >= 2]
    passes and the command is argument 3 of the [sscanf], a member that was
    never stored. *)
Theorem enumerate_processes_lists_numeric_entries
    (a : Arch) (entries : list ProcFs.QFileInfo)
    (stat_of getpwuid : Z -> option string) :
  (forall info,
     info ∈ entries -> ProcFs.is_numeric (ProcFs.fileName info) = true ->
     is_Some (ProcFs.enumerate_processes a entries stat_of getpwuid
                !! to_tid (ProcFs.toULong a (ProcFs.fileName info)))) /\
  (forall k process_info,
     ProcFs.enumerate_processes a entries stat_of getpwuid !! k = Some process_info ->
     ProcFs.pi_pid process_info = k /\
     ProcFs.pi_name process_info
     = name_by_count
         (ProcStat.get_user_stat a (stat_of k) ProcStat.uninitialised).1
         (ProcStat.get_user_stat a (stat_of k) ProcStat.uninitialised).2 /\
     exists info,
       info ∈ entries /\ ProcFs.is_numeric (ProcFs.fileName info) = true /\
       to_tid (ProcFs.toULong a (ProcFs.fileName info)) = k /\
       ProcFs.pi_uid process_info = ProcFs.ownerId info /\
       ProcFs.pi_user process_info
       = from_option id EmptyString (getpwuid (ProcFs.ownerId info))).
Proof.
  unfold ProcFs.enumerate_processes. split.
  - intros info Hin Hnum.
    apply (enumerate_fold_has a stat_of getpwuid entries ∅ info Hin Hnum).
  - intros k process_info Hk.
    apply enumerate_fold in Hk as [Hk | (info & Hin & Hmade)];
      [rewrite lookup_empty in Hk; discriminate |].
    destruct Hmade as (Hnum & Hkey & Hpid & Huid & Huser & Hname).
    split; [exact Hpid |]. split; [exact Hname |].
    exists info. auto.
Qed.

(** X8.  A pid printed in decimal is a numeric name exactly when it is not
    negative, and [toULong] reads it back when it fits an [unsigned long];
    the name of any other number is read as 0. *)
Theorem numeric_names_round_trip (a : Arch) (n : Z) :
  ProcFs.is_numeric (ProcStat.decimal n) = (0 <=? n) /\
  ProcFs.toULong a (ProcStat.decimal n)
  = if (0 <=? n) && (n <? 2 ^ Scanf.type_bits a Scanf.T_ulong) then n else 0.
Proof.
  pose proof (DecimalZ.of_to n) as Hn. unfold ProcStat.decimal.
  destruct n as [| p | p]; cbn [Z.to_int] in *.
  - split; [reflexivity | destruct a; reflexivity].
  - pose proof (DecimalPos.Unsigned.to_uint_nonnil p) as Hnil.
    cbn [NilZero.string_of_int]. rewrite (NilZero_nonnil _ Hnil).
    split; [apply is_numeric_digits |].
    unfold ProcFs.toULong.
    pose proof (NilEmpty.usu (Pos.to_uint p)) as Husu.
    destruct (digits_head _ Hnil) as (c & s & Hd & _).
    rewrite Hd in *. rewrite Husu.
    cbn [Z.of_int] in Hn. rewrite Hn. reflexivity.
  - split; [reflexivity |].
    cbn [NilZero.string_of_int].
    unfold ProcFs.toULong. cbn [NilEmpty.uint_of_string].
    destruct (NilEmpty.uint_of_string _); reflexivity.
Qed.

(** ** What a call leaves alone *)

Section Frames.

Context {K : Type} `{!Kernel K}.

Lemma frames_pure {A} (a : A) : frames (K:=K) (pure a).
Proof. intros w b w' Hrun. inversion Hrun; subst; reflexivity. Qed.

Lemma frames_get {A} (f : DebuggerCore -> A) : frames (K:=K) (get f).
Proof. intros w b w' Hrun. inversion Hrun; subst; reflexivity. Qed.

Lemma frames_sys c : frames (K:=K) (sys c).
Proof. intros w b w' Hrun. rewrite sys_eq in Hrun. inversion Hrun; subst; reflexivity. Qed.

Lemma frames_assert b : frames (K:=K) (Q_ASSERT b).
Proof.
  intros w u w' Hrun. unfold Q_ASSERT in Hrun. destruct b; [| discriminate].
  inversion Hrun; subst; reflexivity.
Qed.

Lemma frames_threads f : frames (K:=K) (modify (with_threads f)).
Proof. intros w u w' Hrun. rewrite modify_eq in Hrun. inversion Hrun; subst; reflexivity. Qed.

Lemma frames_waited f : frames (K:=K) (modify (with_waited f)).
Proof. intros w u w' Hrun. rewrite modify_eq in Hrun. inversion Hrun; subst; reflexivity. Qed.

Lemma frames_get_static : frames (K:=K) get_static.
Proof. intros w b w' Hrun. inversion Hrun; subst; reflexivity. Qed.

Lemma frames_set_static b : frames (K:=K) (set_static b).
Proof. intros w u w' Hrun. inversion Hrun; subst; reflexivity. Qed.

Lemma frames_bind {A B} (m : M K A) (f : A -> M K B) :
  frames m -> (forall a, frames (f a)) -> frames (bind m f).
Proof.
  intros Hm Hf w b w2 Hrun.
  apply bind_Ok in Hrun as (a & w1 & Hrun1 & Hrun2).
  rewrite (Hf a _ _ _ Hrun2). exact (Hm _ _ _ Hrun1).
Qed.

Lemma frames_for_each {A} (l : list A) (body : A -> M K unit) :
  (forall x, frames (body x)) -> frames (for_each l body).
Proof.
  intros Hbody. induction l as [| x l IH]; cbn [for_each].
  - apply frames_pure.
  - apply frames_bind; [apply Hbody | intros _; exact IH].
Qed.

End Frames.

Create HintDb frames.

#[local] Hint Resolve frames_pure frames_get frames_sys frames_assert frames_threads
  frames_waited frames_get_static frames_set_static : frames.

Ltac frames_step :=
  first
    [ solve [auto with frames]
    | match goal with
      | |- frames (if ?b then _ else _) => destruct b
      | |- frames (match ?x with _ => _ end) => destruct x
      | |- frames (bind _ _) => apply frames_bind; [| intros ?]
      | |- frames (for_each _ _) => apply frames_for_each; intros ?
      | |- frames (get _) => apply frames_get
      | |- frames pid => apply frames_get
      | |- frames active_thread => apply frames_get
      end ].

Ltac frames := repeat frames_step.

Section FramesOfOperations.

Context {K : Type} `{!Kernel K}.

Lemma frames_ptrace_continue tid sig : frames (K:=K) (ptrace_continue tid sig).
Proof. unfold ptrace_continue. frames. Qed.

Lemma frames_ptrace_step tid sig : frames (K:=K) (ptrace_step tid sig).
Proof. unfold ptrace_step. frames. Qed.

Lemma frames_ptrace_set_options tid options :
  frames (K:=K) (ptrace_set_options tid options).
Proof. unfold ptrace_set_options. frames. Qed.

Lemma frames_ptrace_get_event_message tid :
  frames (K:=K) (ptrace_get_event_message tid).
Proof. unfold ptrace_get_event_message. frames. Qed.

Lemma frames_stop_thread tid : frames (K:=K) (stop_thread tid).
Proof. unfold stop_thread, pid. frames. Qed.

Lemma frames_stop_threads : frames (K:=K) stop_threads.
Proof. unfold stop_threads. pose proof frames_stop_thread. frames. Qed.

Lemma frames_handle_clone tid : frames (K:=K) (handle_clone tid).
Proof.
  unfold handle_clone.
  pose proof frames_ptrace_continue. pose proof frames_ptrace_get_event_message.
  frames.
Qed.

Lemma frames_attach_thread tid : frames (K:=K) (attach_thread tid).
Proof. unfold attach_thread. pose proof frames_ptrace_set_options. frames. Qed.

Lemma frames_attach_pass entries attached :
  frames (K:=K) (attach_pass entries attached).
Proof.
  revert attached. induction entries as [| s rest IH]; intros attached;
    cbn [attach_pass]; [apply frames_pure |].
  pose proof frames_attach_thread. frames.
Qed.

Lemma frames_attach_sweep fuel pid : frames (K:=K) (attach_sweep fuel pid).
Proof.
  induction fuel as [| fuel IH]; cbn [attach_sweep]; [apply frames_pure |].
  pose proof frames_attach_pass. frames.
Qed.

Lemma frames_active_code st tid : frames (K:=K) (active_code st tid).
Proof. unfold active_code. frames. Qed.

Lemma frames_resume st : frames (K:=K) (resume st).
Proof.
  unfold resume, attached, pid, active_thread.
  pose proof frames_ptrace_continue. pose proof frames_active_code. frames.
Qed.

Lemma frames_step st : frames (K:=K) (step st).
Proof.
  unfold step, attached, pid, active_thread.
  pose proof frames_ptrace_step. pose proof frames_active_code. frames.
Qed.

Lemma frames_pause : frames (K:=K) pause.
Proof. unfold pause, attached, pid. frames. Qed.

Lemma frames_get_state a cleared : frames (K:=K) (get_state a cleared).
Proof.
  unfold get_state, attached, pid, get_gp_state, get_fp_state, peek_debugreg,
    active_thread.
  frames.
Qed.

Lemma frames_read_pages a address buf count :
  frames (K:=K) (read_pages a address buf count).
Proof. unfold read_pages. frames. Qed.

End FramesOfOperations.

(** ** Ending a session *)

Section EndOfSession.

Context {K : Type} `{!Kernel K}.

Lemma stop_threads_frame (w : World K) :
  exists w', stop_threads w = Ok tt w' /\
    session_of (core w') = session_of (core w) /\
    dom (threads_ (core w')) = dom (threads_ (core w)) /\
    exists new, trace w' = new ++ trace w.
Proof.
  destruct (stop_threads_stops w) as (w' & Hrun & Hd & _ & _ & _ & new & Ht & _).
  exists w'. split; [exact Hrun |]. split; [exact (frames_stop_threads _ _ _ Hrun) |].
  split; [exact Hd |]. exists new. exact Ht.
Qed.

Lemma clear_breakpoints_unfold :
  clear_breakpoints (K:=K)
  = (do bps <- get breakpoints_;
     for_each (map_to_list bps) restore_breakpoint ;;
     modify (with_breakpoints (fun _ => ∅))).
Proof. reflexivity. Qed.

(** The loop of [clear_breakpoints] asks for each breakpoint it goes over,
    for nothing else, and changes nothing in the core. *)
Lemma for_each_restore_breakpoint (l : list (Z * Z)) (w : World K) :
  exists w' new, for_each l restore_breakpoint w = Ok tt w' /\
    core w' = core w /\ trace w' = new ++ trace w /\
    Forall (fun e => exists bp, bp ∈ l /\ e.1 = BREAKPOINT_restore bp.1 bp.2) new /\
    forall bp, bp ∈ l -> exists r, (BREAKPOINT_restore bp.1 bp.2, r) ∈ new.
Proof.
  revert w. induction l as [| bp l IH]; intros w.
  - exists w, []. repeat (split; [reflexivity || constructor |]).
    intros bp Hin. inversion Hin.
  - destruct (IH (after_sys w (BREAKPOINT_restore bp.1 bp.2)))
      as (w2 & new2 & Hrun2 & Hc2 & Ht2 & Honly & Hall).
    exists w2, (new2 ++ [(BREAKPOINT_restore bp.1 bp.2,
                          answer w (BREAKPOINT_restore bp.1 bp.2))]).
    split.
    { cbn [for_each]. unfold restore_breakpoint at 1.
      unfold bind at 1. unfold bind at 1. rewrite sys_eq. exact Hrun2. }
    split; [exact Hc2 |]. split; [rewrite Ht2, <- app_assoc; reflexivity |].
    split.
    + apply Forall_app. split.
      * eapply Forall_impl; [exact Honly |].
        intros e (bp' & Hin & He). exists bp'. split; [right; exact Hin | exact He].
      * constructor; [| constructor]. exists bp. split; [left | reflexivity].
    + intros bp' Hin. apply elem_of_cons in Hin as [-> | Hin].
      * eexists. apply elem_of_app. right. apply list_elem_of_singleton. reflexivity.
      * destruct (Hall bp' Hin) as [r Hr]. exists r. apply elem_of_app. left. exact Hr.
Qed.

(** [clear_breakpoints] asks the breakpoint manager about every breakpoint
    of the store and empties the store. *)
Lemma clear_breakpoints_run (w : World K) :
  exists w' new, clear_breakpoints w = Ok tt w' /\
    core w' = with_breakpoints (fun _ => ∅) (core w) /\
    trace w' = new ++ trace w /\
    restores (breakpoints_ (core w)) new.
Proof.
  destruct (for_each_restore_breakpoint (map_to_list (breakpoints_ (core w))) w)
    as (w1 & new & Hrun & Hc & Ht & Honly & Hall).
  exists (with_core (with_breakpoints (fun _ => ∅)) w1), new.
  split.
  { rewrite clear_breakpoints_unfold. unfold bind at 1. unfold get at 1.
    rewrite (bind_Ok_intro _ _ _ _ _ Hrun). apply modify_eq. }
  split; [cbn; rewrite Hc; reflexivity |]. split; [exact Ht |]. split.
  - eapply Forall_impl; [exact Honly |].
    intros e ([addr ob] & Hin & He). exists addr, ob.
    split; [apply elem_of_map_to_list; exact Hin | exact He].
  - intros addr ob Hbp.
    apply (Hall (addr, ob)), elem_of_map_to_list. exact Hbp.
Qed.

Lemma detach_unfold :
  detach (K:=K)
  = (do a <- attached;
     if a then
       stop_threads ;;
       clear_breakpoints ;;
       do tids <- thread_ids;
       for_each tids detach_thread ;;
       modify (with_process 0) ;;
       reset
     else pure tt).
Proof. reflexivity. Qed.

(** The loop of [detach] asks for the release of every thread it goes
    over, and changes nothing in the core. *)
Lemma for_each_detach_thread l (w : World K) :
  exists w' new, for_each l detach_thread w = Ok tt w' /\
    core w' = core w /\ trace w' = new ++ trace w /\
    forall t, t ∈ l -> exists r, (SYS_ptrace PTRACE_DETACH t 0 0, r) ∈ new.
Proof.
  revert w. induction l as [| thread l IH]; intros w.
  - exists w, []. split; [reflexivity |]. split; [reflexivity |].
    split; [reflexivity |]. intros t Ht. inversion Ht.
  - assert (Hone : exists w1 new1, detach_thread thread w = Ok tt w1 /\
                     core w1 = core w /\
                     trace w1 = new1 ++ (SYS_ptrace PTRACE_DETACH thread 0 0,
                                         answer w (SYS_ptrace PTRACE_DETACH thread 0 0))
                                 :: trace w).
    { unfold detach_thread. unfold bind at 1. rewrite sys_eq.
      destruct (ret (answer w (SYS_ptrace PTRACE_DETACH thread 0 0)) =? 0).
      - unfold bind. rewrite sys_eq. eexists _, [_]. split; [reflexivity |].
        split; reflexivity.
      - eexists _, []. split; [reflexivity |]. split; reflexivity. }
    destruct Hone as (w1 & new1 & Hrun1 & Hc1 & Ht1).
    destruct (IH w1) as (w2 & new2 & Hrun2 & Hc2 & Ht2 & Hall).
    exists w2, (new2 ++ new1 ++ [(SYS_ptrace PTRACE_DETACH thread 0 0,
                                  answer w (SYS_ptrace PTRACE_DETACH thread 0 0))]).
    split; [cbn [for_each]; rewrite (bind_Ok_intro _ _ _ _ _ Hrun1); exact Hrun2 |].
    split; [congruence |]. split.
    + rewrite Ht2, Ht1. rewrite <- !app_assoc. reflexivity.
    + intros t Ht. apply elem_of_cons in Ht as [-> | Ht].
      * eexists. apply elem_of_app. right. apply elem_of_app. right.
        apply list_elem_of_singleton. reflexivity.
      * destruct (Hall t Ht) as [r Hr]. exists r. apply elem_of_app. left. exact Hr.
Qed.

End EndOfSession.

(** X9.  A core that is not attached is inert: [detach], [kill], [pause],
    [resume], [step] and [get_state] return at once, ask the kernel
    nothing, and change nothing; [get_state] hands back the cleared
    state. *)
Theorem detached_core_is_inert {K : Type} `{!Kernel K} (w : World K)
    (st : EVENT_STATUS) (a : Arch) (cleared : PlatformState) :
  pid_ (core w) = 0 ->
  detach w = Ok tt w /\ kill w = Ok tt w /\ pause w = Ok tt w /\
  resume st w = Ok tt w /\ step st w = Ok tt w /\
  get_state a cleared w = Ok cleared w.
Proof.
  intros Hpid.
  unfold detach, kill, pause, resume, step, get_state, attached, pid, bind, get, pure.
  rewrite Hpid. cbn [Z.eqb negb]. repeat split; reflexivity.
Qed.

Lemma detached_core_is_inert_witness :
  detach (initial 4096 ([] : list Reply)) = Ok tt (initial 4096 []) /\
  kill (initial 4096 ([] : list Reply)) = Ok tt (initial 4096 []) /\
  pause (initial 4096 ([] : list Reply)) = Ok tt (initial 4096 []) /\
  resume DEBUG_CONTINUE (initial 4096 ([] : list Reply)) = Ok tt (initial 4096 []) /\
  step DEBUG_CONTINUE (initial 4096 ([] : list Reply)) = Ok tt (initial 4096 []) /\
  get_state EDB_X86_64 blank_state (initial 4096 ([] : list Reply))
  = Ok blank_state (initial 4096 []).
Proof.
  exact (detached_core_is_inert (initial 4096 []) DEBUG_CONTINUE EDB_X86_64
           blank_state eq_refl).
Defined.

(** [detach] on an attached core, with every request answered, as the
    oracle does. *)
Lemma detach_attached {K : Type} `{!Kernel K} (w : World K) :
  pid_ (core w) <> 0 ->
  exists w' new,
    detach w = Ok tt w' /\
    core w' = DebuggerCore_new (page_size_ (core w)) /\
    trace w' = new ++ trace w /\
    (forall t, is_Some (threads_ (core w) !! t) ->
       exists r, (SYS_ptrace PTRACE_DETACH t 0 0, r) ∈ new).
Proof.
  intros Hpid.
  destruct (stop_threads_frame w) as (w1 & Hrun1 & Hs1 & Hd1 & new1 & Ht1).
  destruct (clear_breakpoints_run w1) as (w2 & new2 & Hrun2 & Hc2 & Ht2 & _).
  destruct (for_each_detach_thread (map fst (map_to_list (threads_ (core w2)))) w2)
    as (w3 & new3 & Hrun3 & Hc3 & Ht3 & Hall).
  assert (Hrun : detach w
                 = Ok tt (with_core reset_core (with_core (with_process 0) w3))).
  { rewrite detach_unfold. unfold attached, pid, thread_ids.
    unfold bind at 1. unfold bind at 1. unfold get at 1, pure at 1.
    destruct (Z.eqb_spec (pid_ (core w)) 0) as [? | _]; [contradiction |].
    cbn [negb]. rewrite (bind_Ok_intro _ _ _ _ _ Hrun1).
    rewrite (bind_Ok_intro _ _ _ _ _ Hrun2).
    unfold bind at 1. unfold bind at 1. unfold get at 1, pure at 1.
    rewrite (bind_Ok_intro _ _ _ _ _ Hrun3).
    unfold bind at 1. rewrite modify_eq. apply reset_eq. }
  eexists _, (new3 ++ new2 ++ new1). split; [exact Hrun |].
  split; [| split].
  - cbn. rewrite Hc3, Hc2. cbn.
    unfold session_of in Hs1. injection Hs1 as _ _ _ _ _ Hpage _.
    rewrite <- Hpage. reflexivity.
  - cbn. rewrite Ht3, Ht2, Ht1. rewrite !app_assoc. reflexivity.
  - intros t Hsome. destruct (Hall t) as [r Hr].
    + rewrite Hc2. cbn [threads_ with_breakpoints].
      apply elem_of_dom in Hsome. rewrite <- Hd1 in Hsome.
      apply elem_of_dom in Hsome as [info Hinfo].
      apply list_elem_of_In, in_map_iff. exists (t, info). split; [reflexivity |].
      apply list_elem_of_In, elem_of_map_to_list. exact Hinfo.
    + exists r. apply elem_of_app. left. exact Hr.
Qed.

(** [kill] on an attached core: the breakpoints are cleared, then the two
    requests of lines 660 and 663 are issued, then the session is reset. *)
Lemma kill_attached {K : Type} `{!Kernel K} (w : World K) :
  pid_ (core w) <> 0 ->
  exists w1 cleared,
    core w1 = with_breakpoints (fun _ => ∅) (core w) /\
    trace w1 = cleared ++ trace w /\
    restores (breakpoints_ (core w)) cleared /\
    kill w
    = Ok tt (with_core reset_core
               (with_core (with_process 0)
                  (after_sys (after_sys w1 (SYS_ptrace PTRACE_KILL (pid_ (core w)) 0 0))
                             (SYS_waitpid (pid_ (core w)) __WALL)))).
Proof.
  intros Hpid.
  destruct (clear_breakpoints_run w) as (w1 & cleared & Hrun1 & Hc1 & Ht1 & Hres).
  exists w1, cleared. repeat (split; [assumption |]).
  unfold kill, attached, pid.
  unfold bind at 1. unfold bind at 1. unfold get at 1, pure at 1.
  destruct (Z.eqb_spec (pid_ (core w)) 0) as [? | _]; [contradiction |].
  cbn [negb]. rewrite (bind_Ok_intro _ _ _ _ _ Hrun1).
  unfold bind at 1. unfold get at 1.
  replace (pid_ (core w1)) with (pid_ (core w)) by (rewrite Hc1; reflexivity).
  unfold bind at 1. rewrite sys_eq.
  unfold bind at 1. rewrite sys_eq.
  unfold bind at 1. rewrite modify_eq. apply reset_eq.
Qed.

(** *** The failure paths of [open] *)

(** C8.  In [open], once the previous session is detached and the fork has
    given a child, the first [waitpid] on the child decides.  [open]
    returns true only when the status is a SIGTRAP stop and
    PTRACE_SETOPTIONS with PTRACE_O_TRACECLONE did not fail; and in that
    case it does return true, with the child as the session's only, waited,
    thread.  On a status that is not a SIGTRAP stop, and when
    PTRACE_SETOPTIONS fails, [open] returns false without detaching: lines
    890 and 899 call [detach] while [pid_] is 0 and the table is empty
    ([reset], line 881; the child is entered at lines 907 and 909 only), so
    that [detach] finds nothing attached.  The last request of [open] is
    then the [waitpid], or the PTRACE_SETOPTIONS: there is no PTRACE_DETACH
    for the child, which stays traced, and after a failed PTRACE_SETOPTIONS
    it stays in [waited_threads_] of a core with no thread.  A [detach] on
    a session that has the child in its table does ask for its release. *)
Theorem open_failure_does_not_detach {K : Type} `{!Kernel K}
    (w w1 : World K) (path cwd : string) (args : list string) (tty : string) :
  detach w = Ok tt w1 ->
  let child := ret (answer w1 SYS_fork) in
  let w2 := with_core reset_core (after_sys w1 SYS_fork) in
  let first := answer w2 (SYS_waitpid child __WALL) in
  let w3 := after_sys w2 (SYS_waitpid child __WALL) in
  let w4 := with_core (mark_waited child) w3 in
  let options := answer w4 (SYS_ptrace PTRACE_SETOPTIONS child 0 PTRACE_O_TRACECLONE) in
  let w5 := after_sys w4 (SYS_ptrace PTRACE_SETOPTIONS child 0 PTRACE_O_TRACECLONE) in
  let sigtrap_stop := WIFSTOPPED (out first) && (WSTOPSIG (out first) =? SIGTRAP) in
  child <> 0 -> child <> -1 -> ret first <> -1 ->
  (sigtrap_stop = false ->
     open path cwd args tty w = Ok false w3 /\
     trace w3 = (SYS_waitpid child __WALL, first)
                  :: (SYS_fork, answer w1 SYS_fork) :: trace w1 /\
     pid_ (core w3) = 0 /\ threads_ (core w3) = ∅) /\
  (sigtrap_stop = true -> ret options = -1 ->
     open path cwd args tty w = Ok false w5 /\
     trace w5 = (SYS_ptrace PTRACE_SETOPTIONS child 0 PTRACE_O_TRACECLONE, options)
                  :: (SYS_waitpid child __WALL, first)
                  :: (SYS_fork, answer w1 SYS_fork) :: trace w1 /\
     pid_ (core w5) = 0 /\ threads_ (core w5) = ∅ /\
     child ∈ waited_threads_ (core w5)) /\
  (forall w', open path cwd args tty w = Ok true w' ->
     sigtrap_stop = true /\ ret options <> -1) /\
  (sigtrap_stop = true -> ret options <> -1 ->
     exists w', open path cwd args tty w = Ok true w' /\
       pid_ (core w') = child /\
       threads_ (core w') = {[child := {| status := out first; state := THREAD_STOPPED |}]} /\
       waited_threads_ (core w') = {[child]}) /\
  (forall v v' : World K,
     pid_ (core v) <> 0 -> is_Some (threads_ (core v) !! child) ->
     detach v = Ok tt v' ->
     exists new r, trace v' = new ++ trace v /\
       (SYS_ptrace PTRACE_DETACH child 0 0, r) ∈ new).
Proof.
  intros Hdetach child w2 first w3 w4 options w5 sigtrap_stop Hc0 Hc1 Hfirst.
  assert (Hopen : open path cwd args tty w =
    if sigtrap_stop then
      (do o <- ptrace_set_options child PTRACE_O_TRACECLONE;
       if o =? -1 then detach ;; pure false
       else
         modify (with_waited (fun s => {[child]} ∪ s)) ;;
         modify (with_threads (insert child {| status := out first; state := THREAD_STOPPED |})) ;;
         modify (with_pid child) ;;
         modify (with_active_thread child) ;;
         modify (with_event_thread child) ;;
         do b <- sys get_binary_info;
         modify (with_binary_info (ret b)) ;;
         modify (with_process child) ;;
         pure true) w4
    else Ok false w3).
  { unfold open. rewrite (bind_Ok_intro _ _ _ _ _ Hdetach).
    unfold bind at 1. rewrite sys_eq. fold child.
    destruct (Z.eqb_spec child 0) as [? | _]; [contradiction |].
    destruct (Z.eqb_spec child (-1)) as [? | _]; [contradiction |].
    unfold bind at 1. rewrite reset_eq. fold w2.
    unfold bind at 1. rewrite sys_eq. fold first w3.
    destruct (Z.eqb_spec (ret first) (-1)) as [? | _]; [contradiction |].
    rewrite <- negb_andb. fold sigtrap_stop.
    destruct sigtrap_stop; cbn [negb].
    - unfold bind at 1. rewrite modify_eq. reflexivity.
    - assert (Hd : detach w3 = Ok tt w3) by (apply detach_not_attached; reflexivity).
      rewrite (bind_Ok_intro _ _ _ _ _ Hd). reflexivity. }
  assert (Hopt : ptrace_set_options child PTRACE_O_TRACECLONE w4 = Ok (ret options) w5).
  { unfold ptrace_set_options, bind, get, Q_ASSERT.
    rewrite bool_decide_eq_true_2
      by (cbn; apply elem_of_union_l, elem_of_singleton; reflexivity).
    destruct (Z.eqb_spec child 0) as [? | _]; [contradiction |].
    cbn [negb]. rewrite sys_eq. reflexivity. }
  rewrite Hopen. split; [| split; [| split; [| split]]].
  - intros ->. repeat (split; [reflexivity |]). reflexivity.
  - intros -> Hfail. rewrite (bind_Ok_intro _ _ _ _ _ Hopt).
    destruct (Z.eqb_spec (ret options) (-1)) as [_ | ?]; [| contradiction].
    assert (Hd : detach w5 = Ok tt w5) by (apply detach_not_attached; reflexivity).
    rewrite (bind_Ok_intro _ _ _ _ _ Hd).
    repeat (split; [reflexivity |]).
    cbn. apply elem_of_union_l, elem_of_singleton. reflexivity.
  - intros w' Hrun. destruct sigtrap_stop; [| discriminate].
    split; [reflexivity |].
    rewrite (bind_Ok_intro _ _ _ _ _ Hopt) in Hrun.
    destruct (Z.eqb_spec (ret options) (-1)) as [Hfail | Hok]; [| exact Hok].
    apply bind_Ok in Hrun as (u & w6 & _ & Hrun). discriminate.
  - intros -> Hok. rewrite (bind_Ok_intro _ _ _ _ _ Hopt).
    destruct (Z.eqb_spec (ret options) (-1)) as [? | _]; [contradiction |].
    unfold bind, modify, pure. rewrite sys_eq.
    eexists. split; [reflexivity |]. cbn.
    split; [reflexivity |]. split.
    + rewrite insert_empty. reflexivity.
    + apply set_eq. intros t. rewrite !elem_of_union, elem_of_singleton.
      rewrite elem_of_empty. tauto.
  - intros v v' Hpid Hthread Hrun.
    destruct (detach_attached v Hpid) as (v2 & new & Hrun2 & _ & Htrace & Hall).
    rewrite Hrun2 in Hrun. injection Hrun as <-.
    destruct (Hall child Hthread) as [r Hr].
    exists new, r. split; [exact Htrace | exact Hr].
Qed.

Lemma open_failure_does_not_detach_witness :
  open "/bin/true" "/" [] "" (initial 4096 stopped_script)
  = Ok false
      {| core := DebuggerCore_new 4096; kern := [];
         trace := [(SYS_waitpid 100 __WALL, reply 100 (W_STOPCODE SIGSTOP));
                   (SYS_fork, reply 100 0)];
         getFPXRegsSupported := None |}.
Proof.
  refine (proj1 (proj1 (open_failure_does_not_detach (initial 4096 stopped_script)
                   (initial 4096 stopped_script) "/bin/true" "/" [] "" _ _ _ _) _)).
  - vm_compute. reflexivity.
  - vm_compute. discriminate.
  - vm_compute. discriminate.
  - vm_compute. discriminate.
  - vm_compute. reflexivity.
Defined.

(** *** [detach] and [kill] *)

(** X10.  [detach] waits for the threads it stops and for the threads it
    releases, and returns once the kernel has answered.  When [detach] on an
    attached core has returned, it has asked the kernel to release every
    thread of the table (one PTRACE_DETACH each), and the core is as the
    constructor made it: no thread, nothing waited, no breakpoint, pid 0.  A
    second [detach] then does nothing. *)
Theorem detach_releases_every_thread {K : Type} `{!Kernel K} (w w' : World K) :
  pid_ (core w) <> 0 ->
  detach w = Ok tt w' ->
  core w' = DebuggerCore_new (page_size_ (core w)) /\
  (exists new,
     trace w' = new ++ trace w /\
     forall t, is_Some (threads_ (core w) !! t) ->
       exists r, (SYS_ptrace PTRACE_DETACH t 0 0, r) ∈ new) /\
  detach w' = Ok tt w'.
Proof.
  intros Hpid Hrun.
  destruct (detach_attached w Hpid) as (w2 & new & Hrun2 & Hcore & Htrace & Hall).
  rewrite Hrun2 in Hrun. injection Hrun as <-.
  split; [exact Hcore |]. split.
  - exists new. split; [exact Htrace | exact Hall].
  - apply detach_not_attached. rewrite Hcore. reflexivity.
Qed.

Lemma detach_releases_every_thread_witness :
  core detach_done = DebuggerCore_new (page_size_ (core (breakpoint_session detach_script))) /\
  (exists new,
     trace detach_done = new ++ trace (breakpoint_session detach_script) /\
     forall t, is_Some (threads_ (core (breakpoint_session detach_script)) !! t) ->
       exists r, (SYS_ptrace PTRACE_DETACH t 0 0, r) ∈ new) /\
  detach detach_done = Ok tt detach_done.
Proof.
  apply (detach_releases_every_thread (breakpoint_session detach_script) detach_done).
  - vm_compute. discriminate.
  - vm_compute. reflexivity.
Defined.

(** X11.  [kill] waits for the process it kills, and returns once the
    kernel has answered.  When [kill] on an attached core has returned, the
    trace has grown by the requests to the breakpoint manager for the
    breakpoints of the store, then PTRACE_KILL on the process, then a
    blocking wait for it, in that order and nothing else: the other threads
    of the table are dropped without a request about them.  The core is as
    the constructor made it, and a second [kill] does nothing. *)
Theorem kill_ends_the_session {K : Type} `{!Kernel K} (w w' : World K) :
  pid_ (core w) <> 0 ->
  kill w = Ok tt w' ->
  core w' = DebuggerCore_new (page_size_ (core w)) /\
  (exists r1 r2 cleared,
     trace w' = (SYS_waitpid (pid_ (core w)) __WALL, r2)
                  :: (SYS_ptrace PTRACE_KILL (pid_ (core w)) 0 0, r1)
                  :: cleared ++ trace w /\
     restores (breakpoints_ (core w)) cleared) /\
  kill w' = Ok tt w'.
Proof.
  intros Hpid Hrun.
  destruct (kill_attached w Hpid) as (w1 & cleared & Hc1 & Ht1 & Hres & Hkill).
  rewrite Hkill in Hrun. injection Hrun as <-.
  split; [| split].
  - cbn. rewrite Hc1. reflexivity.
  - eexists _, _, cleared. split; [| exact Hres].
    cbn. rewrite Ht1. reflexivity.
  - unfold kill, attached, pid, bind, get, pure. reflexivity.
Qed.

Lemma kill_ends_the_session_witness :
  core kill_done = DebuggerCore_new (page_size_ (core (breakpoint_session kill_script))) /\
  (exists r1 r2 cleared,
     trace kill_done
     = (SYS_waitpid (pid_ (core (breakpoint_session kill_script))) __WALL, r2)
         :: (SYS_ptrace PTRACE_KILL (pid_ (core (breakpoint_session kill_script))) 0 0, r1)
         :: cleared ++ trace (breakpoint_session kill_script) /\
     restores (breakpoints_ (core (breakpoint_session kill_script))) cleared) /\
  kill kill_done = Ok tt kill_done.
Proof.
  apply (kill_ends_the_session (breakpoint_session kill_script) kill_done).
  - vm_compute. discriminate.
  - vm_compute. reflexivity.
Defined.

(** ** Resuming and stepping *)

Section Resuming.

Context {K : Type} `{!Kernel K}.

(** The signal for the active thread: 0 unless the exception is passed on,
    and then the one that [resume_code] gives for the status recorded for
    the thread, whose entry is created when there is none. *)
Lemma active_code_returns st tid (w : World K) :
  exists sig w1,
    active_code st tid w = Ok sig w1 /\
    0 <= sig < 256 /\
    (st <> DEBUG_EXCEPTION_NOT_HANDLED -> sig = 0 /\ w1 = w) /\
    (st = DEBUG_EXCEPTION_NOT_HANDLED ->
     sig = resume_code (from_option status 0 (threads_ (core w) !! tid))) /\
    waited_threads_ (core w1) = waited_threads_ (core w) /\
    session_of (core w1) = session_of (core w) /\
    trace w1 = trace w /\
    (forall t info, threads_ (core w) !! t = Some info ->
                    threads_ (core w1) !! t = Some info) /\
    (forall t, t <> tid -> threads_ (core w1) !! t = threads_ (core w) !! t).
Proof.
  destruct st; cbn [active_code].
  1,2: exists 0, w; split; [reflexivity |]; split; [lia |];
       split; [auto |]; split; [discriminate |]; auto 10.
  unfold bind, modify, get, pure. eexists _, _. split; [reflexivity |].
  split; [apply resume_code_range |]. split; [congruence |].
  split.
  { intros _. cbn. unfold threads_index.
    destruct (threads_ (core w) !! tid) as [info |] eqn:Hinfo.
    - rewrite Hinfo. reflexivity.
    - rewrite lookup_insert_eq. reflexivity. }
  split; [reflexivity |]. split; [reflexivity |]. split; [reflexivity |].
  cbn. unfold threads_index. split.
  - intros t info Ht. destruct (threads_ (core w) !! tid) eqn:Hinfo; [exact Ht |].
    rewrite lookup_insert_ne by congruence. exact Ht.
  - intros t Hne. destruct (threads_ (core w) !! tid); [reflexivity |].
    apply lookup_insert_ne. congruence.
Qed.

(** The second loop of [resume] takes the threads it goes over out of the
    waited set, with one PTRACE_CONT for each that was in it. *)
Lemma for_each_resume_thread l (w : World K) :
  0 ∉ waited_threads_ (core w) ->
  exists w' new,
    for_each l resume_thread w = Ok tt w' /\
    threads_ (core w') = threads_ (core w) /\
    session_of (core w') = session_of (core w) /\
    waited_threads_ (core w') = waited_threads_ (core w) ∖ list_to_set (map fst l) /\
    trace w' = new ++ trace w /\ Forall is_cont new.
Proof.
  revert w. induction l as [| [t info] l IH]; intros w Hzero.
  - exists w, []. split; [reflexivity |]. split; [reflexivity |].
    split; [reflexivity |]. split; [cbn; set_solver |]. split; [reflexivity | constructor].
  - assert (Hone : exists w1 new1,
              resume_thread (t, info) w = Ok tt w1 /\
              threads_ (core w1) = threads_ (core w) /\
              session_of (core w1) = session_of (core w) /\
              waited_threads_ (core w1) = waited_threads_ (core w) ∖ {[t]} /\
              trace w1 = new1 ++ trace w /\ Forall is_cont new1).
    { unfold resume_thread. unfold bind at 1. unfold get at 1. cbn [fst snd].
      destruct (decide (t ∈ waited_threads_ (core w))) as [Hin | Hout].
      - rewrite bool_decide_eq_true_2 by exact Hin.
        assert (Hnz : t <> 0) by (intros ->; contradiction).
        unfold bind. rewrite (ptrace_continue_waited t _ w Hin Hnz). unfold pure.
        eexists _, [_]. split; [reflexivity |]. split; [reflexivity |].
        split; [reflexivity |]. split; [reflexivity |]. split; [reflexivity |].
        constructor; [| constructor].
        exists t, (resume_code (status info)). split; [reflexivity |].
        split; [exact Hnz | apply resume_code_range].
      - rewrite bool_decide_eq_false_2 by exact Hout.
        exists w, []. split; [reflexivity |]. split; [reflexivity |].
        split; [reflexivity |]. split; [set_solver |]. split; [reflexivity | constructor]. }
    destruct Hone as (w1 & new1 & Hrun1 & Hth1 & Hs1 & Hw1 & Ht1 & Hc1).
    destruct (IH w1) as (w2 & new2 & Hrun2 & Hth2 & Hs2 & Hw2 & Ht2 & Hc2).
    { rewrite Hw1. set_solver. }
    exists w2, (new2 ++ new1).
    split; [cbn [for_each]; rewrite (bind_Ok_intro _ _ _ _ _ Hrun1); exact Hrun2 |].
    split; [congruence |]. split; [congruence |]. split.
    + rewrite Hw2, Hw1. cbn [map fst list_to_set]. set_solver.
    + split; [rewrite Ht2, Ht1; apply app_assoc | apply Forall_app; auto].
Qed.

Lemma resume_unfold st :
  resume (K:=K) st
  = (do a <- attached;
     if a then
       match st with
       | DEBUG_STOP => pure tt
       | _ =>
           do tid <- active_thread;
           do code <- active_code st tid;
           do _ <- ptrace_continue tid code;
           do thr <- get threads_;
           for_each (map_to_list thr) resume_thread
       end
     else pure tt).
Proof. reflexivity. Qed.

Lemma keys_of_table (thr : gmap Z thread_info) :
  list_to_set (map fst (map_to_list thr)) = (dom thr : gset Z).
Proof.
  apply set_eq. intros t. rewrite elem_of_list_to_set, elem_of_dom. split.
  - intros Hin. apply list_elem_of_In, in_map_iff in Hin as ([t' info] & <- & Hin).
    apply list_elem_of_In, elem_of_map_to_list in Hin. eauto.
  - intros [info Hinfo]. apply list_elem_of_In, in_map_iff.
    exists (t, info). split; [reflexivity |].
    apply list_elem_of_In, elem_of_map_to_list. exact Hinfo.
Qed.

End Resuming.

(** X12.  [resume] with a policy other than [DEBUG_STOP], on an attached
    core whose active thread is waited: it returns, issues PTRACE_CONT
    requests only, each with a signal number below 256, and takes the
    active thread and every thread of the table out of the waited set, so
    that no thread of the table is left waited.  Since the active thread is
    no longer waited, a second [resume] right after it stops at the
    assertion of [ptrace_continue]. *)
Theorem resume_releases_the_table {K : Type} `{!Kernel K} (w : World K)
    (st : EVENT_STATUS) :
  pid_ (core w) <> 0 ->
  st <> DEBUG_STOP ->
  active_thread_ (core w) ∈ waited_threads_ (core w) ->
  0 ∉ waited_threads_ (core w) ->
  exists w' new,
    resume st w = Ok tt w' /\
    session_of (core w') = session_of (core w) /\
    waited_threads_ (core w')
    = waited_threads_ (core w)
        ∖ ({[active_thread_ (core w)]} ∪ dom (threads_ (core w'))) /\
    (forall t, is_Some (threads_ (core w') !! t) -> t ∉ waited_threads_ (core w')) /\
    trace w' = new ++ trace w /\ Forall is_cont new /\
    (forall st', st' <> DEBUG_STOP -> exists w'', resume st' w' = AssertFailed w'').
Proof.
  intros Hpid Hst Hactive Hzero.
  set (tid := active_thread_ (core w)) in *.
  assert (Hnz : tid <> 0) by (intros Heq; rewrite Heq in Hactive; contradiction).
  destruct (active_code_returns st tid w)
    as (sig & w1 & Hrun1 & Hsig & _ & _ & Hw1 & Hs1 & Ht1 & _ & _).
  assert (Hin1 : tid ∈ waited_threads_ (core w1)) by (rewrite Hw1; exact Hactive).
  pose proof (ptrace_continue_waited tid sig w1 Hin1 Hnz) as Hrun2.
  set (w2 := after_sys (with_core (with_waited (fun s => s ∖ {[tid]})) w1)
               (SYS_ptrace PTRACE_CONT tid 0 sig)) in *.
  destruct (for_each_resume_thread (map_to_list (threads_ (core w2))) w2)
    as (w3 & new3 & Hrun3 & Hth3 & Hs3 & Hw3 & Ht3 & Hc3).
  { cbn. rewrite Hw1. set_solver. }
  assert (Hrun : resume st w = Ok tt w3).
  { rewrite resume_unfold. unfold attached, pid, active_thread.
    unfold bind at 1. unfold bind at 1. unfold get at 1, pure at 1.
    destruct (Z.eqb_spec (pid_ (core w)) 0) as [? | _]; [contradiction |].
    cbn [negb].
    assert (Hbody : (do tid0 <- get active_thread_;
                     do code <- active_code st tid0;
                     do _ <- ptrace_continue tid0 code;
                     do thr <- get threads_;
                     for_each (map_to_list thr) resume_thread) w = Ok tt w3).
    { unfold bind at 1. unfold get at 1. fold tid.
      rewrite (bind_Ok_intro _ _ _ _ _ Hrun1).
      rewrite (bind_Ok_intro _ _ _ _ _ Hrun2).
      unfold bind at 1. unfold get at 1. exact Hrun3. }
    destruct st; [contradiction | exact Hbody | exact Hbody]. }
  assert (Hwaited : waited_threads_ (core w3)
                    = waited_threads_ (core w) ∖ ({[tid]} ∪ dom (threads_ (core w3)))).
  { rewrite Hw3, keys_of_table, Hth3. cbn. rewrite Hw1. set_solver. }
  assert (Hsession : session_of (core w3) = session_of (core w)).
  { rewrite Hs3. cbn. exact Hs1. }
  exists w3, (new3 ++ [(SYS_ptrace PTRACE_CONT tid 0 sig,
                        answer (with_core (with_waited (fun s => s ∖ {[tid]})) w1)
                          (SYS_ptrace PTRACE_CONT tid 0 sig))]).
  split; [exact Hrun |]. split; [exact Hsession |]. split; [exact Hwaited |].
  split; [| split; [| split]].
  - intros t Hsome. apply elem_of_dom in Hsome. rewrite Hwaited. set_solver.
  - rewrite Ht3. cbn. rewrite Ht1. rewrite <- app_assoc. reflexivity.
  - apply Forall_app. split; [exact Hc3 |]. constructor; [| constructor].
    exists tid, sig. auto.
  - intros st' Hst'.
    unfold session_of in Hsession. injection Hsession as Ha _ Hp _ _ _ _.
    destruct (active_code_returns st' (active_thread_ (core w3)) w3)
      as (sig' & w4 & Hrun4 & _ & _ & _ & Hw4 & _).
    exists w4. rewrite resume_unfold. unfold attached, pid, active_thread.
    unfold bind at 1. unfold bind at 1. unfold get at 1, pure at 1.
    rewrite Hp.
    destruct (Z.eqb_spec (pid_ (core w)) 0) as [? | _]; [contradiction |].
    cbn [negb].
    assert (Hbody : (do tid0 <- get active_thread_;
                     do code <- active_code st' tid0;
                     do _ <- ptrace_continue tid0 code;
                     do thr <- get threads_;
                     for_each (map_to_list thr) resume_thread) w3 = AssertFailed w4).
    { unfold bind at 1. unfold get at 1.
      rewrite (bind_Ok_intro _ _ _ _ _ Hrun4).
      unfold bind. rewrite ptrace_continue_not_waited; [reflexivity |].
      rewrite Hw4, Hwaited, Ha. fold tid. set_solver. }
    destruct st'; [contradiction | exact Hbody | exact Hbody].
Qed.

Lemma resume_releases_the_table_witness :
  exists w' new,
    resume DEBUG_CONTINUE breakpoint_hit = Ok tt w' /\
    session_of (core w') = session_of (core breakpoint_hit) /\
    waited_threads_ (core w')
    = waited_threads_ (core breakpoint_hit)
        ∖ ({[active_thread_ (core breakpoint_hit)]} ∪ dom (threads_ (core w'))) /\
    (forall t, is_Some (threads_ (core w') !! t) -> t ∉ waited_threads_ (core w')) /\
    trace w' = new ++ trace breakpoint_hit /\ Forall is_cont new /\
    (forall st', st' <> DEBUG_STOP -> exists w'', resume st' w' = AssertFailed w'').
Proof.
  apply (resume_releases_the_table breakpoint_hit DEBUG_CONTINUE).
  - vm_compute. discriminate.
  - discriminate.
  - apply (bool_decide_unpack _). vm_compute. exact I.
  - apply (bool_decide_unpack _). vm_compute. exact I.
Defined.

(** X13.  [step] with a policy other than [DEBUG_STOP], on an attached core
    whose active thread is waited: it returns after one request,
    PTRACE_SINGLESTEP on the active thread, with signal 0 unless the
    exception is passed on and then with the signal that [resume_code] gives
    for the recorded status; the active thread leaves the waited set, and
    every other thread stays as it was, waited or not. *)
Theorem step_moves_the_active_thread_only {K : Type} `{!Kernel K} (w : World K)
    (st : EVENT_STATUS) :
  pid_ (core w) <> 0 ->
  st <> DEBUG_STOP ->
  active_thread_ (core w) ∈ waited_threads_ (core w) ->
  active_thread_ (core w) <> 0 ->
  exists w' sig r,
    step st w = Ok tt w' /\
    trace w'
    = (SYS_ptrace PTRACE_SINGLESTEP (active_thread_ (core w)) 0 sig, r) :: trace w /\
    0 <= sig < 256 /\
    (st = DEBUG_CONTINUE -> sig = 0) /\
    (st = DEBUG_EXCEPTION_NOT_HANDLED ->
     sig = resume_code
             (from_option status 0 (threads_ (core w) !! active_thread_ (core w)))) /\
    waited_threads_ (core w')
    = waited_threads_ (core w) ∖ {[active_thread_ (core w)]} /\
    session_of (core w') = session_of (core w) /\
    (forall t info, threads_ (core w) !! t = Some info ->
                    threads_ (core w') !! t = Some info).
Proof.
  intros Hpid Hst Hactive Hnz.
  set (tid := active_thread_ (core w)) in *.
  destruct (active_code_returns st tid w)
    as (sig & w1 & Hrun1 & Hsig & Hplain & Hpassed & Hw1 & Hs1 & Ht1 & Hkeep & _).
  assert (Hin1 : tid ∈ waited_threads_ (core w1)) by (rewrite Hw1; exact Hactive).
  pose proof (ptrace_step_waited tid sig w1 Hin1 Hnz) as Hrun2.
  assert (Hbody : (do tid0 <- active_thread;
                   do code <- active_code st tid0;
                   do _ <- ptrace_step tid0 code;
                   pure tt) w
                  = Ok tt (after_sys (with_core (with_waited (fun s => s ∖ {[tid]})) w1)
                             (SYS_ptrace PTRACE_SINGLESTEP tid 0 sig))).
  { unfold active_thread. unfold bind at 1. unfold get at 1. fold tid.
    rewrite (bind_Ok_intro _ _ _ _ _ Hrun1).
    rewrite (bind_Ok_intro _ _ _ _ _ Hrun2). reflexivity. }
  eexists _, sig, _. split.
  { unfold step, attached, pid.
    unfold bind at 1. unfold bind at 1. unfold get at 1, pure at 1.
    destruct (Z.eqb_spec (pid_ (core w)) 0) as [? | _]; [contradiction |].
    cbn [negb]. destruct st; [contradiction | exact Hbody | exact Hbody]. }
  cbn. rewrite Ht1, Hw1.
  split; [reflexivity |]. split; [exact Hsig |].
  split; [intros ->; apply Hplain; discriminate |].
  split; [exact Hpassed |]. split; [reflexivity |]. split; [exact Hs1 | exact Hkeep].
Qed.

Lemma step_moves_the_active_thread_only_witness :
  exists w' sig r,
    step DEBUG_EXCEPTION_NOT_HANDLED breakpoint_hit = Ok tt w' /\
    trace w'
    = (SYS_ptrace PTRACE_SINGLESTEP (active_thread_ (core breakpoint_hit)) 0 sig, r)
        :: trace breakpoint_hit /\
    0 <= sig < 256 /\
    (DEBUG_EXCEPTION_NOT_HANDLED = DEBUG_CONTINUE -> sig = 0) /\
    (DEBUG_EXCEPTION_NOT_HANDLED = DEBUG_EXCEPTION_NOT_HANDLED ->
     sig = resume_code
             (from_option status 0
                (threads_ (core breakpoint_hit)
                   !! active_thread_ (core breakpoint_hit)))) /\
    waited_threads_ (core w')
    = waited_threads_ (core breakpoint_hit) ∖ {[active_thread_ (core breakpoint_hit)]} /\
    session_of (core w') = session_of (core breakpoint_hit) /\
    (forall t info, threads_ (core breakpoint_hit) !! t = Some info ->
                    threads_ (core w') !! t = Some info).
Proof.
  apply (step_moves_the_active_thread_only breakpoint_hit DEBUG_EXCEPTION_NOT_HANDLED).
  - vm_compute. discriminate.
  - discriminate.
  - apply (bool_decide_unpack _). vm_compute. exact I.
  - vm_compute. discriminate.
Defined.

(** ** The trace only grows *)

Section Extends.

Context {K : Type} `{!Kernel K}.

Lemma extends_same {A} (m : M K A) :
  (forall w a w', m w = Ok a w' -> trace w' = trace w) -> extends m.
Proof. intros Hm w a w' Hrun. exists []. exact (Hm _ _ _ Hrun). Qed.

Lemma extends_pure {A} (a : A) : extends (K:=K) (pure a).
Proof. apply extends_same. intros w b w' Hrun. inversion Hrun; subst; reflexivity. Qed.

Lemma extends_get {A} (f : DebuggerCore -> A) : extends (K:=K) (get f).
Proof. apply extends_same. intros w b w' Hrun. inversion Hrun; subst; reflexivity. Qed.

Lemma extends_modify f : extends (K:=K) (modify f).
Proof. apply extends_same. intros w b w' Hrun. inversion Hrun; subst; reflexivity. Qed.

Lemma extends_assert b : extends (K:=K) (Q_ASSERT b).
Proof.
  apply extends_same. intros w u w' Hrun. unfold Q_ASSERT in Hrun.
  destruct b; [| discriminate]. inversion Hrun; subst; reflexivity.
Qed.

Lemma extends_get_static : extends (K:=K) get_static.
Proof. apply extends_same. intros w b w' Hrun. inversion Hrun; subst; reflexivity. Qed.

Lemma extends_set_static b : extends (K:=K) (set_static b).
Proof. apply extends_same. intros w u w' Hrun. inversion Hrun; subst; reflexivity. Qed.

Lemma extends_sys c : extends (K:=K) (sys c).
Proof.
  intros w r w' Hrun. rewrite sys_eq in Hrun. inversion Hrun; subst.
  exists [(c, answer w c)]. reflexivity.
Qed.

Lemma extends_bind {A B} (m : M K A) (f : A -> M K B) :
  extends m -> (forall a, extends (f a)) -> extends (bind m f).
Proof.
  intros Hm Hf w b w2 Hrun.
  apply bind_Ok in Hrun as (a & w1 & Hrun1 & Hrun2).
  destruct (Hm _ _ _ Hrun1) as [new1 Ht1]. destruct (Hf a _ _ _ Hrun2) as [new2 Ht2].
  exists (new2 ++ new1). rewrite Ht2, Ht1. apply app_assoc.
Qed.

Lemma extends_for_each {A} (l : list A) (body : A -> M K unit) :
  (forall x, extends (body x)) -> extends (for_each l body).
Proof.
  intros Hbody. induction l as [| x l IH]; cbn [for_each].
  - apply extends_pure.
  - apply extends_bind; [apply Hbody | intros _; exact IH].
Qed.

End Extends.

Create HintDb extends.

#[local] Hint Resolve extends_pure extends_get extends_modify extends_assert
  extends_get_static extends_set_static extends_sys : extends.

Ltac extends_step :=
  first
    [ solve [auto with extends]
    | match goal with
      | |- extends (if ?b then _ else _) => destruct b
      | |- extends (match ?x with _ => _ end) => destruct x
      | |- extends (bind _ _) => apply extends_bind; [| intros ?]
      | |- extends (for_each _ _) => apply extends_for_each; intros ?
      | |- extends (get _) => apply extends_get
      | |- extends pid => apply extends_get
      | |- extends active_thread => apply extends_get
      end ].

Ltac extends := repeat extends_step.

Section ExtendsOfOperations.

Context {K : Type} `{!Kernel K}.

Lemma extends_ptrace_continue tid sig : extends (K:=K) (ptrace_continue tid sig).
Proof. unfold ptrace_continue. extends. Qed.

Lemma extends_ptrace_get_event_message tid :
  extends (K:=K) (ptrace_get_event_message tid).
Proof. unfold ptrace_get_event_message. extends. Qed.

Lemma extends_stop_thread tid : extends (K:=K) (stop_thread tid).
Proof. unfold stop_thread, pid. extends. Qed.

Lemma extends_stop_threads : extends (K:=K) stop_threads.
Proof. unfold stop_threads. pose proof extends_stop_thread. extends. Qed.

Lemma extends_handle_clone tid : extends (K:=K) (handle_clone tid).
Proof.
  unfold handle_clone.
  pose proof extends_ptrace_continue. pose proof extends_ptrace_get_event_message.
  extends.
Qed.

Lemma extends_handle_normal tid status : extends (K:=K) (handle_normal tid status).
Proof.
  unfold handle_normal, ptrace_getsiginfo. pose proof extends_stop_threads. extends.
Qed.

Lemma extends_handle_event tid status : extends (K:=K) (handle_event tid status).
Proof.
  unfold handle_event.
  pose proof extends_handle_clone. pose proof extends_handle_normal. extends.
Qed.

Lemma extends_poll_threads tids : extends (K:=K) (poll_threads tids).
Proof.
  induction tids as [| thread rest IH]; cbn [poll_threads]; [apply extends_pure |].
  pose proof extends_handle_event. extends.
Qed.

(** A poll that reports no thread returns no event and leaves the core as
    it is; its waits are all polling ones. *)
Lemma poll_threads_quiet tids :
  forall (w : World K) r w' new,
    poll_threads tids w = Ok r w' ->
    trace w' = new ++ trace w ->
    Forall quiet new ->
    r = None /\ core w' = core w /\ Forall polling new /\
    List.length new = List.length tids.
Proof.
  induction tids as [| thread rest IH]; intros w r w' new Hrun Ht Hq.
  - inversion Hrun; subst.
    assert (new = []) as -> by (apply (app_inv_tail (trace w')); symmetry; exact Ht).
    auto.
  - cbn [poll_threads] in Hrun. unfold bind in Hrun. rewrite sys_eq in Hrun.
    set (c := SYS_waitpid thread (Z.lor __WALL WNOHANG)) in *.
    assert (Hnew : exists new1, trace w' = new1 ++ trace (after_sys w c)).
    { destruct (0 <? ret (answer w c)).
      - exact (extends_handle_event _ _ _ _ _ Hrun).
      - exact (extends_poll_threads _ _ _ _ Hrun). }
    destruct Hnew as [new1 Ht1]. cbn [trace after_sys] in Ht1.
    assert (new = new1 ++ [(c, answer w c)]) as ->.
    { apply (app_inv_tail (trace w)). rewrite <- Ht, Ht1, <- app_assoc. reflexivity. }
    apply Forall_app in Hq as [Hq1 Hqc].
    apply Forall_cons in Hqc as [Hqc _]. unfold quiet in Hqc. cbn in Hqc.
    destruct (Z.ltb_spec 0 (ret (answer w c))) as [? | _]; [lia |].
    destruct (IH (after_sys w c) r w' new1 Hrun Ht1 Hq1) as (-> & Hcore & Hp & Hlen).
    split; [reflexivity |]. split; [exact Hcore |]. split.
    + apply Forall_app. split; [exact Hp |]. constructor; [reflexivity | constructor].
    + rewrite length_app, Hlen. cbn. lia.
Qed.

End ExtendsOfOperations.

(** X14.  A [wait_debug_event] that returns without any of its waits
    having come back with a thread reports no event and leaves the core as
    it was.  Its waits all carry WNOHANG, and it asks the kernel at most
    once per thread of the table, after waiting for SIGCHLD. *)
Theorem wait_debug_event_without_stop {K : Type} `{!Kernel K}
    (w : World K) (msecs : Z) (r : option PlatformEvent) (w' : World K)
    (new : list (Call * Reply)) :
  wait_debug_event msecs w = Ok r w' ->
  trace w' = new ++ trace w ->
  Forall quiet new ->
  r = None /\ core w' = core w /\ Forall polling new /\
  (List.length new <= 1 + size (threads_ (core w)))%nat.
Proof.
  intros Hrun Ht Hq.
  unfold wait_debug_event, attached, pid, thread_ids in Hrun.
  unfold bind at 1 in Hrun. unfold bind at 1 in Hrun.
  unfold get at 1, pure at 1 in Hrun.
  destruct (negb (pid_ (core w) =? 0)).
  2:{ inversion Hrun; subst.
      assert (new = []) as -> by (apply (app_inv_tail (trace w')); symmetry; exact Ht).
      repeat split; [constructor | cbn; lia]. }
  unfold bind at 1 in Hrun. rewrite sys_eq in Hrun.
  set (c := wait_for_sigchld msecs) in *.
  destruct (ret (answer w c) =? 0).
  2:{ inversion Hrun; subst. cbn [trace after_sys] in Ht.
      assert (new = [(c, answer w c)]) as ->
        by (apply (app_inv_tail (trace w)); rewrite <- Ht; reflexivity).
      repeat split; [repeat constructor | cbn; lia]. }
  unfold bind at 1 in Hrun. unfold bind at 1 in Hrun.
  unfold get at 1, pure at 1 in Hrun. cbn [core after_sys] in Hrun.
  destruct (extends_poll_threads _ _ _ _ Hrun) as [new1 Ht1].
  cbn [trace after_sys] in Ht1.
  assert (new = new1 ++ [(c, answer w c)]) as ->.
  { apply (app_inv_tail (trace w)). rewrite <- Ht, Ht1, <- app_assoc. reflexivity. }
  apply Forall_app in Hq as [Hq1 _].
  destruct (poll_threads_quiet _ _ _ _ _ Hrun Ht1 Hq1) as (-> & Hcore & Hp & Hlen).
  split; [reflexivity |]. split; [exact Hcore |]. split.
  - apply Forall_app. split; [exact Hp | repeat constructor].
  - rewrite length_app, Hlen, length_map, length_map_to_list. cbn. lia.
Qed.

Lemma wait_debug_event_without_stop_witness :
  wait_debug_event 100 (one_thread nothing_script)
  = Ok None (world_of (wait_debug_event 100 (one_thread nothing_script))) /\
  core (world_of (wait_debug_event 100 (one_thread nothing_script)))
  = core (one_thread nothing_script) /\
  Forall polling (trace (world_of (wait_debug_event 100 (one_thread nothing_script)))) /\
  (List.length (trace (world_of (wait_debug_event 100 (one_thread nothing_script))))
   <= 1 + size (threads_ (core (one_thread nothing_script))))%nat.
Proof.
  assert (Hrun : wait_debug_event 100 (one_thread nothing_script)
                 = Ok None (world_of (wait_debug_event 100 (one_thread nothing_script))))
    by (vm_compute; reflexivity).
  split; [exact Hrun |].
  refine (proj2 (wait_debug_event_without_stop (one_thread nothing_script) 100 None
                   (world_of (wait_debug_event 100 (one_thread nothing_script)))
                   (trace (world_of (wait_debug_event 100 (one_thread nothing_script))))
                   Hrun _ _)).
  - vm_compute. reflexivity.
  - assert (Htrace : trace (world_of (wait_debug_event 100 (one_thread nothing_script)))
                     = [(SYS_waitpid 100 (Z.lor __WALL WNOHANG), reply 0 0);
                        (wait_for_sigchld 100, reply 0 0)])
      by (vm_compute; reflexivity).
    rewrite Htrace. repeat constructor. unfold quiet. cbn. lia.
Defined.

(** ** Calls that leave the core alone *)

Section KeepsCore.

Context {K : Type} `{!Kernel K}.

Lemma keeps_core_pure {A} (a : A) : keeps_core (K:=K) (pure a).
Proof. intros w b w' Hrun. inversion Hrun; subst; reflexivity. Qed.

Lemma keeps_core_get {A} (f : DebuggerCore -> A) : keeps_core (K:=K) (get f).
Proof. intros w b w' Hrun. inversion Hrun; subst; reflexivity. Qed.

Lemma keeps_core_sys c : keeps_core (K:=K) (sys c).
Proof. intros w b w' Hrun. rewrite sys_eq in Hrun. inversion Hrun; subst; reflexivity. Qed.

Lemma keeps_core_assert b : keeps_core (K:=K) (Q_ASSERT b).
Proof.
  intros w u w' Hrun. unfold Q_ASSERT in Hrun. destruct b; [| discriminate].
  inversion Hrun; subst; reflexivity.
Qed.

Lemma keeps_core_get_static : keeps_core (K:=K) get_static.
Proof. intros w b w' Hrun. inversion Hrun; subst; reflexivity. Qed.

Lemma keeps_core_set_static b : keeps_core (K:=K) (set_static b).
Proof. intros w u w' Hrun. inversion Hrun; subst; reflexivity. Qed.

Lemma keeps_core_bind {A B} (m : M K A) (f : A -> M K B) :
  keeps_core m -> (forall a, keeps_core (f a)) -> keeps_core (bind m f).
Proof.
  intros Hm Hf w b w2 Hrun.
  apply bind_Ok in Hrun as (a & w1 & Hrun1 & Hrun2).
  rewrite (Hf a _ _ _ Hrun2). exact (Hm _ _ _ Hrun1).
Qed.

End KeepsCore.

Create HintDb keeps_core.

#[local] Hint Resolve keeps_core_pure keeps_core_get keeps_core_sys keeps_core_assert
  keeps_core_get_static keeps_core_set_static : keeps_core.

Ltac keeps_core_step :=
  first
    [ solve [auto with keeps_core]
    | match goal with
      | |- keeps_core (if ?b then _ else _) => destruct b
      | |- keeps_core (match ?x with _ => _ end) => destruct x
      | |- keeps_core (bind _ _) => apply keeps_core_bind; [| intros ?]
      | |- keeps_core (get _) => apply keeps_core_get
      | |- keeps_core pid => apply keeps_core_get
      | |- keeps_core active_thread => apply keeps_core_get
      end ].

Ltac keeps_core := repeat keeps_core_step.

Section KeepsCoreOfOperations.

Context {K : Type} `{!Kernel K}.

Lemma keeps_core_ptrace_set_options tid options :
  keeps_core (K:=K) (ptrace_set_options tid options).
Proof. unfold ptrace_set_options. keeps_core. Qed.

Lemma keeps_core_pause : keeps_core (K:=K) pause.
Proof. unfold pause, attached. keeps_core. Qed.

Lemma keeps_core_set_active_thread tid : keeps_core (K:=K) (set_active_thread tid).
Proof. unfold set_active_thread. keeps_core. Qed.

Lemma keeps_core_get_state a cleared : keeps_core (K:=K) (get_state a cleared).
Proof.
  unfold get_state, attached, get_gp_state, get_fp_state, peek_debugreg.
  keeps_core.
Qed.

Lemma keeps_core_read_pages a address buf count :
  keeps_core (K:=K) (read_pages a address buf count).
Proof. unfold read_pages. keeps_core. Qed.

End KeepsCoreOfOperations.

(** ** The event that is reported *)

Section Provenance.

Context {K : Type} `{!Kernel K}.

(** Stopping a thread leaves the records of the waited threads alone. *)
Lemma stop_thread_keeps_waited tid (w w' : World K) :
  stop_thread tid w = Ok tt w' ->
  waited_threads_ (core w) ⊆ waited_threads_ (core w') /\
  forall t, t ∈ waited_threads_ (core w) ->
            threads_ (core w') !! t = threads_ (core w) !! t.
Proof.
  unfold stop_thread, pid, bind, get.
  destruct (decide (tid ∈ waited_threads_ (core w))) as [Hin | Hout].
  - rewrite bool_decide_eq_true_2 by assumption. cbn [negb].
    intros Hrun. inversion Hrun; subst. auto.
  - rewrite bool_decide_eq_false_2 by assumption. cbn [negb].
    rewrite sys_eq. rewrite sys_eq.
    destruct (0 <? ret _); intros Hrun; inversion Hrun; subst; cbn.
    + split; [set_solver |]. intros t Ht. unfold set_status.
      apply lookup_alter_ne. intros ->. contradiction.
    + auto.
Qed.

Lemma for_each_stop_thread_keeps_waited l :
  forall (w w' : World K),
    for_each l stop_thread w = Ok tt w' ->
    waited_threads_ (core w) ⊆ waited_threads_ (core w') /\
    forall t, t ∈ waited_threads_ (core w) ->
              threads_ (core w') !! t = threads_ (core w) !! t.
Proof.
  induction l as [| tid l IH]; intros w w' Hrun.
  - inversion Hrun; subst. auto.
  - cbn [for_each] in Hrun. apply bind_Ok in Hrun as ([] & w1 & Hrun1 & Hrun2).
    apply stop_thread_keeps_waited in Hrun1 as [Hsub1 Hkeep1].
    apply IH in Hrun2 as [Hsub2 Hkeep2].
    split; [set_solver |].
    intros t Ht. rewrite Hkeep2 by set_solver. apply Hkeep1, Ht.
Qed.

Lemma stop_threads_keeps_waited (w w' : World K) :
  stop_threads w = Ok tt w' ->
  waited_threads_ (core w) ⊆ waited_threads_ (core w') /\
  forall t, t ∈ waited_threads_ (core w) ->
            threads_ (core w') !! t = threads_ (core w) !! t.
Proof.
  unfold stop_threads. intros Hrun.
  apply bind_Ok in Hrun as (thr & w1 & Hget & Hrun).
  inversion Hget; subst. exact (for_each_stop_thread_keeps_waited _ _ _ Hrun).
Qed.

(** A normal event: the event that is returned, and what the core records
    of it. *)
Lemma handle_normal_event tid wstatus (w : World K) :
  exists w',
    handle_normal tid wstatus w = Ok (Some (event_of w tid wstatus)) w' /\
    pid_ (core w') = pid_ (core w) /\
    active_thread_ (core w') = tid /\
    event_thread_ (core w') = tid /\
    (tid ∈ waited_threads_ (core w) ->
     tid ∈ waited_threads_ (core w') /\
     exists info, threads_ (core w') !! tid = Some info /\ status info = wstatus).
Proof.
  unfold handle_normal, pid, ptrace_getsiginfo.
  unfold bind at 1. unfold get at 1.
  unfold bind at 1. rewrite sys_eq.
  set (w1 := after_sys w (SYS_ptrace PTRACE_GETSIGINFO tid 0 0)).
  unfold bind at 1. rewrite modify_eq.
  unfold bind at 1. rewrite modify_eq.
  unfold bind at 1. rewrite modify_eq.
  set (w2 := with_core _ (with_core _ (with_core _ w1))).
  destruct (stop_threads_frame w2) as (w' & Hrun & Hs & _).
  destruct (stop_threads_keeps_waited w2 w' Hrun) as [Hsub Hkeep].
  exists w'. unfold bind. rewrite Hrun. unfold pure.
  unfold session_of in Hs. injection Hs as Ha He Hp _ _ _ _.
  split; [reflexivity |]. split; [exact Hp |]. split; [exact Ha |].
  split; [exact He |].
  intros Hin. split; [apply Hsub, Hin |].
  rewrite (Hkeep tid Hin). subst w2. cbn.
  unfold threads_index_set_status.
  destruct (threads_ (core w) !! tid); rewrite lookup_insert_eq; eauto.
Qed.

(** What [handle_event] reports when it reports an event. *)
Lemma handle_event_reports tid wstatus (w : World K) e w' :
  handle_event tid wstatus w = Ok (Some e) w' ->
  pid_e e = pid_ (core w) /\ tid_e e = tid /\ status_e e = wstatus /\
  is_clone_event wstatus = false /\
  pid_ (core w') = pid_ (core w) /\
  active_thread_ (core w') = tid /\ event_thread_ (core w') = tid /\
  (WIFEXITED wstatus = false ->
   tid ∈ waited_threads_ (core w') /\
   exists info, threads_ (core w') !! tid = Some info /\ status info = wstatus).
Proof.
  intros Hrun.
  destruct (WIFEXITED wstatus) eqn:Hex.
  - destruct (decide (delete tid (threads_ (core w)) = ∅)) as [He | Hne].
    + rewrite handle_event_exit_last in Hrun by assumption.
      destruct (handle_normal_event tid wstatus (with_core (exit_branch tid) w))
        as (w1 & Hrun1 & Hp & Ha & Hev & _).
      rewrite Hrun1 in Hrun. injection Hrun as <- <-.
      repeat split; try assumption; try reflexivity.
      * apply WIFEXITED_not_clone, Hex.
      * discriminate.
      * discriminate.
    + rewrite handle_event_exit_absorbed in Hrun by assumption. discriminate.
  - destruct (is_clone_event wstatus) eqn:Hcl.
    + rewrite handle_event_clone in Hrun by assumption.
      apply handle_clone_no_event in Hrun. discriminate.
    + rewrite handle_event_normal in Hrun by assumption.
      destruct (handle_normal_event tid wstatus (with_core (mark_waited tid) w))
        as (w1 & Hrun1 & Hp & Ha & Hev & Hrec).
      rewrite Hrun1 in Hrun. injection Hrun as <- <-.
      split; [reflexivity |]. split; [reflexivity |]. split; [reflexivity |].
      split; [reflexivity |]. split; [exact Hp |]. split; [exact Ha |].
      split; [exact Hev |].
      intros _. apply Hrec. cbn. set_solver.
Qed.

Lemma poll_threads_reports tids :
  forall (w : World K) e w',
    poll_threads tids w = Ok (Some e) w' ->
    pid_e e = pid_ (core w) /\
    is_clone_event (status_e e) = false /\
    pid_ (core w') = pid_ (core w) /\
    active_thread_ (core w') = tid_e e /\ event_thread_ (core w') = tid_e e /\
    (WIFEXITED (status_e e) = false ->
     tid_e e ∈ waited_threads_ (core w') /\
     exists info, threads_ (core w') !! tid_e e = Some info /\
                  status info = status_e e) /\
    exists t r new,
      t ∈ tids /\ trace w' = new ++ trace w /\
      (SYS_waitpid t (Z.lor __WALL WNOHANG), r) ∈ new /\
      0 < ret r /\ tid_e e = ret r /\ status_e e = out r.
Proof.
  induction tids as [| thread rest IH]; intros w e w' Hrun; [discriminate |].
  cbn [poll_threads] in Hrun. unfold bind in Hrun. rewrite sys_eq in Hrun.
  set (c := SYS_waitpid thread (Z.lor __WALL WNOHANG)) in *.
  destruct (Z.ltb_spec 0 (ret (answer w c))) as [Hpos | _].
  - destruct (extends_handle_event _ _ _ _ _ Hrun) as [new1 Ht1].
    apply handle_event_reports in Hrun
      as (Hpid & Htid & Hst & Hcl & Hp & Ha & Hev & Hrec).
    rewrite Htid, Hst.
    repeat (split; [assumption |]).
    exists thread, (answer w c), (new1 ++ [(c, answer w c)]).
    split; [left |]. split; [rewrite Ht1, <- app_assoc; reflexivity |].
    split; [| auto].
    apply elem_of_app. right. apply list_elem_of_singleton. reflexivity.
  - destruct (IH _ _ _ Hrun)
      as (Hpid & Hcl & Hp & Ha & Hev & Hrec & t & r & new1 & Hin & Ht1 & Hmem & Hrest).
    repeat (split; [assumption |]).
    exists t, r, (new1 ++ [(c, answer w c)]).
    split; [right; exact Hin |]. split; [rewrite Ht1, <- app_assoc; reflexivity |].
    split; [| exact Hrest].
    apply elem_of_app. left. exact Hmem.
Qed.

End Provenance.

(** X15.  The event that [wait_debug_event] returns is the answer of one of
    its polling waits, on a thread of the table: the thread and the status
    are those of that answer, the pid is the one of the session.  It is
    never a clone event.  The thread becomes both the active and the event
    thread; and unless the status is an exit, the thread is marked waited
    and the status is recorded in its entry of the table. *)
Theorem reported_event_is_a_wait_answer {K : Type} `{!Kernel K}
    (w : World K) (msecs : Z) (e : PlatformEvent) (w' : World K) :
  wait_debug_event msecs w = Ok (Some e) w' ->
  pid_ (core w) <> 0 /\ pid_e e = pid_ (core w) /\ pid_ (core w') = pid_ (core w) /\
  is_clone_event (status_e e) = false /\
  active_thread_ (core w') = tid_e e /\ event_thread_ (core w') = tid_e e /\
  (WIFEXITED (status_e e) = false ->
   tid_e e ∈ waited_threads_ (core w') /\
   exists info, threads_ (core w') !! tid_e e = Some info /\
                status info = status_e e) /\
  exists t r new,
    is_Some (threads_ (core w) !! t) /\ trace w' = new ++ trace w /\
    (SYS_waitpid t (Z.lor __WALL WNOHANG), r) ∈ new /\
    0 < ret r /\ tid_e e = ret r /\ status_e e = out r.
Proof.
  intros Hrun.
  unfold wait_debug_event, attached, pid, thread_ids in Hrun.
  unfold bind at 1 in Hrun. unfold bind at 1 in Hrun.
  unfold get at 1, pure at 1 in Hrun.
  destruct (Z.eqb_spec (pid_ (core w)) 0) as [? | Hpid]; [discriminate |].
  cbn [negb] in Hrun.
  unfold bind at 1 in Hrun. rewrite sys_eq in Hrun.
  set (c := wait_for_sigchld msecs) in *.
  destruct (ret (answer w c) =? 0); [| discriminate].
  unfold bind at 1 in Hrun. unfold bind at 1 in Hrun.
  unfold get at 1, pure at 1 in Hrun. cbn [core after_sys] in Hrun.
  apply poll_threads_reports in Hrun
    as (He & Hcl & Hp & Ha & Hev & Hrec & t & r & new1 & Hin & Ht1 & Hmem & Hrest).
  split; [exact Hpid |]. repeat (split; [assumption |]).
  exists t, r, (new1 ++ [(c, answer w c)]).
  split; [| split; [| split; [| exact Hrest]]].
  - apply list_elem_of_In, in_map_iff in Hin as ([t' info] & <- & Hin).
    apply list_elem_of_In, elem_of_map_to_list in Hin. cbn. eauto.
  - rewrite Ht1. cbn. rewrite <- app_assoc. reflexivity.
  - apply elem_of_app. left. exact Hmem.
Qed.

Lemma reported_event_is_a_wait_answer_witness :
  wait_debug_event 0 (two_threads breakpoint_script)
  = Ok (Some {| pid_e := 100; tid_e := 101; status_e := W_STOPCODE SIGTRAP;
                siginfo_e := Some 0 |}) breakpoint_hit /\
  pid_ (core (two_threads breakpoint_script)) <> 0 /\
  100 = pid_ (core (two_threads breakpoint_script)) /\
  pid_ (core breakpoint_hit) = pid_ (core (two_threads breakpoint_script)) /\
  is_clone_event (W_STOPCODE SIGTRAP) = false /\
  active_thread_ (core breakpoint_hit) = 101 /\
  event_thread_ (core breakpoint_hit) = 101 /\
  (WIFEXITED (W_STOPCODE SIGTRAP) = false ->
   101 ∈ waited_threads_ (core breakpoint_hit) /\
   exists info, threads_ (core breakpoint_hit) !! 101 = Some info /\
                status info = W_STOPCODE SIGTRAP) /\
  exists t r new,
    is_Some (threads_ (core (two_threads breakpoint_script)) !! t) /\
    trace breakpoint_hit = new ++ trace (two_threads breakpoint_script) /\
    (SYS_waitpid t (Z.lor __WALL WNOHANG), r) ∈ new /\
    0 < ret r /\ 101 = ret r /\ W_STOPCODE SIGTRAP = out r.
Proof.
  assert (Hrun : wait_debug_event 0 (two_threads breakpoint_script)
                 = Ok (Some {| pid_e := 100; tid_e := 101;
                               status_e := W_STOPCODE SIGTRAP;
                               siginfo_e := Some 0 |}) breakpoint_hit)
    by (vm_compute; reflexivity).
  split; [exact Hrun |].
  exact (reported_event_is_a_wait_answer _ _ _ _ Hrun).
Defined.

(** ** What holds between the calls *)

Section SessionInvariant.

Context {K : Type} `{!Kernel K}.

Lemma session_inv_detached c :
  threads_ c = ∅ -> active_thread_ c = 0 -> event_thread_ c = 0 -> session_inv c.
Proof.
  intros Hthr Ha He. split; [congruence |]. split; [auto |].
  intros _ t [info Hinfo]. rewrite Hthr, lookup_empty in Hinfo. discriminate.
Qed.

Lemma session_inv_attached c :
  pid_ c <> 0 -> active_thread_ c = event_thread_ c -> session_inv c.
Proof. intros Hpid Hae. split; [exact Hae |]. split; intros ?; contradiction. Qed.

(** A call that only touches the tables, and nothing at all when the core
    is not attached, keeps the invariant. *)
Lemma session_inv_frames {A} (m : M K A) (w : World K) a w' :
  frames m ->
  (pid_ (core w) = 0 -> core w' = core w) ->
  session_inv (core w) -> m w = Ok a w' -> session_inv (core w').
Proof.
  intros Hframes Hinert Hinv Hrun.
  destruct (decide (pid_ (core w) = 0)) as [Hpid | Hpid].
  - rewrite (Hinert Hpid). exact Hinv.
  - pose proof (Hframes _ _ _ Hrun) as Hs.
    unfold session_of in Hs. injection Hs as Ha He Hp _ _ _ _.
    apply session_inv_attached; [congruence |].
    destruct Hinv as [Hae _]. congruence.
Qed.

Lemma detach_session (w w1 : World K) :
  detach w = Ok tt w1 -> session_inv (core w) ->
  session_inv (core w1) /\ pid_ (core w1) = 0.
Proof.
  intros Hrun Hinv.
  destruct (decide (pid_ (core w) = 0)) as [Hpid | Hpid].
  - rewrite detach_not_attached in Hrun by exact Hpid.
    injection Hrun as <-. auto.
  - destruct (detach_attached w Hpid) as (w2 & new & Hrun2 & Hcore & _).
    rewrite Hrun2 in Hrun. injection Hrun as <-. rewrite Hcore.
    split; [apply session_inv_detached |]; reflexivity.
Qed.

Lemma kill_session (w w1 : World K) :
  kill w = Ok tt w1 -> session_inv (core w) -> session_inv (core w1).
Proof.
  intros Hrun Hinv.
  destruct (decide (pid_ (core w) = 0)) as [Hpid | Hpid].
  - unfold kill, attached, pid, bind, get, pure in Hrun.
    rewrite Hpid in Hrun. injection Hrun as <-. exact Hinv.
  - destruct (kill_attached w Hpid) as (w2 & cleared & _ & _ & _ & Hkill).
    rewrite Hkill in Hrun. injection Hrun as <-.
    apply session_inv_detached; reflexivity.
Qed.

(** *** Attaching keeps every thread of the table waited *)

Lemma attach_thread_all_stopped tid (w : World K) b w' :
  attach_thread tid w = Ok b w' ->
  all_stopped (core w) -> all_stopped (core w').
Proof.
  unfold attach_thread. intros Hrun Hall.
  apply bind_Ok in Hrun as (r & w1 & Hsys & Hrun).
  rewrite sys_eq in Hsys. injection Hsys as <- <-.
  destruct (ret _ =? 0); [| injection Hrun as _ <-; exact Hall].
  apply bind_Ok in Hrun as (r2 & w2 & Hsys & Hrun).
  rewrite sys_eq in Hsys. injection Hsys as <- <-.
  apply bind_Ok in Hrun as ([] & w3 & Hbody & Hrun).
  injection Hrun as _ <-.
  destruct (0 <? ret _); [| injection Hbody as <-; exact Hall].
  apply bind_Ok in Hbody as ([] & w4 & Hm1 & Hbody).
  rewrite modify_eq in Hm1. injection Hm1 as <-.
  apply bind_Ok in Hbody as ([] & w5 & Hm2 & Hbody).
  rewrite modify_eq in Hm2. injection Hm2 as <-.
  apply bind_Ok in Hbody as (o & w6 & Hopt & Hbody).
  injection Hbody as <-.
  rewrite (keeps_core_ptrace_set_options _ _ _ _ _ Hopt).
  unfold all_stopped. cbn. intros t Hsome.
  destruct (decide (t = tid)) as [-> | Hne]; [set_solver |].
  rewrite lookup_insert_ne in Hsome by congruence.
  apply elem_of_union_r, Hall, Hsome.
Qed.

Lemma attach_pass_all_stopped entries :
  forall attached (w : World K) b w',
    attach_pass entries attached w = Ok b w' ->
    all_stopped (core w) -> all_stopped (core w').
Proof.
  induction entries as [| s rest IH]; intros attached w b w' Hrun Hall.
  - injection Hrun as _ <-. exact Hall.
  - cbn [attach_pass] in Hrun. cbv zeta in Hrun.
    apply bind_Ok in Hrun as (thr & w1 & Hget & Hrun).
    injection Hget as _ <-.
    destruct (negb _).
    + apply bind_Ok in Hrun as (b1 & w2 & Hat & Hrun).
      exact (IH _ _ _ _ Hrun (attach_thread_all_stopped _ _ _ _ Hat Hall)).
    + exact (IH _ _ _ _ Hrun Hall).
Qed.

Lemma attach_sweep_all_stopped fuel pid :
  forall (w : World K) b w',
    attach_sweep fuel pid w = Ok b w' ->
    all_stopped (core w) -> all_stopped (core w').
Proof.
  induction fuel as [| fuel IH]; intros w b w' Hrun Hall.
  - injection Hrun as _ <-. exact Hall.
  - cbn [attach_sweep] in Hrun.
    apply bind_Ok in Hrun as (dir & w1 & Hsys & Hrun).
    rewrite sys_eq in Hsys. injection Hsys as <- <-.
    apply bind_Ok in Hrun as (attached & w2 & Hpass & Hrun).
    pose proof (attach_pass_all_stopped _ _ _ _ _ Hpass Hall) as Hall2.
    destruct attached.
    + exact (IH _ _ _ Hrun Hall2).
    + injection Hrun as _ <-. exact Hall2.
Qed.

(** What [attach] leaves, from a core that is not attached any more. *)
Lemma attach_after_detach fuel p (w1 : World K) r w' :
  (do finished <- attach_sweep fuel p;
   if finished then
     do thr <- get threads_;
     if negb (bool_decide (thr = ∅)) then
       modify (with_pid p) ;;
       modify (with_active_thread p) ;;
       modify (with_event_thread p) ;;
       do b <- sys get_binary_info;
       modify (with_binary_info (ret b)) ;;
       modify (with_process p) ;;
       pure (Some true)
     else pure (Some false)
   else pure None) w1 = Ok r w' ->
  all_stopped (core w1) ->
  all_stopped (core w') /\
  match r with
  | Some true =>
      pid_ (core w') = p /\ active_thread_ (core w') = p /\
      event_thread_ (core w') = p /\ threads_ (core w') <> ∅
  | Some false =>
      threads_ (core w') = ∅ /\ session_of (core w') = session_of (core w1)
  | None => session_of (core w') = session_of (core w1)
  end.
Proof.
  intros Hrun Hall.
  apply bind_Ok in Hrun as (finished & w2 & Hsweep & Hrun).
  pose proof (attach_sweep_all_stopped _ _ _ _ _ Hsweep Hall) as Hall2.
  pose proof (frames_attach_sweep _ _ _ _ _ Hsweep) as Hs2.
  destruct finished; [| injection Hrun as <- <-; auto].
  apply bind_Ok in Hrun as (thr & w3 & Hget & Hrun).
  injection Hget as <- <-.
  destruct (decide (threads_ (core w2) = ∅)) as [He | Hne].
  - rewrite bool_decide_eq_true_2 in Hrun by exact He.
    injection Hrun as <- <-. auto.
  - rewrite bool_decide_eq_false_2 in Hrun by exact Hne. cbn [negb] in Hrun.
    unfold bind, modify, pure in Hrun. rewrite sys_eq in Hrun.
    injection Hrun as <- <-. cbn. auto.
Qed.

Lemma attach_session fuel p (w : World K) r w' :
  attach fuel p w = Ok r w' -> session_inv (core w) -> session_inv (core w').
Proof.
  unfold attach. intros Hrun Hinv.
  apply bind_Ok in Hrun as ([] & w1 & Hdetach & Hrun).
  destruct (detach_session _ _ Hdetach Hinv) as [(Hae & Ha0 & Hall) Hpid].
  destruct (attach_after_detach _ _ _ _ _ Hrun (Hall Hpid)) as [Hall' Hres].
  destruct r as [[|] |].
  - destruct Hres as (Hp & Ha & He & _).
    split; [congruence |]. split; [congruence | auto].
  - destruct Hres as [_ Hs]. unfold session_of in Hs.
    injection Hs as Ha He Hp _ _ _ _.
    split; [congruence |]. split; [intros _; rewrite Ha; auto | auto].
  - unfold session_of in Hres. injection Hres as Ha He Hp _ _ _ _.
    split; [congruence |]. split; [intros _; rewrite Ha; auto | auto].
Qed.

Lemma open_session path cwd args tty (w : World K) b w' :
  open path cwd args tty w = Ok b w' -> session_inv (core w').
Proof.
  unfold open. intros Hrun.
  apply bind_Ok in Hrun as ([] & w1 & _ & Hrun).
  apply bind_Ok in Hrun as (child & w2 & Hfork & Hrun).
  rewrite sys_eq in Hfork. injection Hfork as <- <-. cbv zeta in Hrun.
  destruct (Z.eqb_spec (ret (answer w1 SYS_fork)) 0) as [_ | Hchild].
  { apply bind_Ok in Hrun as (? & ? & _ & Hrun). discriminate. }
  destruct (ret (answer w1 SYS_fork) =? -1).
  { apply bind_Ok in Hrun as ([] & w3 & Hreset & Hrun).
    rewrite reset_eq in Hreset. injection Hreset as <-. injection Hrun as _ <-.
    apply session_inv_detached; reflexivity. }
  apply bind_Ok in Hrun as ([] & w3 & Hreset & Hrun).
  rewrite reset_eq in Hreset. injection Hreset as <-.
  apply bind_Ok in Hrun as (r & w4 & Hwait & Hrun).
  rewrite sys_eq in Hwait. injection Hwait as <- <-.
  destruct (ret _ =? -1).
  { injection Hrun as _ <-. apply session_inv_detached; reflexivity. }
  destruct (negb _ || negb _).
  { apply bind_Ok in Hrun as ([] & w5 & Hdetach & Hrun).
    rewrite detach_not_attached in Hdetach by reflexivity.
    injection Hdetach as <-. injection Hrun as _ <-.
    apply session_inv_detached; reflexivity. }
  apply bind_Ok in Hrun as ([] & w5 & Hmod & Hrun).
  rewrite modify_eq in Hmod. injection Hmod as <-.
  apply bind_Ok in Hrun as (o & w6 & Hopt & Hrun).
  pose proof (keeps_core_ptrace_set_options _ _ _ _ _ Hopt) as Hcore.
  destruct (o =? -1).
  { apply bind_Ok in Hrun as ([] & w7 & Hdetach & Hrun).
    rewrite detach_not_attached in Hdetach by (rewrite Hcore; reflexivity).
    injection Hdetach as <-. injection Hrun as _ <-.
    apply session_inv_detached; rewrite Hcore; reflexivity. }
  unfold bind, modify, pure in Hrun. rewrite sys_eq in Hrun.
  injection Hrun as _ <-.
  apply session_inv_attached; [exact Hchild | reflexivity].
Qed.

(** *** Events *)

Lemma handle_event_session tid wstatus (w : World K) r w' :
  handle_event tid wstatus w = Ok r w' ->
  pid_ (core w') = pid_ (core w) /\
  (active_thread_ (core w) = event_thread_ (core w) ->
   active_thread_ (core w') = event_thread_ (core w')).
Proof.
  intros Hrun.
  assert (Hnormal : forall w0,
            pid_ (core w0) = pid_ (core w) ->
            handle_normal tid wstatus w0 = Ok r w' ->
            pid_ (core w') = pid_ (core w) /\
            (active_thread_ (core w) = event_thread_ (core w) ->
             active_thread_ (core w') = event_thread_ (core w'))).
  { intros w0 Hp0 Hn.
    destruct (handle_normal_event tid wstatus w0) as (w1 & Hrun1 & Hp & Ha & He & _).
    rewrite Hrun1 in Hn. injection Hn as _ <-. split; congruence. }
  destruct (WIFEXITED wstatus) eqn:Hex.
  - destruct (decide (delete tid (threads_ (core w)) = ∅)) as [He | Hne].
    + rewrite handle_event_exit_last in Hrun by assumption.
      exact (Hnormal (with_core (exit_branch tid) w) eq_refl Hrun).
    + rewrite handle_event_exit_absorbed in Hrun by assumption.
      injection Hrun as _ <-. auto.
  - destruct (is_clone_event wstatus) eqn:Hcl.
    + rewrite handle_event_clone in Hrun by assumption.
      pose proof (frames_handle_clone _ _ _ _ Hrun) as Hs.
      unfold session_of in Hs. injection Hs as Ha He Hp _ _ _ _.
      cbn in *. split; congruence.
    + rewrite handle_event_normal in Hrun by assumption.
      exact (Hnormal (with_core (mark_waited tid) w) eq_refl Hrun).
Qed.

Lemma poll_threads_session tids :
  forall (w : World K) r w',
    poll_threads tids w = Ok r w' ->
    pid_ (core w') = pid_ (core w) /\
    (active_thread_ (core w) = event_thread_ (core w) ->
     active_thread_ (core w') = event_thread_ (core w')).
Proof.
  induction tids as [| thread rest IH]; intros w r w' Hrun.
  - injection Hrun as _ <-. auto.
  - cbn [poll_threads] in Hrun. unfold bind in Hrun. rewrite sys_eq in Hrun.
    destruct (0 <? ret _).
    + exact (handle_event_session _ _ _ _ _ Hrun).
    + exact (IH _ _ _ Hrun).
Qed.

Lemma wait_debug_event_session msecs (w : World K) r w' :
  wait_debug_event msecs w = Ok r w' ->
  session_inv (core w) -> session_inv (core w').
Proof.
  unfold wait_debug_event, attached, pid, thread_ids. intros Hrun Hinv.
  unfold bind at 1 in Hrun. unfold bind at 1 in Hrun.
  unfold get at 1, pure at 1 in Hrun.
  destruct (Z.eqb_spec (pid_ (core w)) 0) as [_ | Hpid]; cbn [negb] in Hrun.
  { injection Hrun as _ <-. exact Hinv. }
  unfold bind at 1 in Hrun. rewrite sys_eq in Hrun.
  destruct (ret _ =? 0); [| injection Hrun as _ <-; exact Hinv].
  unfold bind at 1 in Hrun. unfold bind at 1 in Hrun.
  unfold get at 1, pure at 1 in Hrun.
  apply poll_threads_session in Hrun as [Hp Hae]. cbn in Hp, Hae.
  apply session_inv_attached; [congruence |].
  apply Hae. destruct Hinv as [H1 _]. exact H1.
Qed.

(** Every call of the public interface keeps the invariant. *)
Lemma run_call_session c (w w' : World K) :
  session_inv (core w) -> run_call c w = Ok tt w' -> session_inv (core w').
Proof.
  intros Hinv Hrun. destruct c; cbn [run_call] in Hrun.
  - apply bind_Ok in Hrun as (r & w1 & Hrun & Hpure). injection Hpure as <-.
    exact (attach_session _ _ _ _ _ Hrun Hinv).
  - apply bind_Ok in Hrun as (r & w1 & Hrun & Hpure). injection Hpure as <-.
    exact (open_session _ _ _ _ _ _ _ Hrun).
  - exact (proj1 (detach_session _ _ Hrun Hinv)).
  - exact (kill_session _ _ Hrun Hinv).
  - rewrite (keeps_core_pause _ _ _ Hrun). exact Hinv.
  - refine (session_inv_frames _ _ _ _ (frames_resume st) _ Hinv Hrun).
    intros Hpid. revert Hrun. unfold resume, attached, pid, bind, get, pure.
    rewrite Hpid. cbn. intros [= <-]. reflexivity.
  - refine (session_inv_frames _ _ _ _ (frames_step st) _ Hinv Hrun).
    intros Hpid. revert Hrun. unfold step, attached, pid, bind, get, pure.
    rewrite Hpid. cbn. intros [= <-]. reflexivity.
  - apply bind_Ok in Hrun as (r & w1 & Hrun & Hpure). injection Hpure as <-.
    exact (wait_debug_event_session _ _ _ _ Hrun Hinv).
  - rewrite (keeps_core_set_active_thread _ _ _ _ Hrun). exact Hinv.
  - apply bind_Ok in Hrun as (r & w1 & Hrun & Hpure). injection Hpure as <-.
    rewrite (keeps_core_get_state _ _ _ _ _ Hrun). exact Hinv.
  - apply bind_Ok in Hrun as (r & w1 & Hrun & Hpure). injection Hpure as <-.
    rewrite (keeps_core_read_pages _ _ _ _ _ _ _ Hrun). exact Hinv.
Qed.

End SessionInvariant.

(** X16.  In every state that calls of the public interface lead to from a
    freshly constructed core, the active thread and the event thread are
    the same thread; and while the core is not attached, the active thread
    is 0 and every thread left in the table is waited.  (The two members
    are only ever set together, [set_active_thread] changing nothing.) *)
Theorem active_thread_is_the_event_thread {K : Type} `{!Kernel K} (w : World K) :
  reachable w ->
  active_thread_ (core w) = event_thread_ (core w) /\
  (pid_ (core w) = 0 -> active_thread_ (core w) = 0) /\
  (pid_ (core w) = 0 ->
   forall t, is_Some (threads_ (core w) !! t) -> t ∈ waited_threads_ (core w)).
Proof.
  intros Hreach. change (session_inv (core w)).
  induction Hreach as [page_size k | w c w' _ IH Hrun].
  - apply session_inv_detached; reflexivity.
  - exact (run_call_session c w w' IH Hrun).
Qed.

Lemma active_thread_is_the_event_thread_witness :
  active_thread_ (core true_running) = event_thread_ (core true_running) /\
  (pid_ (core true_running) = 0 -> active_thread_ (core true_running) = 0) /\
  (pid_ (core true_running) = 0 ->
   forall t, is_Some (threads_ (core true_running) !! t) ->
             t ∈ waited_threads_ (core true_running)).
Proof.
  exact (active_thread_is_the_event_thread true_running true_running_reachable).
Defined.

(** X17.  [attach], on a core in which every thread left in the table is
    waited unless a session is on: whatever it returns, every thread of the
    table is waited afterwards.  When it returns true the session is on the
    pid asked for, which is also the active and the event thread, and the
    table is not empty; when it returns false the table is empty and the
    core is not attached. *)
Theorem attach_leaves_every_thread_waited {K : Type} `{!Kernel K}
    (fuel : nat) (p : Z) (w : World K) (r : option bool) (w' : World K) :
  (pid_ (core w) = 0 -> all_stopped (core w)) ->
  attach fuel p w = Ok r w' ->
  all_stopped (core w') /\
  match r with
  | Some true =>
      pid_ (core w') = p /\ active_thread_ (core w') = p /\
      event_thread_ (core w') = p /\ threads_ (core w') <> ∅
  | Some false => threads_ (core w') = ∅ /\ pid_ (core w') = 0
  | None => pid_ (core w') = 0
  end.
Proof.
  intros Hinv Hrun. unfold attach in Hrun.
  apply bind_Ok in Hrun as ([] & w1 & Hdetach & Hrun).
  assert (Hw1 : all_stopped (core w1) /\ pid_ (core w1) = 0).
  { destruct (decide (pid_ (core w) = 0)) as [Hpid | Hpid].
    - rewrite detach_not_attached in Hdetach by exact Hpid.
      injection Hdetach as <-. auto.
    - destruct (detach_attached w Hpid) as (w2 & new & Hrun2 & Hcore & _).
      rewrite Hrun2 in Hdetach. injection Hdetach as <-. rewrite Hcore.
      split; [| reflexivity].
      intros t [info Hinfo]. cbn in Hinfo. rewrite lookup_empty in Hinfo.
      discriminate. }
  destruct Hw1 as [Hall1 Hpid1].
  destruct (attach_after_detach _ _ _ _ _ Hrun Hall1) as [Hall' Hres].
  split; [exact Hall' |].
  destruct r as [[|] |]; [exact Hres | |].
  - destruct Hres as [Hthr Hs]. unfold session_of in Hs.
    injection Hs as _ _ Hp _ _ _ _. split; [exact Hthr | congruence].
  - unfold session_of in Hres. injection Hres as _ _ Hp _ _ _ _. congruence.
Qed.

Lemma attach_leaves_every_thread_waited_witness :
  attach 2 100 (initial 4096 attach_script) = Ok (Some true) attached_world /\
  all_stopped (core attached_world) /\
  pid_ (core attached_world) = 100 /\ active_thread_ (core attached_world) = 100 /\
  event_thread_ (core attached_world) = 100 /\ threads_ (core attached_world) <> ∅.
Proof.
  assert (Hrun : attach 2 100 (initial 4096 attach_script)
                 = Ok (Some true) attached_world)
    by (vm_compute; reflexivity).
  split; [exact Hrun |].
  refine (attach_leaves_every_thread_waited 2 100 (initial 4096 attach_script)
            (Some true) attached_world _ Hrun).
  intros _ t [info Hinfo]. cbn in Hinfo. rewrite lookup_empty in Hinfo. discriminate.
Defined.

(** ** The static of [get_state] *)

Section StaticOfGetState.

Context {K : Type} `{!Kernel K}.

Variable a : Arch.

Lemma fpx_quiet_pure {A} (x : A) (Q : A -> Prop) :
  Q x -> fpx_quiet (K:=K) a (pure x) Q.
Proof.
  intros HQ w Hoff. exists x, w, []. split; [reflexivity |]. split; [exact HQ |].
  split; [exact Hoff |]. split; [reflexivity | constructor].
Qed.

Lemma fpx_quiet_bind {A B} (m : M K A) (f : A -> M K B) Q R :
  fpx_quiet a m Q -> (forall x, Q x -> fpx_quiet a (f x) R) ->
  fpx_quiet a (bind m f) R.
Proof.
  intros Hm Hf w Hoff.
  destruct (Hm w Hoff) as (x & w1 & new1 & Hrun1 & HQ & Hoff1 & Ht1 & Hn1).
  destruct (Hf x HQ w1 Hoff1) as (y & w2 & new2 & Hrun2 & HR & Hoff2 & Ht2 & Hn2).
  exists y, w2, (new2 ++ new1). rewrite (bind_Ok_intro _ _ _ _ _ Hrun1).
  split; [exact Hrun2 |]. split; [exact HR |]. split; [exact Hoff2 |].
  split; [rewrite Ht2, Ht1; apply app_assoc | apply Forall_app; auto].
Qed.

Lemma fpx_quiet_active_thread : fpx_quiet (K:=K) a active_thread (fun _ => True).
Proof.
  intros w Hoff. exists (active_thread_ (core w)), w, [].
  split; [reflexivity |]. split; [exact I |]. split; [exact Hoff |].
  split; [reflexivity | constructor].
Qed.

Lemma fpx_quiet_sys c :
  no_fpx_request (c, failure) -> fpx_quiet (K:=K) a (sys c) (fun _ => True).
Proof.
  intros Hc w Hoff. exists (answer w c), (after_sys w c), [(c, answer w c)].
  split; [apply sys_eq |]. split; [exact I |]. split; [exact Hoff |].
  split; [reflexivity |]. constructor; [exact Hc | constructor].
Qed.

Lemma fpx_quiet_get_static :
  fpx_quiet (K:=K) a get_static
    (fun s => from_option id (IS_X86_32_BIT a) s = false).
Proof.
  intros w Hoff. exists (getFPXRegsSupported w), w, [].
  split; [reflexivity |]. split; [exact Hoff |]. split; [exact Hoff |].
  split; [reflexivity | constructor].
Qed.

Lemma fpx_quiet_set_static_false :
  fpx_quiet (K:=K) a (set_static false) (fun _ => True).
Proof.
  intros w Hoff. eexists tt, _, []. split; [reflexivity |]. split; [exact I |].
  split; [reflexivity |]. split; [reflexivity | constructor].
Qed.

Lemma fpx_quiet_peek_debugreg i :
  fpx_quiet (K:=K) a (peek_debugreg a i) (fun _ => True).
Proof.
  unfold peek_debugreg.
  eapply fpx_quiet_bind; [apply fpx_quiet_active_thread |]. intros t _.
  eapply fpx_quiet_bind; [apply fpx_quiet_sys; exact I |]. intros r _.
  apply fpx_quiet_pure. exact I.
Qed.

Lemma fpx_quiet_get_gp_state st :
  fpx_quiet (K:=K) a (get_gp_state a st)
    (fun st' => fpxregs_x86 st' = fpxregs_x86 st).
Proof.
  unfold get_gp_state.
  eapply fpx_quiet_bind; [apply fpx_quiet_active_thread |]. intros t _.
  eapply fpx_quiet_bind; [apply fpx_quiet_sys; exact I |]. intros r _.
  destruct (negb (ret r =? -1)); [| apply fpx_quiet_pure; reflexivity].
  eapply fpx_quiet_bind with (Q := fun _ => True);
    [| intros; apply fpx_quiet_pure; reflexivity].
  destruct (IS_X86_32_BIT a); [| apply fpx_quiet_pure; exact I].
  eapply fpx_quiet_bind; [apply fpx_quiet_sys; exact I |]. intros fs _.
  eapply fpx_quiet_bind; [apply fpx_quiet_sys; exact I |]. intros gs _.
  apply fpx_quiet_pure. exact I.
Qed.

Lemma fpx_quiet_get_fp_state st :
  fpx_quiet (K:=K) a (get_fp_state a st)
    (fun st' => fpxregs_x86 st' = fpxregs_x86 st).
Proof.
  unfold get_fp_state.
  eapply fpx_quiet_bind; [apply fpx_quiet_active_thread |]. intros t _.
  eapply fpx_quiet_bind; [apply fpx_quiet_sys; exact I |]. intros x _.
  destruct (negb (ret x =? -1)); [apply fpx_quiet_pure; reflexivity |].
  eapply fpx_quiet_bind; [apply fpx_quiet_get_static |]. intros s Hs.
  cbv beta in Hs. cbv zeta. rewrite Hs.
  eapply fpx_quiet_bind; [apply fpx_quiet_set_static_false |]. intros _ _.
  eapply fpx_quiet_bind with (Q := fun fpx => fpx = None);
    [apply fpx_quiet_pure; reflexivity |].
  intros fpx ->.
  eapply fpx_quiet_bind; [apply fpx_quiet_sys; exact I |]. intros r _.
  apply fpx_quiet_pure. reflexivity.
Qed.

End StaticOfGetState.

(** X18.  Once PTRACE_GETFPXREGS is off, because a request for it failed
    and the static of [get_state] recorded it, or because the build is a
    64-bit one and the static is still to be initialised, it stays off:
    [get_state] returns without that request, whatever thread is active and
    whatever session is on, and fills no FPX registers. *)
Theorem get_state_never_retries_fpxregs {K : Type} `{!Kernel K}
    (a : Arch) (cleared : PlatformState) (w : World K) :
  fpx_off a w ->
  exists st w' new,
    get_state a cleared w = Ok st w' /\
    fpx_off a w' /\
    trace w' = new ++ trace w /\ Forall no_fpx_request new /\
    fpxregs_x86 st = fpxregs_x86 cleared.
Proof.
  intros Hoff.
  assert (Hquiet : fpx_quiet a (get_state a cleared)
                     (fun st => fpxregs_x86 st = fpxregs_x86 cleared)).
  { unfold get_state, attached, pid.
    eapply fpx_quiet_bind with (Q := fun _ => True).
    { intros w0 Hoff0. eexists _, w0, []. split; [reflexivity |].
      split; [exact I |]. split; [exact Hoff0 |]. split; [reflexivity | constructor]. }
    intros att _. destruct att; [| apply fpx_quiet_pure; reflexivity].
    eapply fpx_quiet_bind; [apply fpx_quiet_get_gp_state |]. intros st1 H1.
    eapply fpx_quiet_bind; [apply fpx_quiet_get_fp_state |]. intros st2 H2.
    do 6 (eapply fpx_quiet_bind; [apply fpx_quiet_peek_debugreg |]; intros ? _).
    apply fpx_quiet_pure. cbn. congruence. }
  destruct (Hquiet w Hoff) as (st & w' & new & Hrun & HQ & Hoff' & Ht & Hn).
  exists st, w', new. auto.
Qed.

Lemma get_state_never_retries_fpxregs_witness :
  getFPXRegsSupported (one_thread ([] : list Reply)) = None /\
  (exists before after,
     trace fpx_failed
     = before ++ (SYS_ptrace PTRACE_GETFPXREGS 100 0 0, failure) :: after) /\
  getFPXRegsSupported fpx_failed = Some false /\
  exists st w' new,
    get_state EDB_X86 blank_state fpx_failed = Ok st w' /\
    fpx_off EDB_X86 w' /\
    trace w' = new ++ trace fpx_failed /\ Forall no_fpx_request new /\
    fpxregs_x86 st = fpxregs_x86 blank_state.
Proof.
  split; [reflexivity |].
  split; [eexists [_; _; _; _; _; _; _], _; vm_compute; reflexivity |].
  split; [vm_compute; reflexivity |].
  apply (get_state_never_retries_fpxregs EDB_X86 blank_state fpx_failed).
  vm_compute. reflexivity.
Defined.

(** ** The buffer of [read_pages] *)

(** X19.  When [/proc/<pid>/mem] opens and the read delivers [n] bytes, with
    [address + n] an address: the buffer that [read_pages] hands back holds,
    at each offset below [n], the original byte of the breakpoint at that
    address if there is one and the byte read otherwise; from offset [n] on
    it is as it was given. *)
Theorem read_pages_buffer_contents {K : Type} `{!Kernel K}
    (a : Arch) (w : World K) (address : Z) (buf : list Z) (count : Z) :
  0 <= address ->
  let len := (count * page_size_ (core w)) mod 2 ^ size_t_bits a in
  let opened := answer w (FILE_open_mem (pid_ (core w))) in
  let w1 := after_sys w (FILE_open_mem (pid_ (core w))) in
  let r := answer w1 (FILE_read address len) in
  let data := take (Z.to_nat len) (bytes r) in
  let n := Z.of_nat (List.length data) in
  ret opened <> 0 ->
  0 <= ret r ->
  (a = EDB_X86_64 -> address + n < 2 ^ 64) ->
  exists buf',
    read_pages a address buf count w
    = Ok (true, buf') (after_sys w1 (FILE_read address len)) /\
    forall i : nat,
      buf' !! i
      = if Z.of_nat i <? n then
          match breakpoints_ (core w) !! (address + Z.of_nat i) with
          | Some ob => Some ob
          | None => data !! i
          end
        else buf !! i.
Proof.
  intros Haddr len opened w1 r data n Hopen Hread Hfit.
  unfold read_pages.
  unfold bind at 1. unfold get at 1. fold len.
  unfold bind at 1. unfold get at 1.
  unfold bind at 1. rewrite sys_eq. fold opened w1.
  destruct (Z.eqb_spec (ret opened) 0) as [? | _]; [contradiction |].
  cbn [negb]. unfold bind at 1. rewrite sys_eq. fold r.
  destruct (Z.ltb_spec (ret r) 0) as [? | _]; [lia |].
  unfold bind at 1. unfold get at 1. unfold pure.
  eexists. split; [reflexivity |].
  intros i. fold data. fold n.
  assert (Hn : 0 <= n) by (subst n; lia).
  assert (Hwindow : forall addr,
            in_window a address n addr = true <-> address <= addr < address + n)
    by (intros addr; apply in_window_exact; assumption).
  destruct (Z.ltb_spec (Z.of_nat i) n) as [Hin | Hout].
  - destruct (breakpoints_ (core w) !! (address + Z.of_nat i)) as [ob |] eqn:Hbp.
    + replace i with (Z.to_nat (address + Z.of_nat i - address)) at 1 by lia.
      apply foldl_overlay_hit.
      * apply NoDup_fst_map_to_list.
      * apply elem_of_map_to_list. exact Hbp.
      * apply Hwindow. lia.
      * rewrite length_app. subst n. lia.
    + rewrite foldl_overlay_other.
      * apply lookup_app_l. subst n. lia.
      * intros [addr ob] Hmem Hwin Heq. cbn [fst] in *.
        apply Hwindow in Hwin. apply elem_of_map_to_list in Hmem.
        change (breakpoints_ (core w) !! addr = Some ob) in Hmem.
        replace (address + Z.of_nat i) with addr in Hbp by lia. congruence.
  - rewrite foldl_overlay_other.
    + rewrite lookup_app_r by (subst n; lia).
      rewrite lookup_drop. f_equal. subst n. lia.
    + intros [addr ob] _ Hwin Heq. cbn [fst] in *.
      apply Hwindow in Hwin. lia.
Qed.

Lemma read_pages_buffer_contents_witness :
  exists buf',
    read_pages EDB_X86_64 0x401000 [0; 0; 0; 0; 0; 0; 0; 0; 7; 7] 1
      (breakpoint_session page_script)
    = Ok (true, buf')
         (after_sys (after_sys (breakpoint_session page_script) (FILE_open_mem 100))
                    (FILE_read 0x401000 8)) /\
    forall i : nat,
      buf' !! i
      = if Z.of_nat i <? 8 then
          match breakpoints_ (core (breakpoint_session page_script))
                  !! (0x401000 + Z.of_nat i) with
          | Some ob => Some ob
          | None => [0x48; 0x89; 0xe5; 0x90; 0x90; 0xCC; 0x48; 0x89] !! i
          end
        else [0; 0; 0; 0; 0; 0; 0; 0; 7; 7] !! i.
Proof.
  refine (read_pages_buffer_contents EDB_X86_64 (breakpoint_session page_script)
            0x401000 [0; 0; 0; 0; 0; 0; 0; 0; 7; 7] 1 _ _ _ _).
  - lia.
  - vm_compute. discriminate.
  - vm_compute. discriminate.
  - intros _. vm_compute. reflexivity.
Defined.

(** X20.  [read_pages] answers true even when nothing is read.  When
    [/proc/<pid>/mem] does not open, it asks for nothing else and hands the
    buffer back as it was given; and so it does when the file opens and the
    read fails, at any address but 0 of a 64-bit build, where [address + n]
    with [n = -1] wraps around. *)
Theorem read_pages_succeeds_without_reading {K : Type} `{!Kernel K}
    (a : Arch) (w : World K) (address : Z) (buf : list Z) (count : Z) :
  let len := (count * page_size_ (core w)) mod 2 ^ size_t_bits a in
  let opened := answer w (FILE_open_mem (pid_ (core w))) in
  let w1 := after_sys w (FILE_open_mem (pid_ (core w))) in
  let r := answer w1 (FILE_read address len) in
  (ret opened = 0 ->
   read_pages a address buf count w = Ok (true, buf) w1) /\
  (ret opened <> 0 -> ret r < 0 ->
   (a = EDB_X86_64 -> 0 < address <= 2 ^ 64) ->
   read_pages a address buf count w
   = Ok (true, buf) (after_sys w1 (FILE_read address len))).
Proof.
  intros len opened w1 r.
  assert (Hstart : read_pages a address buf count w
                   = if negb (ret opened =? 0) then
                       (do r <- sys (FILE_read address len);
                        let data := if ret r <? 0 then []
                                    else take (Z.to_nat len) (bytes r) in
                        let n := if ret r <? 0 then -1
                                 else Z.of_nat (List.length data) in
                        do bps <- get breakpoints_;
                        pure (true, foldl (overlay_one a address n)
                                      (data ++ drop (List.length data) buf)
                                      (map_to_list bps))) w1
                     else Ok (true, buf) w1).
  { unfold read_pages.
    unfold bind at 1. unfold get at 1. fold len.
    unfold bind at 1. unfold get at 1.
    unfold bind at 1. rewrite sys_eq. fold opened w1.
    destruct (negb (ret opened =? 0)); reflexivity. }
  rewrite Hstart. split.
  - intros ->. reflexivity.
  - intros Hopen Hread Hfit.
    destruct (Z.eqb_spec (ret opened) 0) as [? | _]; [contradiction |].
    cbn [negb]. unfold bind at 1. rewrite sys_eq. fold r.
    destruct (Z.ltb_spec (ret r) 0) as [_ | ?]; [| lia].
    unfold bind, get, pure. cbn [app List.length drop]. do 2 f_equal.
    assert (Hnone : forall l buf0, foldl (overlay_one a address (-1)) buf0 l = buf0).
    { induction l as [| bp l IH]; intros buf0; [reflexivity |].
      cbn [foldl]. rewrite IH. unfold overlay_one.
      assert (Hempty : (address <=? bp.1) && (bp.1 <? address_plus a address (-1))
                       = false).
      { apply andb_false_iff.
        destruct (Z.leb_spec address bp.1) as [Hle | _]; [right | left; reflexivity].
        apply Z.ltb_ge. unfold address_plus. destruct a; [lia |].
        specialize (Hfit eq_refl). rewrite Z.mod_small by lia. lia. }
      rewrite Hempty. reflexivity. }
    apply Hnone.
Qed.

Lemma read_pages_succeeds_without_reading_witness :
  read_pages EDB_X86_64 0x401000 [1; 2; 3] 1 (breakpoint_session closed_script)
  = Ok (true, [1; 2; 3])
       (after_sys (breakpoint_session closed_script) (FILE_open_mem 100)).
Proof.
  refine (proj1 (read_pages_succeeds_without_reading EDB_X86_64
                   (breakpoint_session closed_script) 0x401000 [1; 2; 3] 1) _).
  vm_compute. reflexivity.
Defined.

(** ** Printing addresses *)

Section Pointers.

Import Format.

Local Open Scope string_scope.

Lemma length_zeros k : String.length (zeros k) = k.
Proof. induction k as [| k IH]; [reflexivity |]. cbn. rewrite IH. reflexivity. Qed.

Lemma length_string_app (s t : string) :
  String.length (s ++ t) = (String.length s + String.length t)%nat.
Proof.
  induction s as [| c s IH]; [reflexivity |].
  change (S (String.length (s ++ t)) = S (String.length s + String.length t)).
  rewrite IH. reflexivity.
Qed.

Lemma read_hex_zeros k s : read_hex (zeros k ++ s) = read_hex s.
Proof.
  induction k as [| k IH]; [reflexivity |].
  change (zeros (S k) ++ s) with (String "0" (zeros k ++ s)).
  unfold read_hex in *. cbn [HexadecimalString.NilEmpty.uint_of_string].
  destruct (HexadecimalString.NilEmpty.uint_of_string (zeros k ++ s)) as [d |];
    destruct (HexadecimalString.NilEmpty.uint_of_string s) as [d' |];
    cbn in *; try congruence.
  exact IH.
Qed.

Lemma length_string_of_uint d :
  String.length (HexadecimalString.NilEmpty.string_of_uint d)
  = Hexadecimal.nb_digits d.
Proof. induction d; cbn; congruence. Qed.

Lemma hex_digits n :
  N.to_hex_uint n <> Hexadecimal.Nil /\
  hex n = HexadecimalString.NilEmpty.string_of_uint (N.to_hex_uint n).
Proof.
  assert (Hnil : N.to_hex_uint n <> Hexadecimal.Nil).
  { destruct n as [| p]; [discriminate | apply HexadecimalPos.Unsigned.to_uint_nonnil]. }
  split; [exact Hnil |]. unfold hex.
  destruct (N.to_hex_uint n); [contradiction | reflexivity ..].
Qed.

Lemma read_hex_hex n : read_hex (hex n) = Some n.
Proof.
  destruct (hex_digits n) as [_ ->]. unfold read_hex.
  rewrite HexadecimalString.NilEmpty.usu. cbn [option_map].
  rewrite HexadecimalN.Unsigned.of_to. reflexivity.
Qed.

(** The digits read so far weigh at least as much as sixteen to the
    number of digits to come. *)
Lemma of_hex_uint_acc_lower l :
  forall acc,
    (N.pos acc * 16 ^ N.of_nat (Hexadecimal.nb_digits l)
     <= N.pos (Pos.of_hex_uint_acc l acc))%N.
Proof.
  induction l; intros acc; cbn [Hexadecimal.nb_digits Pos.of_hex_uint_acc];
    [rewrite N.pow_0_r; lia | ..];
    rewrite Nat2N.inj_succ, N.pow_succ_r';
    match goal with
    | |- (_ <= N.pos (Pos.of_hex_uint_acc _ ?acc'))%N =>
        specialize (IHl acc');
        set (P := (16 ^ N.of_nat (Hexadecimal.nb_digits l))%N) in *;
        nia
    end.
Qed.

Lemma nzhead_not_zero l u : Hexadecimal.nzhead l <> Hexadecimal.D0 u.
Proof. induction l; cbn; try discriminate. exact IHl. Qed.

(** A number below sixteen to the [k] has at most [k] digits. *)
Lemma hex_length n k :
  (0 < k)%nat -> (n < 16 ^ N.of_nat k)%N -> (String.length (hex n) <= k)%nat.
Proof.
  intros Hk Hn. destruct (hex_digits n) as [_ ->].
  rewrite length_string_of_uint.
  destruct n as [| p]; [cbn; lia |].
  set (d := N.to_hex_uint (N.pos p)) in *.
  assert (Hnorm : Hexadecimal.unorm d = d).
  { unfold d. rewrite <- HexadecimalN.Unsigned.to_of.
    rewrite HexadecimalN.Unsigned.of_to. reflexivity. }
  assert (Hvalue : N.of_hex_uint d = N.pos p)
    by apply HexadecimalN.Unsigned.of_to.
  assert (Hzero : d <> Hexadecimal.zero)
    by apply HexadecimalPos.Unsigned.to_uint_nonzero.
  assert (Hlower : forall l acc,
            N.pos (Pos.of_hex_uint_acc l acc) = N.pos p ->
            (S (Hexadecimal.nb_digits l) <= k)%nat).
  { intros l acc Heq. pose proof (of_hex_uint_acc_lower l acc) as Hlow.
    rewrite Heq in Hlow.
    destruct (Nat.le_gt_cases (S (Hexadecimal.nb_digits l)) k) as [? | Hgt]; [assumption |].
    exfalso.
    assert (16 ^ N.of_nat k <= 16 ^ N.of_nat (Hexadecimal.nb_digits l))%N
      by (apply N.pow_le_mono_r; lia).
    nia. }
  clearbody d. unfold N.of_hex_uint in Hvalue.
  destruct d; cbn [Pos.of_hex_uint Hexadecimal.nb_digits] in *;
    try discriminate; try (eapply Hlower; exact Hvalue).
  exfalso. unfold Hexadecimal.unorm in Hnorm. cbn [Hexadecimal.nzhead] in Hnorm.
  pose proof (nzhead_not_zero d) as Hhead.
  destruct (Hexadecimal.nzhead d) eqn:Hd; try discriminate.
  - injection Hnorm as <-. apply Hzero. reflexivity.
  - exact (Hhead _ eq_refl).
Qed.

End Pointers.

(** X21.  [format_pointer] gives exactly 8 characters in a 32-bit build and
    16 in a 64-bit one, and they are the address in lower-case hexadecimal
    with zeros in front: read back, they give the address, as far as it
    fits the width of [edb::address_t]. *)
Theorem format_pointer_is_fixed_width_hex (a : Arch) (address : Z) :
  String.length (Format.format_pointer a address)
  = (if IS_X86_32_BIT a then 8 else 16)%nat /\
  read_hex (Format.format_pointer a address)
  = Some (Z.to_N (address mod 2 ^ Format.address_bits a)).
Proof.
  unfold Format.format_pointer, Format.zero_padded. split.
  - rewrite length_string_app, length_zeros.
    assert (Hlen : (String.length
                      (Format.hex (Z.to_N (address mod 2 ^ Format.address_bits a)))
                    <= if IS_X86_32_BIT a then 8 else 16)%nat).
    { unfold Format.address_bits.
      destruct (IS_X86_32_BIT a); apply hex_length; try lia.
      - pose proof (Z.mod_pos_bound address (2 ^ 32) ltac:(lia)). lia.
      - pose proof (Z.mod_pos_bound address (2 ^ 64) ltac:(lia)). lia. }
    lia.
  - rewrite read_hex_zeros. apply read_hex_hex.
Qed.

(** ** Loaded modules *)

Section LoadedModules.

Import Modules.

Local Open Scope string_scope.

Lemma existsb_name name (found : list string) :
  existsb (String.eqb name) found = true <-> name ∈ found.
Proof.
  rewrite existsb_exists. split.
  - intros (x & Hin & Heq). apply String.eqb_eq in Heq. subst x.
    apply list_elem_of_In, Hin.
  - intros Hin. exists name. split; [apply list_elem_of_In, Hin | apply String.eqb_refl].
Qed.

(** What the fallback loop has after the regions [rs]. *)
Lemma fallback_fold rs :
  let acc := foldl fallback_region ([], []) rs in
  (forall name, name ∈ acc.2 <-> exists m, m ∈ acc.1 /\ module_name m = name) /\
  NoDup (map module_name acc.1) /\
  (forall r, r ∈ rs -> startsWith_slash (region_name r) = true ->
             region_name r ∈ acc.2) /\
  (forall m, m ∈ acc.1 <-> first_region rs m).
Proof.
  induction rs as [| r rs IH] using rev_ind.
  - cbn. split; [| split; [constructor | split]].
    + intros name. split; [intros H; inversion H | intros (m & H & _); inversion H].
    + intros r H. inversion H.
    + intros m. split; [intros H; inversion H |].
      intros (i & r & Hi & _). rewrite lookup_nil in Hi. discriminate.
  - cbn zeta in *. rewrite foldl_app. cbn [foldl].
    destruct (foldl fallback_region ([], []) rs) as [ret found].
    cbn [fst snd] in IH. destruct IH as (Hfound & Hnodup & Hseen & Hret).
    assert (Hold : forall m, first_region rs m -> first_region (rs ++ [r]) m).
    { intros m (i & r0 & Hi & Hslash & Hm & Hfirst).
      pose proof (lookup_lt_Some _ _ _ Hi) as Hlt.
      exists i, r0. split; [rewrite lookup_app_l by exact Hlt; exact Hi |].
      split; [exact Hslash |]. split; [exact Hm |].
      intros j r' Hj Hr'. rewrite lookup_app_l in Hr' by lia. eauto. }
    assert (Hnew : forall m, first_region (rs ++ [r]) m ->
              first_region rs m \/
              (startsWith_slash (region_name r) = true /\
               m = {| module_name := region_name r;
                      module_base_address := region_start r |} /\
               forall r', r' ∈ rs -> region_name r' <> region_name r)).
    { intros m (i & r0 & Hi & Hslash & Hm & Hfirst).
      destruct (Nat.lt_ge_cases i (List.length rs)) as [Hlt | Hge].
      - left. rewrite lookup_app_l in Hi by exact Hlt.
        exists i, r0. split; [exact Hi |]. split; [exact Hslash |].
        split; [exact Hm |].
        intros j r' Hj Hr'. apply (Hfirst j r' Hj).
        rewrite lookup_app_l by lia. exact Hr'.
      - right. rewrite lookup_app_r in Hi by exact Hge.
        destruct (i - List.length rs)%nat as [| ?] eqn:Hidx; [| discriminate].
        injection Hi as <-. split; [exact Hslash |]. split; [exact Hm |].
        intros r' Hin. apply list_elem_of_lookup in Hin as [j Hj].
        pose proof (lookup_lt_Some _ _ _ Hj) as Hlt.
        apply (Hfirst j r'); [lia |]. rewrite lookup_app_l by exact Hlt. exact Hj. }
    assert (Hseen_old : forall r0 : Region, r0 ∈ (rs ++ [r])%list ->
              startsWith_slash (region_name r0) = true ->
              region_name r0 ∈ found \/ r0 = r).
    { intros r0 Hin Hslash. apply elem_of_app in Hin as [Hin | Hin].
      - left. exact (Hseen r0 Hin Hslash).
      - right. apply list_elem_of_singleton in Hin. exact Hin. }
    unfold fallback_region.
    destruct (startsWith_slash (region_name r)) eqn:Hslash.
    + destruct (existsb (String.eqb (region_name r)) found) eqn:Hex; cbn [negb fst snd].
      * apply existsb_name in Hex.
        split; [exact Hfound |]. split; [exact Hnodup |]. split.
        -- intros r0 Hin Hs. destruct (Hseen_old r0 Hin Hs) as [? | ->]; assumption.
        -- intros m. split; [intros Hm; apply Hold, Hret, Hm |].
           intros Hm. destruct (Hnew m Hm) as [Hm' | (_ & _ & Hfresh)];
             [apply Hret, Hm' |].
           exfalso. apply Hfound in Hex as (m' & Hin' & Hname').
           apply Hret in Hin' as (i & r' & Hi & _ & -> & _).
           apply (Hfresh r'); [apply list_elem_of_lookup; eauto | exact Hname'].
      * assert (Hfresh : region_name r ∉ found).
        { intros Hin. apply existsb_name in Hin. congruence. }
        split; [| split; [| split]].
        -- intros name. rewrite elem_of_cons. split.
           ++ intros [-> | Hin].
              ** eexists. split; [apply elem_of_app; right; left |]. reflexivity.
              ** apply Hfound in Hin as (m & Hm & Hname).
                 exists m. split; [apply elem_of_app; left; exact Hm | exact Hname].
           ++ intros (m & Hm & Hname). apply elem_of_app in Hm as [Hm | Hm].
              ** right. apply Hfound. eauto.
              ** left. apply list_elem_of_singleton in Hm. subst m. symmetry. exact Hname.
        -- rewrite map_app. cbn [map module_name]. apply NoDup_app.
           split; [exact Hnodup |]. split; [| apply NoDup_singleton].
           intros name Hin Hin'. apply list_elem_of_singleton in Hin'. subst name.
           apply Hfresh, Hfound.
           apply list_elem_of_In, in_map_iff in Hin as (m & Hname & Hm).
           exists m. split; [apply list_elem_of_In, Hm | exact Hname].
        -- intros r0 Hin Hs. apply elem_of_cons.
           destruct (Hseen_old r0 Hin Hs) as [? | ->]; auto.
        -- intros m. rewrite elem_of_app, list_elem_of_singleton. split.
           ++ intros [Hm | ->]; [apply Hold, Hret, Hm |].
              exists (List.length rs), r.
              split; [rewrite lookup_app_r by lia; rewrite Nat.sub_diag; reflexivity |].
              split; [exact Hslash |]. split; [reflexivity |].
              intros j r' Hj Hr' Hname. rewrite lookup_app_l in Hr' by exact Hj.
              apply Hfresh. rewrite <- Hname. apply (Hseen r').
              ** apply list_elem_of_lookup. eauto.
              ** assert (Hs : startsWith_slash (region_name r') = true)
                   by (rewrite Hname; exact Hslash).
                 exact Hs.
           ++ intros Hm. destruct (Hnew m Hm) as [Hm' | (_ & -> & _)];
                [left; apply Hret, Hm' | right; reflexivity].
    + cbn [fst snd].
      split; [exact Hfound |]. split; [exact Hnodup |]. split.
      * intros r0 Hin Hs. destruct (Hseen_old r0 Hin Hs) as [? | ->];
          [assumption | congruence].
      * intros m. split; [intros Hm; apply Hold, Hret, Hm |].
        intros Hm. destruct (Hnew m Hm) as [Hm' | (Hs & _)];
          [apply Hret, Hm' | congruence].
Qed.

(** The walk of the link map adds modules with a base other than 0, and
    more fuel does not change what it finds. *)
Lemma walk_adds fuel t :
  forall link ret ms,
    walk fuel t link ret = Some ms ->
    (exists more, ms = (ret ++ more)%list /\
                  Forall (fun m => module_base_address m <> 0) more) /\
    forall fuel', (fuel <= fuel')%nat -> walk fuel' t link ret = Some ms.
Proof.
  induction fuel as [| fuel IH]; intros link ret ms Hwalk; [discriminate |].
  cbn [walk] in Hwalk.
  assert (Hdone : forall fuel', (S fuel <= fuel')%nat ->
            (link =? 0)%Z = true \/ read_link_map t link = None ->
            Some ret = Some ms -> walk fuel' t link ret = Some ms).
  { intros fuel' Hle Hstop Heq. destruct fuel' as [| fuel']; [lia |].
    cbn [walk]. destruct Hstop as [-> | Hnone]; [exact Heq |].
    rewrite Hnone. destruct (link =? 0)%Z; exact Heq. }
  destruct (link =? 0)%Z eqn:Hlink.
  { split; [| intros fuel' Hle; apply Hdone; auto].
    injection Hwalk as <-. exists []. split; [symmetry; apply app_nil_r | constructor]. }
  destruct (read_link_map t link) as [map |] eqn:Hmap.
  2:{ split; [| intros fuel' Hle; apply Hdone; auto].
      injection Hwalk as <-. exists []. split; [symmetry; apply app_nil_r | constructor]. }
  cbv zeta in Hwalk. apply IH in Hwalk as [(more & -> & Hmore) Hfuel].
  split.
  - destruct (Z.eqb_spec (l_addr map) 0) as [_ | Hbase]; cbn [negb].
    + exists more. auto.
    + eexists (_ :: more). split; [rewrite <- app_assoc; reflexivity |].
      constructor; [exact Hbase | exact Hmore].
  - intros fuel' Hle. destruct fuel' as [| fuel']; [lia |].
    cbn [walk]. rewrite Hlink, Hmap. cbv zeta. apply Hfuel. lia.
Qed.

End LoadedModules.

(** X22.  The fallback of [loaded_modules] lists each absolute path once:
    the modules it gives are the regions whose name starts with [/], one
    for every such name, with the start of the first region of that name
    as the base address. *)
Theorem fallback_lists_each_path_once (rs : list Modules.Region) :
  NoDup (map Modules.module_name (Modules.fallback rs)) /\
  forall m, m ∈ Modules.fallback rs <-> first_region rs m.
Proof.
  pose proof (fallback_fold rs) as H. cbn zeta in H.
  destruct H as (_ & Hnodup & _ & Hret). split; assumption.
Qed.

(** X23.  What [loaded_modules] returns is the fallback list, or else a
    list that is not empty, taken from the link map of a process with a
    binary-info object and a debug pointer, in which no module has base
    address 0: entries of the link map with [l_addr] 0 are left out.
    Walking on after the chain has ended changes nothing. *)
Theorem loaded_modules_result (fuel : nat) (c : DebuggerCore) (t : Modules.Tracee)
    (ms : list Modules.LoadedModule) :
  Modules.loaded_modules fuel c t = Some ms ->
  (ms = Modules.fallback (Modules.regions t) \/
   (ms <> [] /\
    Forall (fun m => Modules.module_base_address m <> 0) ms /\
    binary_info_ c <> 0 /\ Modules.debug_pointer t <> 0 /\ process_ c <> 0)) /\
  forall fuel', (fuel <= fuel')%nat -> Modules.loaded_modules fuel' c t = Some ms.
Proof.
  unfold Modules.loaded_modules, Modules.chain_modules. intros Hrun.
  destruct (Z.eqb_spec (binary_info_ c) 0) as [_ | Hb]; cbn [negb] in *;
    [injection Hrun as <-; auto |].
  destruct (Z.eqb_spec (Modules.debug_pointer t) 0) as [_ | Hd]; cbn [negb] in *;
    [injection Hrun as <-; auto |].
  destruct (Z.eqb_spec (process_ c) 0) as [_ | Hp]; cbn [negb] in *;
    [injection Hrun as <-; auto |].
  destruct (Modules.read_r_debug t (Modules.debug_pointer t)) as [r_map |];
    [| injection Hrun as <-; auto].
  destruct (r_map =? 0); cbn [negb] in *; [injection Hrun as <-; auto |].
  destruct (Modules.walk fuel t r_map []) as [found |] eqn:Hwalk; [| discriminate].
  apply walk_adds in Hwalk as [(more & -> & Hmore) Hfuel]. cbn [app] in *.
  split.
  - destruct more as [| m more]; injection Hrun as <-; [left; reflexivity |].
    right. split; [discriminate |]. auto.
  - intros fuel' Hle. rewrite (Hfuel fuel' Hle). exact Hrun.
Qed.

Lemma loaded_modules_result_witness :
  Modules.loaded_modules 3 (core (breakpoint_session [])) two_entries
  = Some [{| Modules.module_name := "/lib/libc.so.6";
             Modules.module_base_address := 0x7f0000 |}] /\
  ([{| Modules.module_name := "/lib/libc.so.6"%string;
       Modules.module_base_address := 0x7f0000 |}]
   = Modules.fallback (Modules.regions two_entries) \/
   ([{| Modules.module_name := "/lib/libc.so.6"%string;
        Modules.module_base_address := 0x7f0000 |}] <> [] /\
    Forall (fun m => Modules.module_base_address m <> 0)
      [{| Modules.module_name := "/lib/libc.so.6"%string;
          Modules.module_base_address := 0x7f0000 |}] /\
    binary_info_ (core (breakpoint_session [])) <> 0 /\
    Modules.debug_pointer two_entries <> 0 /\
    process_ (core (breakpoint_session [])) <> 0)) /\
  forall fuel', (3 <= fuel')%nat ->
    Modules.loaded_modules fuel' (core (breakpoint_session [])) two_entries
    = Some [{| Modules.module_name := "/lib/libc.so.6";
               Modules.module_base_address := 0x7f0000 |}].
Proof.
  assert (Hrun : Modules.loaded_modules 3 (core (breakpoint_session [])) two_entries
                 = Some [{| Modules.module_name := "/lib/libc.so.6";
                            Modules.module_base_address := 0x7f0000 |}])
    by (vm_compute; reflexivity).
  split; [exact Hrun |].
  exact (loaded_modules_result 3 (core (breakpoint_session [])) two_entries _ Hrun).
Defined.

(** ** Whom [stop_threads] stops *)

Section StopRequests.

Context {K : Type} `{!Kernel K}.

Lemma stop_thread_requests tid (w : World K) :
  exists w' new,
    stop_thread tid w = Ok tt w' /\ trace w' = new ++ trace w /\
    waited_threads_ (core w) ⊆ waited_threads_ (core w') /\
    pid_ (core w') = pid_ (core w) /\
    Forall (fun e => tid ∉ waited_threads_ (core w) /\
                     stops_thread (pid_ (core w)) tid e) new /\
    (tid ∈ waited_threads_ (core w) -> w' = w).
Proof.
  unfold stop_thread, pid, bind, get.
  destruct (decide (tid ∈ waited_threads_ (core w))) as [Hin | Hout].
  - rewrite bool_decide_eq_true_2 by assumption. cbn [negb].
    exists w, []. split; [reflexivity |]. split; [reflexivity |].
    split; [reflexivity |]. split; [reflexivity |]. split; [constructor | auto].
  - rewrite bool_decide_eq_false_2 by assumption. cbn [negb].
    rewrite sys_eq. rewrite sys_eq.
    set (requests :=
           [(SYS_waitpid tid __WALL,
             answer (after_sys w (SYS_tgkill (pid_ (core w)) tid SIGSTOP))
               (SYS_waitpid tid __WALL));
            (SYS_tgkill (pid_ (core w)) tid SIGSTOP,
             answer w (SYS_tgkill (pid_ (core w)) tid SIGSTOP))]).
    assert (Hnew : Forall (fun e => tid ∉ waited_threads_ (core w) /\
                                    stops_thread (pid_ (core w)) tid e) requests).
    { constructor; [split; [exact Hout | right; reflexivity] |].
      constructor; [split; [exact Hout | left; reflexivity] | constructor]. }
    destruct (0 <? ret _).
    + eexists _, requests. split; [reflexivity |]. split; [reflexivity |].
      split; [cbn; set_solver |]. split; [reflexivity |].
      split; [exact Hnew | contradiction].
    + eexists _, requests. split; [reflexivity |]. split; [reflexivity |].
      split; [reflexivity |]. split; [reflexivity |].
      split; [exact Hnew | contradiction].
Qed.

Lemma for_each_stop_thread_requests l :
  forall (w : World K),
  exists w' new,
    for_each l stop_thread w = Ok tt w' /\ trace w' = new ++ trace w /\
    waited_threads_ (core w) ⊆ waited_threads_ (core w') /\
    pid_ (core w') = pid_ (core w) /\
    Forall (fun e => exists t, t ∈ l /\ t ∉ waited_threads_ (core w) /\
                               stops_thread (pid_ (core w)) t e) new /\
    ((forall t, t ∈ l -> t ∈ waited_threads_ (core w)) -> w' = w).
Proof.
  induction l as [| tid l IH]; intros w.
  - exists w, []. split; [reflexivity |]. split; [reflexivity |].
    split; [reflexivity |]. split; [reflexivity |]. split; [constructor | auto].
  - destruct (stop_thread_requests tid w)
      as (w1 & new1 & Hrun1 & Ht1 & Hsub1 & Hp1 & Hreq1 & Hsame1).
    destruct (IH w1) as (w2 & new2 & Hrun2 & Ht2 & Hsub2 & Hp2 & Hreq2 & Hsame2).
    exists w2, (new2 ++ new1).
    split; [cbn [for_each]; rewrite (bind_Ok_intro _ _ _ _ _ Hrun1); exact Hrun2 |].
    split; [rewrite Ht2, Ht1; apply app_assoc |].
    split; [set_solver |]. split; [congruence |]. split.
    + apply Forall_app. split.
      * eapply Forall_impl; [exact Hreq2 |].
        intros e (t & Hin & Hout & Hstop). exists t.
        split; [right; exact Hin |]. split; [set_solver |].
        rewrite <- Hp1. exact Hstop.
      * eapply Forall_impl; [exact Hreq1 |].
        intros e [Hout Hstop]. exists tid. split; [left |]. auto.
    + intros Hall.
      assert (w1 = w) as -> by (apply Hsame1, Hall; left).
      apply Hsame2. intros t Hin. apply Hall. right. exact Hin.
Qed.

End StopRequests.

(** X24.  [stop_threads] asks the kernel about the threads of the table
    that are not waited, and about no other.  When every thread of the table
    is waited already it returns at once, having asked nothing and changed
    nothing.  Otherwise it waits for each thread it stops, and returns once
    the kernel has answered; when it has returned, each of its requests is
    the SIGSTOP sent to a thread of the table that was not waited, or the
    blocking wait for such a thread. *)
Theorem stop_threads_spares_the_waited {K : Type} `{!Kernel K} (w : World K) :
  (all_stopped (core w) -> stop_threads w = Ok tt w) /\
  (forall w', stop_threads w = Ok tt w' ->
     exists new,
       trace w' = new ++ trace w /\
       Forall (fun e => exists t,
                 is_Some (threads_ (core w) !! t) /\
                 t ∉ waited_threads_ (core w) /\
                 stops_thread (pid_ (core w)) t e) new).
Proof.
  destruct (for_each_stop_thread_requests
              (map fst (map_to_list (threads_ (core w)))) w)
    as (w1 & new & Hrun & Ht & _ & _ & Hreq & Hsame).
  assert (Hkey : forall t, t ∈ map fst (map_to_list (threads_ (core w))) ->
                           is_Some (threads_ (core w) !! t)).
  { intros t Hin. apply list_elem_of_In, in_map_iff in Hin as ([t' info] & <- & Hin).
    apply list_elem_of_In, elem_of_map_to_list in Hin. cbn. eauto. }
  assert (Hstop : stop_threads w = Ok tt w1) by exact Hrun.
  split.
  - intros Hall. rewrite Hstop. f_equal. apply Hsame.
    intros t Hin. apply Hall, Hkey, Hin.
  - intros w' Hrun'. rewrite Hstop in Hrun'. injection Hrun' as <-.
    exists new. split; [exact Ht |].
    eapply Forall_impl; [exact Hreq |].
    intros e (t & Hin & Hrest). exists t. split; [apply Hkey, Hin | exact Hrest].
Qed.

Lemma stop_threads_spares_the_waited_witness :
  exists new,
    trace stop_done = new ++ trace (one_thread stop_script) /\
    Forall (fun e => exists t,
              is_Some (threads_ (core (one_thread stop_script)) !! t) /\
              t ∉ waited_threads_ (core (one_thread stop_script)) /\
              stops_thread (pid_ (core (one_thread stop_script))) t e) new.
Proof.
  apply (proj2 (stop_threads_spares_the_waited (one_thread stop_script)) stop_done).
  vm_compute. reflexivity.
Defined.
